(** * CodeQL playground extension: database rebuild workflow

    A shallow embedding of the two variants of the VS Code extension
    ([src/extension.js] and the older variant [src/unnamed/part_000]):
    path sanitisation, the recursive clean-up of stale [sample_*]
    database directories, the construction and launch of the
    [codeql database create] command, and the registration of the new
    database with the host.

    The JavaScript is asynchronous but strictly sequential (every call is
    awaited), so it is embedded in a state-and-exception monad over a
    world made of a file-system tree and a chronological trace of the
    observable effects. *)

From Stdlib Require Import List String Ascii ZArith Lia Bool DecimalString DecimalZ
  DecimalPos.
Import ListNotations.
Open Scope string_scope.

#[local] Set Warnings "-register-all".

(** ** Strings *)

Definition slash : ascii := "/"%char.

(** [s.split(sep)] for a one-character separator: the segments between
    separators; never empty. *)
Fixpoint split_on (sep : ascii) (s : string) : list string :=
  match s with
  | EmptyString => [EmptyString]
  | String c s' =>
      if Ascii.eqb c sep then EmptyString :: split_on sep s'
      else match split_on sep s' with
           | [] => [String c EmptyString]
           | seg :: rest => String c seg :: rest
           end
  end.

Definition split_slash : string -> list string := split_on slash.

Fixpoint no_slash (s : string) : bool :=
  match s with
  | EmptyString => true
  | String c s' => negb (Ascii.eqb c slash) && no_slash s'
  end.

Fixpoint last_char (s : string) : option ascii :=
  match s with
  | EmptyString => None
  | String c EmptyString => Some c
  | String _ s' => last_char s'
  end.

Definition ends_with_slash (s : string) : bool :=
  match last_char s with
  | Some c => Ascii.eqb c slash
  | None => false
  end.

(** Number-to-string conversion of JavaScript on an integer value (exact
    below 10^21, far above any [Date.now()]). *)
Definition string_of_Z (z : Z) : string := NilZero.string_of_int (Z.to_int z).

(** ** The [path] module of Node.js, POSIX flavour

    [path] is a platform library, not code of the extension.  Its POSIX
    implementation scans the string once, separator by separator; the model
    below works on the list of segments, which is what that scan computes. *)
Module path.

(** [posix.isAbsolute]: the first character is the separator. *)
Definition isAbsolute (p : string) : bool :=
  match p with
  | String c _ => Ascii.eqb c slash
  | EmptyString => false
  end.

(** [normalizeString], on segments, with the result kept as a reversed
    stack [res]: empty and [.] segments are dropped, [..] removes the last
    kept segment unless there is none or it is itself [..], in which case
    [..] is kept only when [allowAboveRoot]. *)
Fixpoint normalizeSegs (allowAboveRoot : bool) (res : list string)
         (segs : list string) : list string :=
  match segs with
  | [] => rev res
  | seg :: rest =>
      if (seg =? "") || (seg =? ".") then normalizeSegs allowAboveRoot res rest
      else if seg =? ".." then
        match res with
        | last :: res' =>
            if last =? ".." then
              normalizeSegs allowAboveRoot
                (if allowAboveRoot then ".." :: res else res) rest
            else normalizeSegs allowAboveRoot res' rest
        | [] =>
            normalizeSegs allowAboveRoot
              (if allowAboveRoot then [".."] else []) rest
        end
      else normalizeSegs allowAboveRoot (seg :: res) rest
  end.

Definition normalizeString (p : string) (allowAboveRoot : bool) : string :=
  String.concat "/" (normalizeSegs allowAboveRoot [] (split_slash p)).

(** [posix.normalize] *)
Definition normalize (p : string) : string :=
  if p =? "" then "."
  else
    let abs := isAbsolute p in
    let trailingSeparator := ends_with_slash p in
    let q := normalizeString p (negb abs) in
    if q =? "" then
      if abs then "/" else if trailingSeparator then "./" else "."
    else
      let q' := if trailingSeparator then q ++ "/" else q in
      if abs then "/" ++ q' else q'.

(** [posix.join(a, b)]: the non-empty arguments joined by the separator,
    then normalised. *)
Definition join (a b : string) : string :=
  if a =? "" then (if b =? "" then "." else normalize b)
  else if b =? "" then normalize a
  else normalize (a ++ "/" ++ b).

(** [posix.resolve(p)] with [cwd] the result of [process.cwd()]: arguments
    are taken from the right until an absolute one is met, the working
    directory last. *)
Definition resolve (cwd p : string) : string :=
  let r1 := if p =? "" then "" else p ++ "/" in
  let abs1 := isAbsolute p in
  let r2 := if abs1 then r1 else if cwd =? "" then r1 else cwd ++ "/" ++ r1 in
  let abs2 := if abs1 then true else isAbsolute cwd in
  let q := normalizeString r2 (negb abs2) in
  if abs2 then "/" ++ q
  else if q =? "" then "." else q.

End path.

(** ** Values of the host and of the platform *)

Inductive Errno := ENOENT | ENOTDIR | EISDIR | ENOTEMPTY | EACCES | EBUSY | EIO.

Inductive Syscall := Readdir | Lstat | Unlink | Rmdir.

Inductive Stream := Stdout | Stderr.

(** The exceptions the code can meet. *)
Inductive JsError :=
| InvalidPath                                          (* new Error('Invalid path') *)
| SystemError (call : Syscall) (code : Errno) (p : string) (* rejection of fs.promises *)
| SpawnError (code : Errno) (file : string)            (* 'error' event of a child *)
| ExecFileError (code : option Z) (signal : option string) (* execFile: abnormal end *)
| MaxBufferError (s : Stream)                          (* execFile: too much output *)
| ReferenceError (name : string).

(** How a child process is started. *)
Inductive Launch :=
| ExecFile (file : string) (args : list string)  (* child_process.execFile(file, args) *)
| SpawnShell (command : string).                 (* child_process.spawn(command, {shell: true}) *)

(** How a child process ends: it exits with a code, it is ended by a
    signal, it could not be started, or it keeps running (a tool that waits
    or loops for ever: the code sets no time limit). *)
Inductive ChildEnd :=
| Exited (code : Z)
| Killed (signal : string)
| SpawnFailed (e : Errno)
| NeverEnds.

(** What a child process does: the chunks it writes, in order, as its
    listeners receive them; how it ends after them when it is left alone;
    and how it ends when, before that, its streams are closed and it is
    sent [SIGTERM] (a tool that does not handle the signal dies of it:
    [Killed "SIGTERM"]; one that handles it may exit with a code or go
    on). *)
Record ChildRun := {
  output : list (Stream * string);
  ending : ChildEnd;
  on_kill : ChildEnd
}.

(** Events of a [ChildProcess] object. *)
Inductive ChildEvent :=
| OnData (s : Stream) (chunk : string)
| OnExit (code : option Z) (signal : option string)
| OnError (e : JsError)
| OnClose (code : option Z) (signal : option string).

(** Node emits ['exit'] when the process ends and ['close'] after it, once
    the streams are closed; a child that could not be spawned emits
    ['error'] in place of ['exit']; a child that never ends emits neither. *)
Definition child_events (file : string) (r : ChildRun) : list ChildEvent :=
  match ending r with
  | Exited c =>
      map (fun d => OnData (fst d) (snd d)) (output r)
        ++ [OnExit (Some c) None; OnClose (Some c) None]
  | Killed sg =>
      map (fun d => OnData (fst d) (snd d)) (output r)
        ++ [OnExit None (Some sg); OnClose None (Some sg)]
  | SpawnFailed e => [OnError (SpawnError e file); OnClose None None]
  | NeverEnds => map (fun d => OnData (fst d) (snd d)) (output r)
  end.

(** [child_process.execFile] is called without options, so it buffers at
    most [maxBuffer] bytes of each stream, 1 MiB by default. *)
Definition maxBuffer : Z := 1048576.

(** The chunks [execFile] reads from a child, and whether it stops there:
    when the bytes read from one stream pass [maxBuffer], it destroys both
    streams, so that no later chunk is read, and kills the child. *)
Fixpoint execFile_reads (out : list (Stream * string)) (stdoutLen stderrLen : Z)
  : list (Stream * string) * bool :=
  match out with
  | [] => ([], false)
  | d :: rest =>
      let len := Z.of_nat (String.length (snd d)) in
      let stdoutLen' := match fst d with
                        | Stdout => (stdoutLen + len)%Z
                        | Stderr => stdoutLen
                        end in
      let stderrLen' := match fst d with
                        | Stdout => stderrLen
                        | Stderr => (stderrLen + len)%Z
                        end in
      if (maxBuffer <? stdoutLen')%Z || (maxBuffer <? stderrLen')%Z
      then ([d], true)
      else (d :: fst (execFile_reads rest stdoutLen' stderrLen'),
            snd (execFile_reads rest stdoutLen' stderrLen'))
  end.

(** Whether the child writes more than [execFile] buffers. *)
Definition overflows (r : ChildRun) : bool :=
  snd (execFile_reads (output r) 0 0).

(** A child under [execFile]: a child that was started and writes more
    than [maxBuffer] on a stream has its streams closed and is sent the
    default [killSignal], [SIGTERM], at the chunk that passes the limit. *)
Definition execFile_run (r : ChildRun) : ChildRun :=
  match ending r with
  | SpawnFailed _ => r
  | e => {| output := fst (execFile_reads (output r) 0 0);
            ending := if overflows r then on_kill r else e;
            on_kill := on_kill r |}
  end.

(** The [increment] of a progress report: a literal, or
    [(processedFiles / totalFiles) * 100] kept as the two counters. *)
Inductive Increment :=
| Pct (n : Z)
| Ratio (processed total : nat).

(** Observable effects, in the order they happen. *)
Inductive Event :=
| EUnlink (p : string)                               (* a file was unlinked *)
| ERmdir (p : string)                                (* a directory was removed *)
| EConsole (text : string) (err : option JsError)    (* console.log / console.error *)
| EWithProgress (title : string)                     (* vscode.window.withProgress *)
| EReport (increment : Increment) (message : option string) (* progress.report *)
| ELaunch (l : Launch)                               (* a child process is started *)
| ESetCurrentDatabase (p : string)                   (* codeQL.setCurrentDatabase *)
| EShowError (msg : string)                          (* showErrorMessage *)
| EShowInformation (msg : string)                    (* showInformationMessage *)
| EUncaught (e : JsError).                           (* exception out of a listener *)

(** ** The file system: a tree of named entries

    [File] stands for every entry that [lstat] does not report as a
    directory (regular files, symbolic links, ...). *)
Inductive node :=
| File
| Dir (entries : list (string * node)).

Definition is_dir (n : node) : bool :=
  match n with Dir _ => true | File => false end.

Fixpoint assoc (k : string) (es : list (string * node)) : option node :=
  match es with
  | [] => None
  | (k', n) :: es' => if k' =? k then Some n else assoc k es'
  end.

Fixpoint lookup (cs : list string) (n : node) : option node :=
  match cs with
  | [] => Some n
  | c :: cs' =>
      match n with
      | Dir es => match assoc c es with
                  | Some m => lookup cs' m
                  | None => None
                  end
      | File => None
      end
  end.

Definition remove_entry (k : string) (es : list (string * node)) :
  list (string * node) :=
  filter (fun e => negb (fst e =? k)) es.

(** The tree without the entry at path [cs]. *)
Fixpoint remove_path (cs : list string) (n : node) : node :=
  match cs with
  | [] => n
  | c :: cs' =>
      match n with
      | File => File
      | Dir es =>
          match cs' with
          | [] => Dir (remove_entry c es)
          | _ :: _ =>
              Dir (map (fun e => if fst e =? c
                                 then (fst e, remove_path cs' (snd e))
                                 else e) es)
          end
      end
  end.

Fixpoint height (n : node) : nat :=
  match n with
  | File => 0
  | Dir es => S (list_max (map (fun e => height (snd e)) es))
  end.

(** A file name as a directory can hold it. *)
Definition proper (s : string) : bool :=
  negb (s =? "") && negb (s =? ".") && negb (s =? "..") && no_slash s.

Fixpoint distinct (l : list string) : bool :=
  match l with
  | [] => true
  | x :: l' => negb (existsb (String.eqb x) l') && distinct l'
  end.

(** Every directory holds proper, pairwise distinct names. *)
Fixpoint wf (n : node) : bool :=
  match n with
  | File => true
  | Dir es =>
      forallb (fun e => proper (fst e)) es
      && distinct (map fst es)
      && forallb (fun e => wf (snd e)) es
  end.

Record World := { fs : node; trace : list Event }.

(** ** The environment of one run *)
Record Env := {
  cwd : string;                               (* process.cwd() *)
  now : Z;                                    (* Date.now() *)
  fault : Syscall -> string -> option Errno;  (* failures the platform injects:
                                                 permissions, I/O errors, ... *)
  child : Launch -> ChildRun;                 (* what the external tool does *)
  quickPick : option nat;                     (* entry chosen in showQuickPick *)
  inputBox : option string                    (* text submitted in showInputBox *)
}.

(** ** The monad of the workflow *)

Inductive Outcome (A : Type) : Type :=
| Ok (a : A)             (* the promise is fulfilled *)
| Throw (e : JsError)    (* the promise is rejected *)
| Pending                (* awaits a promise that is never settled *)
| OutOfFuel.             (* recursion budget of the model exhausted *)

Arguments Ok {A} a.
Arguments Throw {A} e.
Arguments Pending {A}.
Arguments OutOfFuel {A}.

Definition M (A : Type) : Type := World -> Outcome A * World.

Definition ret {A} (a : A) : M A := fun w => (Ok a, w).

Definition bind {A B} (m : M A) (k : A -> M B) : M B :=
  fun w =>
    match m w with
    | (Ok a, w') => k a w'
    | (Throw e, w') => (Throw e, w')
    | (Pending, w') => (Pending, w')
    | (OutOfFuel, w') => (OutOfFuel, w')
    end.

Definition throw {A} (e : JsError) : M A := fun w => (Throw e, w).

(** [try { m } catch (err) { h err }] *)
Definition try_catch {A} (m : M A) (h : JsError -> M A) : M A :=
  fun w =>
    match m w with
    | (Throw e, w') => h e w'
    | r => r
    end.

Definition emit (ev : Event) : M unit :=
  fun w => (Ok tt, {| fs := fs w; trace := trace w ++ [ev] |}).

Declare Scope js_scope.
Delimit Scope js_scope with js.
Notation "x <- m ;; k" := (bind m (fun x => k))
  (at level 61, m at next level, right associativity) : js_scope.
Notation "m ;; k" := (bind m (fun _ => k))
  (at level 61, right associativity) : js_scope.
Open Scope js_scope.

(** [for (const x of l) { await body x }] *)
Fixpoint for_of {X} (l : list X) (body : X -> M unit) : M unit :=
  match l with
  | [] => ret tt
  | x :: l' => body x ;; for_of l' body
  end.

(** A promise settles once: later calls of [resolve] or [reject] change
    nothing. *)
Inductive Settled (A : Type) : Type :=
| Resolved (v : A)
| Rejected (e : JsError).

Arguments Resolved {A} v.
Arguments Rejected {A} e.

Definition Promise (A : Type) : Type := option (Settled A).

Definition resolve {A} (v : A) (p : Promise A) : Promise A :=
  match p with None => Some (Resolved v) | Some _ => p end.

Definition reject {A} (e : JsError) (p : Promise A) : Promise A :=
  match p with None => Some (Rejected e) | Some _ => p end.

Definition await {A} (p : Promise A) : M A :=
  fun w =>
    match p with
    | Some (Resolved v) => (Ok v, w)
    | Some (Rejected e) => (Throw e, w)
    | None => (Pending, w)
    end.

(** The listeners of a child process run one event after the other; an
    exception thrown by a listener is not seen by the code that awaits: it
    ends that listener and surfaces as an uncaught exception. *)
Fixpoint dispatch {S} (listener : ChildEvent -> S -> M S)
         (evs : list ChildEvent) (st : S) : M S :=
  match evs with
  | [] => ret st
  | ev :: evs' =>
      fun w =>
        match listener ev st w with
        | (Ok st', w') => dispatch listener evs' st' w'
        | (Throw e, w') => (emit (EUncaught e) ;; dispatch listener evs' st) w'
        | (Pending, w') => (Pending, w')
        | (OutOfFuel, w') => (OutOfFuel, w')
        end
  end.

(** The value of [command] in [if (command)]: [undefined] and the empty
    string are falsy. *)
Definition truthy (v : option string) : bool :=
  match v with
  | Some s => negb (s =? "")
  | None => false
  end.

(** The string a value of [command] stands for where a string is built
    from it. *)
Definition string_value (v : option string) : string :=
  match v with
  | Some s => s
  | None => "undefined"
  end.

(** ** Code shared by the two variants *)
Section Workflow.

Variable env : Env.

(** How the platform reads a path: relative to the working directory
    unless absolute, [.] and [..] resolved. *)
Definition fs_components (p : string) : list string :=
  path.normalizeSegs false []
    (split_slash (if path.isAbsolute p then p else cwd env ++ "/" ++ p)).

(** [fs.promises.readdir]: the names in the directory. *)
Definition readdir (p : string) : M (list string) :=
  fun w =>
    match fault env Readdir p with
    | Some e => (Throw (SystemError Readdir e p), w)
    | None =>
        match lookup (fs_components p) (fs w) with
        | Some (Dir es) => (Ok (map fst es), w)
        | Some File => (Throw (SystemError Readdir ENOTDIR p), w)
        | None => (Throw (SystemError Readdir ENOENT p), w)
        end
    end.

(** [fs.promises.lstat], reduced to what the code reads of the result:
    [isDirectory()]. *)
Definition lstat (p : string) : M bool :=
  fun w =>
    match fault env Lstat p with
    | Some e => (Throw (SystemError Lstat e p), w)
    | None =>
        match lookup (fs_components p) (fs w) with
        | Some n => (Ok (is_dir n), w)
        | None => (Throw (SystemError Lstat ENOENT p), w)
        end
    end.

(** [fs.promises.unlink] *)
Definition unlink (p : string) : M unit :=
  fun w =>
    match fault env Unlink p with
    | Some e => (Throw (SystemError Unlink e p), w)
    | None =>
        match lookup (fs_components p) (fs w) with
        | Some File =>
            (Ok tt, {| fs := remove_path (fs_components p) (fs w);
                       trace := trace w ++ [EUnlink p] |})
        | Some (Dir _) => (Throw (SystemError Unlink EISDIR p), w)
        | None => (Throw (SystemError Unlink ENOENT p), w)
        end
    end.

(** [fs.promises.rmdir]: only an empty directory, and never the root. *)
Definition rmdir (p : string) : M unit :=
  fun w =>
    match fault env Rmdir p with
    | Some e => (Throw (SystemError Rmdir e p), w)
    | None =>
        match lookup (fs_components p) (fs w) with
        | Some (Dir []) =>
            match fs_components p with
            | [] => (Throw (SystemError Rmdir EBUSY p), w)
            | _ :: _ =>
                (Ok tt, {| fs := remove_path (fs_components p) (fs w);
                           trace := trace w ++ [ERmdir p] |})
            end
        | Some (Dir (_ :: _)) => (Throw (SystemError Rmdir ENOTEMPTY p), w)
        | Some File => (Throw (SystemError Rmdir ENOTDIR p), w)
        | None => (Throw (SystemError Rmdir ENOENT p), w)
        end
    end.

Definition console_error (text : string) (err : JsError) : M unit :=
  emit (EConsole text (Some err)).

Definition console_log (text : string) : M unit :=
  emit (EConsole text None).

Definition report (increment : Increment) (message : option string) : M unit :=
  emit (EReport increment message).

(** [vscode.window.withProgress(options, task)]: opens the notification
    and runs the task. *)
Definition withProgress {A} (title : string) (task : M A) : M A :=
  emit (EWithProgress title) ;; task.

(** [sanitizePath] (both variants, same text). *)
Definition sanitizePath (inputPath : string) : M string :=
  let absolutePath := path.resolve (cwd env) inputPath in
  if path.isAbsolute inputPath && (inputPath =? absolutePath)
  then ret absolutePath
  else throw InvalidPath.

(** [cleanupDbFolder] (both variants, same text).  The recursion follows
    the directories found on disk, so the model carries a budget. *)
Fixpoint cleanupDbFolder (fuel : nat) (folderPath : string) : M unit :=
  match fuel with
  | O => fun w => (OutOfFuel, w)
  | S fuel' =>
      try_catch
        (files <- readdir folderPath ;;
         for_of files (fun file =>
           curPath <- sanitizePath (path.join folderPath file) ;;
           curStat <- lstat curPath ;;
           if curStat then cleanupDbFolder fuel' curPath
           else unlink curPath) ;;
         rmdir folderPath)
        (fun err => console_error "Error cleaning up database subfolder:" err)
  end.

(** The body of the [for] loop of [cleanupOldDb]; [processedFiles] is the
    counter the loop increments. *)
Fixpoint cleanupOldDb_loop (fuel : nat) (sanitizedFolderPath : string)
         (totalFiles : nat) (files : list string) (processedFiles : nat)
  : M unit :=
  match files with
  | [] => ret tt
  | file :: rest =>
      let curPath := path.join sanitizedFolderPath file in
      curStat <- lstat curPath ;;
      (if curStat && prefix "sample_" file
       then cleanupDbFolder fuel curPath
       else ret tt) ;;
      let processedFiles := S processedFiles in
      report (Ratio processedFiles totalFiles) None ;;
      cleanupOldDb_loop fuel sanitizedFolderPath totalFiles rest processedFiles
  end.

(** [cleanupOldDb] (both variants, same text). *)
Definition cleanupOldDb (fuel : nat) (folderPath : string) : M unit :=
  try_catch
    (sanitizedFolderPath <- sanitizePath folderPath ;;
     files <- readdir sanitizedFolderPath ;;
     let totalFiles := List.length files in
     withProgress "Cleaning up old databases"
       (report (Pct 0) None ;;
        cleanupOldDb_loop fuel sanitizedFolderPath totalFiles files 0))
    (fun err => console_error "Error cleaning up database folder:" err).

(** The entries offered by [showQuickPick]: label and value. *)
Definition languageOptions : list (string * string) :=
  [("Java", "java"); ("JavaScript/TypeScript", "javascript")].

(** [vscode.window.showQuickPick]: the entry picked, or [undefined]. *)
Definition showQuickPick (options : list (string * string))
  : M (option (string * string)) :=
  ret (match quickPick env with
       | Some i => nth_error options i
       | None => None
       end).

(** [vscode.window.showInputBox]: the text, or [undefined]. *)
Definition showInputBox : M (option string) := ret (inputBox env).

End Workflow.

(** ** [src/extension.js] *)
Module Extension.
Section Variant.

Variable env : Env.

(** What [executeCommand] resolves with. *)
Inductive Value :=
| VCode (code : option Z)
| VStdout (s : string).

(** State of the listeners of one [execFile] call: the promise of
    [executeCommand], whether [execFile] already ran its callback, the
    standard output buffered so far, the bytes read from each stream, and
    the error [execFile] keeps when a stream passes [maxBuffer]. *)
Record ExecState := {
  promise : Promise Value;
  exited : bool;
  stdout : string;
  stdoutLen : Z;
  stderrLen : Z;
  ex : option JsError
}.

(** The callback given to [execFile]:
    [if (error) { reject(error); } resolve(stdout);] *)
Definition callback (error : option JsError) (out : string)
           (p : Promise Value) : Promise Value :=
  let p := match error with
           | Some e => reject e p
           | None => p
           end in
  resolve (VStdout out) p.

(** Listeners on the child of [executeCommand]: those [execFile] installs
    (buffering up to [maxBuffer], and the callback on ['close'] or
    ['error'], once) and the ['exit'] listener of the extension. *)
Definition executeCommand_listener (ev : ChildEvent) (st : ExecState)
  : M ExecState :=
  match ev with
  | OnData Stdout chunk =>
      let len := (stdoutLen st + Z.of_nat (String.length chunk))%Z in
      if (maxBuffer <? len)%Z
      then ret {| promise := promise st; exited := exited st;
                  stdout := stdout st
                            ++ substring 0 (Z.to_nat (maxBuffer - stdoutLen st))
                                 chunk;
                  stdoutLen := len; stderrLen := stderrLen st;
                  ex := Some (MaxBufferError Stdout) |}
      else ret {| promise := promise st; exited := exited st;
                  stdout := stdout st ++ chunk;
                  stdoutLen := len; stderrLen := stderrLen st; ex := ex st |}
  | OnData Stderr chunk =>
      let len := (stderrLen st + Z.of_nat (String.length chunk))%Z in
      ret {| promise := promise st; exited := exited st; stdout := stdout st;
             stdoutLen := stdoutLen st; stderrLen := len;
             ex := if (maxBuffer <? len)%Z
                   then Some (MaxBufferError Stderr) else ex st |}
  | OnExit code _ =>
      report (Pct 100) None ;;
      ret {| promise := resolve (VCode code) (promise st);
             exited := exited st; stdout := stdout st;
             stdoutLen := stdoutLen st; stderrLen := stderrLen st;
             ex := ex st |}
  | OnError e =>
      if exited st then ret st
      else ret {| promise := callback (Some e) (stdout st) (promise st);
                  exited := true; stdout := stdout st;
                  stdoutLen := stdoutLen st; stderrLen := stderrLen st;
                  ex := Some e |}
  | OnClose code signal =>
      if exited st then ret st
      else
        let error :=
          match ex st with
          | Some e => Some e
          | None =>
              match code, signal with
              | Some 0%Z, None => None
              | _, _ => Some (ExecFileError code signal)
              end
          end in
        ret {| promise := callback error (stdout st) (promise st);
               exited := true; stdout := stdout st;
               stdoutLen := stdoutLen st; stderrLen := stderrLen st;
               ex := ex st |}
  end.

(** [executeCommand] *)
Definition executeCommand (cmd : list string) : M Value :=
  let l := ExecFile (hd "undefined" cmd) (tl cmd) in
  withProgress "Creating CodeQL database"
    (report (Pct 0) None ;;
     emit (ELaunch l) ;;
     st <- dispatch executeCommand_listener
             (child_events (hd "undefined" cmd) (execFile_run (child env l)))
             {| promise := None; exited := false; stdout := "";
                stdoutLen := 0; stderrLen := 0; ex := None |} ;;
     await (promise st)).

(** [loadDatabase] *)
Definition loadDatabase (databasPath : string) : M unit :=
  emit (ESetCurrentDatabase databasPath).

(** [updateDb] *)
Definition updateDb (fuel : nat) (language sourceRoot : string)
           (command : option string) : M unit :=
  cleanupOldDb env fuel sourceRoot ;;
  database <- sanitizePath env
                (path.join sourceRoot ("sample_" ++ string_of_Z (now env))) ;;
  let cmd :=
    if truthy command
    then ["codeql"; "database"; "create"; database;
          "--language=" ++ language; "--source-root"; sourceRoot;
          "--command"; string_value command; "--overwrite"]
    else ["codeql"; "database"; "create"; database;
          "--language=" ++ language; "--source-root"; sourceRoot;
          "--build-mode=none"; "--overwrite"] in
  try_catch
    (_ <- executeCommand cmd ;;
     loadDatabase database)
    (fun error =>
       console_error "Error occurred during database update:" error).

(** [buildCodeqlDb]; [uri] is [None] for a missing argument. *)
Definition buildCodeqlDb (fuel : nat) (uri : option string)
           (includeCommand : bool) : M unit :=
  match uri with
  | None => emit (EShowError "No folder path available.")
  | Some fsPath =>
      if fsPath =? "" then emit (EShowError "No folder path available.")
      else
        language <- showQuickPick env languageOptions ;;
        match language with
        | None => ret tt
        | Some (_, value) =>
            command <- (if includeCommand then showInputBox env
                        else ret None) ;;
            updateDb fuel value fsPath command
        end
  end.

End Variant.
End Extension.

(** ** [src/unnamed/part_000] *)
Module Part000.
Section Variant.

Variable env : Env.

(** [`${code}`] for an exit code or signal that may be [null]. *)
Definition show_code (code : option Z) : string :=
  match code with
  | Some z => string_of_Z z
  | None => "null"
  end.

Definition show_signal (signal : option string) : string :=
  match signal with
  | Some s => s
  | None => "null"
  end.

(** [code != 0] *)
Definition nonzero (code : option Z) : bool :=
  match code with
  | Some 0%Z => false
  | _ => true
  end.

(** Listeners [codeqlCmd] installs on the child; the state is the promise
    awaited inside [withProgress].  In the ['exit'] listener the argument
    of [reject] reads the variable [stderr], which no scope declares:
    evaluating it throws before [reject] is called. *)
Definition codeqlCmd_listener (ev : ChildEvent) (p : Promise unit)
  : M (Promise unit) :=
  match ev with
  | OnData Stderr data =>
      console_log data ;;
      report (Pct 2) (Some data) ;;
      ret p
  | OnData Stdout data =>
      console_log data ;;
      report (Pct 1) (Some data) ;;
      ret p
  | OnExit code signal =>
      console_log ("exit " ++ show_code code ++ " " ++ show_signal signal) ;;
      p <- (if nonzero code
            then throw (ReferenceError "stderr")
            else ret p) ;;
      report (Pct 100) (Some "CodeQL database creation completed.") ;;
      ret (resolve tt p)
  | OnError error =>
      emit (EConsole "" (Some error)) ;;
      ret (reject error p)
  | OnClose _ _ => ret p
  end.

(** [codeqlCmd] *)
Definition codeqlCmd (cmd : string) : M unit :=
  try_catch
    (withProgress "Creating CodeQL database"
       (report (Pct 0) (Some "Starting CodeQL database creation") ;;
        emit (ELaunch (SpawnShell cmd)) ;;
        p <- dispatch codeqlCmd_listener
               (child_events "/bin/sh" (child env (SpawnShell cmd))) None ;;
        await p))
    (fun err => emit (EConsole "" (Some err))).

(** [loadDatabase] *)
Definition loadDatabase (databasePath : string) : M unit :=
  emit (ESetCurrentDatabase databasePath) ;;
  emit (EShowInformation
          "Finished building CodeQL database and set it as current database for analyzing.").

(** [updateDb] *)
Definition updateDb (fuel : nat) (language sourceRoot : string)
           (command : option string) : M unit :=
  cleanupOldDb env fuel sourceRoot ;;
  database <- sanitizePath env
                (path.join sourceRoot ("sample_" ++ string_of_Z (now env))) ;;
  let cmd :=
    if truthy command
    then "codeql database create " ++ database
           ++ " --language=" ++ language
           ++ " --source-root " ++ sourceRoot
           ++ " --command " ++ string_value command ++ " --overwrite"
    else "codeql database create " ++ database
           ++ " --language=" ++ language
           ++ " --source-root " ++ sourceRoot
           ++ " --build-mode=none --overwrite" in
  try_catch
    (codeqlCmd cmd ;;
     loadDatabase database)
    (fun error =>
       console_error "Error occurred during database update:" error).

(** [buildCodeqlDb]; [uri] is [None] for a missing argument. *)
Definition buildCodeqlDb (fuel : nat) (uri : option string)
           (includeCommand : bool) : M unit :=
  match uri with
  | None => emit (EShowError "No folder path available.")
  | Some fsPath =>
      if fsPath =? "" then emit (EShowError "No folder path available.")
      else
        language <- showQuickPick env languageOptions ;;
        match language with
        | None => ret tt
        | Some (_, value) =>
            command <- (if includeCommand then showInputBox env
                        else ret None) ;;
            updateDb fuel value fsPath command
        end
  end.

End Variant.
End Part000.

(** ** Reading a trace *)

Definition launches (t : list Event) : list Launch :=
  flat_map (fun ev => match ev with ELaunch l => [l] | _ => [] end) t.

Definition registrations (t : list Event) : list string :=
  flat_map (fun ev => match ev with ESetCurrentDatabase p => [p] | _ => [] end) t.

(** The deletions: paths unlinked or removed, in order. *)
Definition deletions (t : list Event) : list Event :=
  filter (fun ev => match ev with EUnlink _ | ERmdir _ => true | _ => false end) t.

(** The absolute path made of the segments [l]. *)
Definition abs_path (l : list string) : string := "/" ++ String.concat "/" l.

(** The deletions that empty and remove the tree [n] found at [l]: children
    first, in listing order, then the directory itself. *)
Fixpoint postorder (l : list string) (n : node) : list Event :=
  match n with
  | File => [EUnlink (abs_path l)]
  | Dir es =>
      flat_map (fun e => postorder (l ++ [fst e]) (snd e)) es
        ++ [ERmdir (abs_path l)]
  end.

(** A child of the source root that [cleanupOldDb] takes for a stale
    database: a directory whose name starts with [sample_]. *)
Definition stale (e : string * node) : bool :=
  is_dir (snd e) && prefix "sample_" (fst e).

(** The words a POSIX shell makes of a command line that has no quoting
    and no operator: the fields between blanks. *)
Definition sh_words (command : string) : list string :=
  filter (fun s => negb (s =? "")) (split_on " "%char command).

(** The argument vector the started program receives. *)
Definition argv (l : Launch) : list string :=
  match l with
  | ExecFile file args => file :: args
  | SpawnShell command => sh_words command
  end.

(** ** Scenarios *)

Definition quiet : Syscall -> string -> option Errno := fun _ _ => None.

Definition tool_exits (code : Z) : Launch -> ChildRun :=
  fun _ => {| output := []; ending := Exited code;
              on_kill := Killed "SIGTERM" |}.

Definition env0 (code : Z) (pick : option nat) (input : option string) : Env :=
  {| cwd := "/home/user"; now := 1700000000000; fault := quiet;
     child := tool_exits code; quickPick := pick; inputBox := input |}.

(** [/proj] holds a stale database with one file in a subdirectory, an
    unrelated directory, a directory that only looks alike, and a file
    whose name has the prefix. *)
Definition proj_fs : node :=
  Dir [("proj",
        Dir [("sample_1000", Dir [("db.bin", File);
                                  ("log", Dir [("a.txt", File)])]);
             ("other", Dir [("keep.txt", File)]);
             ("sample_notes.txt", File);
             ("my_sample_1", Dir [])]);
       ("etc", Dir [("passwd", File)])].

Definition world0 : World := {| fs := proj_fs; trace := [] |}.

(** A disk on which a file of the first stale database cannot be unlinked,
    and on which [/gone] cannot be listed. *)
Definition denied : Syscall -> string -> option Errno :=
  fun c p =>
    match c with
    | Unlink => if p =? "/proj/sample_1/locked.bin" then Some EACCES else None
    | Readdir => if p =? "/gone" then Some EACCES else None
    | _ => None
    end.

Definition env_denied : Env :=
  {| cwd := "/home/user"; now := 1700000000000; fault := denied;
     child := tool_exits 0; quickPick := None; inputBox := None |}.

Definition two_stale_fs : node :=
  Dir [("proj",
        Dir [("sample_1", Dir [("locked.bin", File); ("free.bin", File)]);
             ("sample_2", Dir [("db.bin", File)]);
             ("src", Dir [("Main.java", File)])]);
       ("gone", Dir [])].

Definition world_two : World := {| fs := two_stale_fs; trace := [] |}.

(** No failure is injected at [l] or below it. *)
Definition calm (env : Env) (l : list string) : Prop :=
  forall (c : Syscall) (ds : list string),
    fault env c (abs_path (l ++ ds)) = None.

(** What [cleanupDbFolder] does with budget [fuel] on a directory of a
    well-formed tree when nothing fails: it removes it, by the deletions of
    [postorder]. *)
Definition removes_tree (env : Env) (fuel : nat) : Prop :=
  forall (l : list string) (es : list (string * node)) (w : World),
    forallb proper l = true -> l <> [] -> calm env l ->
    lookup l (fs w) = Some (Dir es) ->
    wf (Dir es) = true ->
    height (Dir es) <= fuel ->
    cleanupDbFolder env fuel (abs_path l) w
    = (Ok tt, {| fs := remove_path l (fs w);
                 trace := trace w ++ postorder l (Dir es) |}).

(** The event [ev] deletes [root/f] or something below it, for an entry
    [f] of [es] taken for a stale database. *)
Definition deletes_under_stale (root : list string)
           (es : list (string * node)) (ev : Event) : Prop :=
  exists (f : string) (n : node) (ds : list string),
    In (f, n) es /\ stale (f, n) = true
    /\ (ev = EUnlink (abs_path (root ++ f :: ds))
        \/ ev = ERmdir (abs_path (root ++ f :: ds))).

(** The call came back: it returned or it threw. *)
Definition settles {A} (r : Outcome A) : Prop :=
  match r with
  | Ok _ | Throw _ => True
  | Pending | OutOfFuel => False
  end.

(** The event [ev] deletes the entry at [l] or something below it. *)
Definition deletes_under (l : list string) (ev : Event) : Prop :=
  exists ds,
    ev = EUnlink (abs_path (l ++ ds)) \/ ev = ERmdir (abs_path (l ++ ds)).

(** The event [ev] deletes [root/f] or something below it, for a name [f]
    that starts with [sample_]. *)
Definition deletes_sample (root : list string) (ev : Event) : Prop :=
  exists (f : string) (ds : list string),
    prefix "sample_" f = true
    /\ (ev = EUnlink (abs_path (root ++ f :: ds))
        \/ ev = ERmdir (abs_path (root ++ f :: ds))).

(** From [w] to [w'] the tree stayed well-formed and grew no higher, no
    process was started and no database registered, and every deletion
    made satisfies [P]. *)
Definition shrinks (P : Event -> Prop) (w w' : World) : Prop :=
  wf (fs w') = true
  /\ height (fs w') <= height (fs w)
  /\ launches (trace w') = launches (trace w)
  /\ registrations (trace w') = registrations (trace w)
  /\ exists evs,
      trace w' = (trace w ++ evs)%list /\ Forall P (deletions evs).

(** The last effect of [cleanupDbFolder] on [p]: the directory is removed,
    or the error that stopped it is logged. *)
Definition closes (p : string) (w' : World) : Prop :=
  exists t,
    trace w' = (t ++ [ERmdir p])%list
    \/ exists e,
        trace w'
        = (t ++ [EConsole "Error cleaning up database subfolder:" (Some e)])%list.

(** [cleanupDbFolder] with budget [fuel] comes back normally, whatever
    fails on the way. *)
Definition returns (env : Env) (fuel : nat) : Prop :=
  forall (l : list string) (w : World),
    forallb proper l = true ->
    wf (fs w) = true ->
    height (fs w) <= List.length l + fuel ->
    1 <= fuel ->
    exists w',
      cleanupDbFolder env fuel (abs_path l) w = (Ok tt, w')
      /\ shrinks (deletes_under l) w w' /\ closes (abs_path l) w'.

(** From [w] to [w'] the tree is the same, and no process was started and
    no database registered. *)
Definition silent (w w' : World) : Prop :=
  fs w' = fs w
  /\ launches (trace w') = launches (trace w)
  /\ registrations (trace w') = registrations (trace w).

(** The arguments of [codeql] that [updateDb] puts together (lines 58-62 of
    both variants): the fields after the program name. *)
Definition codeql_args (language sourceRoot : string) (command : option string)
           (database : string) : list string :=
  if truthy command
  then ["database"; "create"; database; "--language=" ++ language;
        "--source-root"; sourceRoot; "--command"; string_value command;
        "--overwrite"]
  else ["database"; "create"; database; "--language=" ++ language;
        "--source-root"; sourceRoot; "--build-mode=none"; "--overwrite"].

(** Whether [updateDb] of [src/extension.js] reaches [loadDatabase], by
    the end of the child under [execFile]: the promise of [executeCommand]
    is resolved by the ['exit'] listener for every exit, rejected when the
    child could not be spawned, and left pending by a child that never
    ends. *)
Definition extension_registers (e : ChildEnd) : bool :=
  match e with
  | Exited _ | Killed _ => true
  | SpawnFailed _ | NeverEnds => false
  end.

(** How [updateDb] of [src/extension.js] ends: its [catch] takes the
    rejection; it waits for ever for a child that never ends. *)
Definition extension_outcome (e : ChildEnd) : Outcome unit :=
  match e with
  | Exited _ | Killed _ | SpawnFailed _ => Ok tt
  | NeverEnds => Pending
  end.

(** How [updateDb] of [src/unnamed/part_000] ends, by the end of the shell
    it spawns: on an exit code other than 0 the ['exit'] listener throws
    and the promise stays pending, as it does when the shell never ends; an
    error of spawning the shell is caught inside [codeqlCmd], which then
    returns. *)
Definition part000_outcome (e : ChildEnd) : Outcome unit :=
  match e with
  | Exited 0%Z => Ok tt
  | Exited _ | Killed _ | NeverEnds => Pending
  | SpawnFailed _ => Ok tt
  end.

Definition part000_registers (e : ChildEnd) : bool :=
  match e with
  | Exited 0%Z => true
  | Exited _ | Killed _ | NeverEnds => false
  | SpawnFailed _ => true
  end.

(** The increments reported to the progress notification, in order. *)
Definition reports (t : list Event) : list Increment :=
  flat_map (fun ev => match ev with EReport i _ => [i] | _ => [] end) t.

(** What the listeners of [codeqlCmd] do with one chunk of output: it is
    logged, and reported with increment 1 (standard output) or 2 (standard
    error). *)
Definition chunk_events (d : Stream * string) : list Event :=
  [EConsole (snd d) None;
   EReport (Pct (match fst d with Stdout => 1 | Stderr => 2 end)) (Some (snd d))].

(** [activate] (both variants, same text): the two commands it registers,
    by name; [buildCodeqlDb] is the function of the variant. *)
Definition activate (buildCodeqlDb : option string -> bool -> M unit)
  : list (string * (option string -> M unit)) :=
  [("extension.buildCodeqlDbInManual", fun uri => buildCodeqlDb uri true);
   ("extension.buildCodeqlDb", fun uri => buildCodeqlDb uri false)].

(** The host runs a registered command by name. *)
Fixpoint registered (commands : list (string * (option string -> M unit)))
         (name : string) : option (option string -> M unit) :=
  match commands with
  | [] => None
  | (n, handler) :: rest => if n =? name then Some handler else registered rest name
  end.

(** The environment [env] with another answer of the input box. *)
Definition with_inputBox (env : Env) (input : option string) : Env :=
  {| cwd := cwd env; now := now env; fault := fault env; child := child env;
     quickPick := quickPick env; inputBox := input |}.

(** A machine without [codeql]: [execFile] cannot spawn the program; the
    shell that [spawn] starts does run, writes that the command is not
    found and exits with code 127. *)
Definition env_no_tool : Env :=
  {| cwd := "/home/user"; now := 1700000000000; fault := quiet;
     child := fun l =>
                match l with
                | ExecFile _ _ =>
                    {| output := []; ending := SpawnFailed ENOENT;
                       on_kill := Killed "SIGTERM" |}
                | SpawnShell _ =>
                    {| output := [(Stderr, "/bin/sh: 1: codeql: not found")];
                       ending := Exited 127; on_kill := Killed "SIGTERM" |}
                end;
     quickPick := Some 1; inputBox := Some "make" |}.

(** A tool that writes a line and then waits for ever. *)
Definition env_stuck : Env :=
  {| cwd := "/home/user"; now := 1700000000000; fault := quiet;
     child := fun _ => {| output := [(Stdout, "Waiting for lock")];
                          ending := NeverEnds; on_kill := Killed "SIGTERM" |};
     quickPick := Some 0; inputBox := None |}.

(** A tool that prints on both streams and exits with code 0. *)
Definition env_chatty : Env :=
  {| cwd := "/home/user"; now := 1700000000000; fault := quiet;
     child := fun _ => {| output := [(Stdout, "Initializing database");
                                     (Stderr, "warning: no build command")];
                          ending := Exited 0; on_kill := Killed "SIGTERM" |};
     quickPick := Some 0; inputBox := None |}.

(** A disk on which the second stale database cannot be inspected. *)
Definition env_unreadable : Env :=
  {| cwd := "/home/user"; now := 1700000000000;
     fault := fun c p =>
                match c with
                | Lstat => if p =? "/proj/sample_2" then Some EACCES else None
                | _ => None
                end;
     child := tool_exits 0; quickPick := None; inputBox := None |}.

(** What the loop of [cleanupOldDb] leaves in the trace when nothing fails,
    for the entries [rest] of the folder at [root], [k] of [total] entries
    being done: for each entry the deletions of its tree if it is a stale
    database, then the progress report. *)
Fixpoint loop_trace (root : list string) (total k : nat)
         (rest : list (string * node)) : list Event :=
  match rest with
  | [] => []
  | e :: rest' =>
      (if stale e then postorder (root ++ [fst e]) (snd e) else [])
        ++ EReport (Ratio (S k) total) None
        :: loop_trace root total (S k) rest'
  end.

(** A segment that is not empty and holds no separator. *)
Definition plain (s : string) : bool := negb (s =? "") && no_slash s.

(** * Facts *)

(** ** The path model on a few inputs *)

Example resolve_relative :
  path.resolve "/home/u" "relative/path" = "/home/u/relative/path".
Proof. reflexivity. Qed.

Example resolve_dotdot : path.resolve "/home/u" "/a/b/../c/" = "/a/c".
Proof. reflexivity. Qed.

Example resolve_root : path.resolve "/home/u" "/" = "/".
Proof. reflexivity. Qed.

Example normalize_trailing : path.normalize "/a//b/./c/" = "/a/b/c/".
Proof. reflexivity. Qed.

Example join_sample : path.join "/proj" "sample_1000" = "/proj/sample_1000".
Proof. reflexivity. Qed.

Example join_root : path.join "/" "sample_1000" = "/sample_1000".
Proof. reflexivity. Qed.

Example join_up : path.join "a/b" "../../../c" = "../c".
Proof. reflexivity. Qed.

Example sample_name : "sample_" ++ string_of_Z 1700000000000 = "sample_1700000000000".
Proof. reflexivity. Qed.

(** ** Strings and segments *)

Lemma split_on_nonempty (c : ascii) (s : string) : split_on c s <> [].
Proof.
  destruct s as [|x s]; simpl; [discriminate|].
  destruct (Ascii.eqb x c); [discriminate|].
  destruct (split_on c s); discriminate.
Qed.

Lemma split_on_app (c : ascii) (a b : string) :
  split_on c (a ++ String c b) = (split_on c a ++ split_on c b)%list.
Proof.
  induction a as [|x a IH]; simpl.
  - rewrite Ascii.eqb_refl. reflexivity.
  - destruct (Ascii.eqb x c); [now rewrite IH|].
    rewrite IH. pose proof (split_on_nonempty c a) as Hne.
    destruct (split_on c a); [contradiction|reflexivity].
Qed.

Lemma split_slash_app (a b : string) :
  split_slash (a ++ String slash b) = (split_slash a ++ split_slash b)%list.
Proof. apply split_on_app. Qed.

Lemma split_slash_plain (s : string) :
  no_slash s = true -> split_slash s = [s].
Proof.
  unfold split_slash.
  induction s as [|x s IH]; simpl; [reflexivity|].
  intros H. apply andb_prop in H as [Hx Hs].
  destruct (Ascii.eqb x slash); [discriminate|].
  now rewrite (IH Hs).
Qed.

Lemma split_slash_no_slash (s : string) :
  forallb no_slash (split_slash s) = true.
Proof.
  unfold split_slash.
  induction s as [|x s IH]; simpl; [reflexivity|].
  destruct (Ascii.eqb x slash) eqn:E; simpl; [exact IH|].
  destruct (split_on slash s); simpl in *; [now rewrite E|].
  now rewrite E.
Qed.

Lemma concat_cons2 (x y : string) (l : list string) :
  String.concat "/" (x :: y :: l) = x ++ String slash (String.concat "/" (y :: l)).
Proof. reflexivity. Qed.

Lemma split_slash_concat (l : list string) :
  forallb no_slash l = true -> l <> [] ->
  split_slash (String.concat "/" l) = l.
Proof.
  induction l as [|x l IH]; [easy|].
  intros H _. simpl in H. apply andb_prop in H as [Hx Hl].
  destruct l as [|y l].
  - simpl. now apply split_slash_plain.
  - rewrite concat_cons2, split_slash_app.
    rewrite IH by (auto; discriminate).
    now rewrite (split_slash_plain x Hx).
Qed.

Lemma append_nil_r (s : string) : s ++ "" = s.
Proof. induction s; simpl; congruence. Qed.

Lemma append_assoc (a b c : string) : (a ++ b) ++ c = a ++ (b ++ c).
Proof. induction a; simpl; congruence. Qed.

Lemma last_char_app (a b : string) :
  b <> "" -> last_char (a ++ b) = last_char b.
Proof.
  intros Hb. induction a as [|x a IH]; [reflexivity|].
  simpl. rewrite IH. destruct (a ++ b) eqn:E; [|reflexivity].
  destruct a; simpl in E; [contradiction|discriminate].
Qed.

Lemma last_char_no_slash (s : string) :
  no_slash s = true -> ends_with_slash s = false.
Proof.
  unfold ends_with_slash.
  induction s as [|x s IH]; [reflexivity|].
  simpl. intros H. apply andb_prop in H as [Hx Hs].
  destruct s; [now destruct (Ascii.eqb x slash)|].
  now apply IH.
Qed.

Lemma ends_with_slash_app (a b : string) :
  b <> "" -> no_slash b = true -> ends_with_slash (a ++ b) = false.
Proof.
  intros Hb Hn. unfold ends_with_slash. rewrite last_char_app by assumption.
  now apply last_char_no_slash.
Qed.

Lemma proper_parts (s : string) :
  proper s = true ->
  s <> "" /\ s <> "." /\ s <> ".." /\ no_slash s = true.
Proof.
  unfold proper. intros H.
  repeat (apply andb_prop in H as [H ?]).
  repeat split; try assumption;
    intros ->; simpl in *; discriminate.
Qed.

Lemma proper_intro (s : string) :
  s <> "" -> s <> "." -> s <> ".." -> no_slash s = true -> proper s = true.
Proof.
  intros H1 H2 H3 H4. unfold proper. rewrite H4.
  destruct (String.eqb_spec s ""); [contradiction|].
  destruct (String.eqb_spec s "."); [contradiction|].
  destruct (String.eqb_spec s ".."); [contradiction|reflexivity].
Qed.

Lemma forallb_proper_no_slash (l : list string) :
  forallb proper l = true -> forallb no_slash l = true.
Proof.
  induction l as [|x l IH]; simpl; [reflexivity|].
  intros H. apply andb_prop in H as [Hx Hl].
  apply proper_parts in Hx as (_ & _ & _ & Hx). now rewrite Hx, IH.
Qed.

(** ** Normalisation *)

Lemma normalizeSegs_proper_app (b : bool) (l rest res : list string) :
  forallb proper l = true ->
  path.normalizeSegs b res (l ++ rest)%list
  = path.normalizeSegs b (rev l ++ res)%list rest.
Proof.
  revert res. induction l as [|x l IH]; intros res H; [reflexivity|].
  simpl in H. apply andb_prop in H as [Hx Hl].
  apply proper_parts in Hx as (H1 & H2 & H3 & _).
  simpl.
  destruct (String.eqb_spec x ""); [contradiction|].
  destruct (String.eqb_spec x "."); [contradiction|].
  destruct (String.eqb_spec x ".."); [contradiction|].
  simpl. rewrite IH by assumption. now rewrite <- app_assoc.
Qed.

Lemma normalizeSegs_proper (b : bool) (l : list string) :
  forallb proper l = true -> path.normalizeSegs b [] l = l.
Proof.
  intros H. rewrite <- (app_nil_r l) at 1.
  rewrite normalizeSegs_proper_app by assumption.
  simpl. now rewrite app_nil_r, rev_involutive.
Qed.

Lemma normalizeSegs_skip_empty (b : bool) (res rest : list string) :
  path.normalizeSegs b res ("" :: rest) = path.normalizeSegs b res rest.
Proof. reflexivity. Qed.

(** Without [allowAboveRoot] only proper segments are kept. *)
Lemma normalizeSegs_false_proper (segs res : list string) :
  forallb no_slash segs = true ->
  forallb proper res = true ->
  forallb proper (path.normalizeSegs false res segs) = true.
Proof.
  revert res. induction segs as [|x segs IH]; intros res Hs Hr.
  - simpl. rewrite forallb_forall in *. intros y Hy. apply Hr.
    now apply in_rev.
  - simpl in Hs. apply andb_prop in Hs as [Hx Hs]. simpl.
    destruct (String.eqb_spec x ""); simpl; [now apply IH|].
    destruct (String.eqb_spec x "."); simpl; [now apply IH|].
    destruct (String.eqb_spec x "..").
    + destruct res as [|y res]; [now apply IH|].
      simpl in Hr. apply andb_prop in Hr as [Hy Hr].
      destruct (String.eqb_spec y "..").
      * apply IH; [assumption|]. simpl. now rewrite Hy.
      * now apply IH.
    + apply IH; [assumption|]. simpl. rewrite Hr.
      now rewrite proper_intro.
Qed.

(** In all cases the segments kept are non-empty and free of separators. *)
Lemma normalizeSegs_plain (b : bool) (segs res : list string) :
  forallb no_slash segs = true ->
  forallb plain res = true ->
  forallb plain (path.normalizeSegs b res segs) = true.
Proof.
  revert res. induction segs as [|x segs IH]; intros res Hs Hr.
  - simpl. rewrite forallb_forall in *. intros y Hy. apply Hr.
    now apply in_rev.
  - simpl in Hs. apply andb_prop in Hs as [Hx Hs]. simpl.
    destruct (String.eqb_spec x ""); simpl; [now apply IH|].
    destruct (String.eqb_spec x "."); simpl; [now apply IH|].
    destruct (String.eqb_spec x "..").
    + destruct res as [|y res].
      * apply IH; [assumption|]. now destruct b.
      * simpl in Hr. apply andb_prop in Hr as [Hy Hr].
        destruct (String.eqb_spec y "..").
        -- apply IH; [assumption|]. destruct b; simpl; now rewrite ?Hy, ?Hr.
        -- now apply IH.
    + apply IH; [assumption|]. simpl. rewrite Hr. unfold plain. rewrite Hx.
      now destruct (String.eqb_spec x "").
Qed.

Lemma segs_abs_path (b : bool) (l rest : list string) :
  forallb proper l = true ->
  path.normalizeSegs b [] ("" :: split_slash (String.concat "/" l) ++ rest)%list
  = path.normalizeSegs b (rev l) rest.
Proof.
  intros H. rewrite normalizeSegs_skip_empty.
  destruct l as [|x l]; [reflexivity|].
  rewrite split_slash_concat
    by (auto using forallb_proper_no_slash; discriminate).
  rewrite normalizeSegs_proper_app by assumption.
  now rewrite app_nil_r.
Qed.

Lemma normalizeSegs_last (b : bool) (res : list string) (f : string) :
  proper f = true -> path.normalizeSegs b res [f] = (rev res ++ [f])%list.
Proof.
  intros H. change [f] with ([f] ++ [])%list.
  rewrite normalizeSegs_proper_app by (simpl; now rewrite H).
  reflexivity.
Qed.

Lemma normalizeSegs_snoc (b : bool) (l res : list string) (f : string) :
  proper f = true ->
  path.normalizeSegs b res (l ++ [f])
  = (path.normalizeSegs b res l ++ [f])%list.
Proof.
  intros Hf. revert res.
  induction l as [|x l IH]; intros res; [now apply normalizeSegs_last|].
  cbn [app path.normalizeSegs].
  destruct ((x =? "") || (x =? ".")); [apply IH|].
  destruct (x =? ".."); [|apply IH].
  destruct res as [|y res]; [apply IH|].
  destruct (y =? ".."); apply IH.
Qed.

Lemma isAbsolute_app (a b : string) :
  a <> "" -> path.isAbsolute (a ++ b) = path.isAbsolute a.
Proof. destruct a; [contradiction|reflexivity]. Qed.

Lemma concat_snoc_nonempty (l : list string) (f : string) :
  f <> "" -> String.concat "/" (l ++ [f]) <> "".
Proof.
  intros Hf. induction l as [|x l IH]; simpl; [now rewrite ?append_nil_r|].
  destruct (l ++ [f])%list eqn:E; [now destruct l|].
  destruct x; simpl; discriminate.
Qed.

(** ** Paths of the form [/seg/.../seg] *)

Section Paths.

Variable env : Env.

Lemma fs_components_abs_path (l : list string) :
  forallb proper l = true -> fs_components env (abs_path l) = l.
Proof.
  intros H. unfold fs_components.
  change (path.isAbsolute (abs_path l)) with true. cbv iota.
  change (split_slash (abs_path l))
    with ("" :: split_slash (String.concat "/" l)).
  rewrite <- (app_nil_r (split_slash _)).
  change ("" :: (?a ++ ?b)%list) with ("" :: a ++ b)%list.
  rewrite segs_abs_path by assumption. simpl. apply rev_involutive.
Qed.

Lemma resolve_absolute (p : string) :
  path.isAbsolute p = true ->
  path.resolve (cwd env) p
  = "/" ++ String.concat "/"
             (path.normalizeSegs false [] (split_slash (p ++ "/"))).
Proof.
  intros H. unfold path.resolve. rewrite H.
  destruct p; [discriminate|]. reflexivity.
Qed.

Lemma resolve_abs_path (l : list string) :
  forallb proper l = true ->
  path.resolve (cwd env) (abs_path l) = abs_path l.
Proof.
  intros H. rewrite resolve_absolute by reflexivity.
  unfold abs_path. f_equal. f_equal.
  change (("/" ++ String.concat "/" l) ++ "/")
    with (String "/" (String.concat "/" l ++ String slash "")).
  change (split_slash (String "/" ?s)) with ("" :: split_slash s).
  rewrite split_slash_app.
  change (split_slash "") with [""].
  change ("" :: (?a ++ ?b)%list) with ("" :: a ++ b)%list.
  rewrite segs_abs_path by assumption.
  simpl. apply rev_involutive.
Qed.

(** The paths [sanitizePath] lets through. *)
Lemma sanitizePath_abs_path (l : list string) (w : World) :
  forallb proper l = true ->
  sanitizePath env (abs_path l) w = (Ok (abs_path l), w).
Proof.
  intros H. unfold sanitizePath. rewrite resolve_abs_path by assumption.
  change (path.isAbsolute (abs_path l)) with true.
  now rewrite String.eqb_refl.
Qed.

Lemma sanitizePath_inv (p q : string) (w w' : World) :
  sanitizePath env p w = (Ok q, w') ->
  q = p /\ w' = w /\
  exists l, forallb proper l = true /\ p = abs_path l.
Proof.
  unfold sanitizePath.
  destruct (path.isAbsolute p) eqn:Ha; simpl; [|discriminate].
  destruct (String.eqb_spec p (path.resolve (cwd env) p)) as [E|]; [|discriminate].
  intros H. unfold ret in H. injection H as <- <-.
  repeat split; [now symmetry|].
  rewrite resolve_absolute in E by assumption.
  eexists. split; [|exact E].
  apply normalizeSegs_false_proper; [apply split_slash_no_slash|reflexivity].
Qed.

Lemma join_abs_path (l : list string) (f : string) :
  forallb proper l = true -> proper f = true ->
  path.join (abs_path l) f = abs_path (l ++ [f]).
Proof.
  intros Hl Hf. pose proof (proper_parts f Hf) as (Hne & _ & _ & Hns).
  unfold path.join. change (abs_path l =? "") with false.
  destruct (String.eqb_spec f ""); [contradiction|]. cbv iota.
  unfold path.normalize.
  change (abs_path l ++ "/" ++ f)
    with (String "/" (String.concat "/" l ++ String slash f)).
  change (String "/" ?s =? "") with false. cbv iota.
  change (path.isAbsolute (String "/" ?s)) with true. cbv zeta iota.
  assert (Hq : path.normalizeString
                 (String "/" (String.concat "/" l ++ String slash f)) (negb true)
               = String.concat "/" (l ++ [f])).
  { unfold path.normalizeString. f_equal.
    change (split_slash (String "/" ?s)) with ("" :: split_slash s).
    rewrite split_slash_app, (split_slash_plain f Hns).
    change ("" :: (?a ++ ?b)%list) with ("" :: a ++ b)%list.
    rewrite segs_abs_path by assumption.
    rewrite normalizeSegs_last by assumption.
    now rewrite rev_involutive. }
  rewrite Hq.
  destruct (String.eqb_spec (String.concat "/" (l ++ [f])) "") as [E|_];
    [now apply concat_snoc_nonempty in E|].
  assert (Ht : ends_with_slash
                 (String "/" (String.concat "/" l ++ String slash f)) = false).
  { replace (String "/" (String.concat "/" l ++ String slash f))
      with (("/" ++ String.concat "/" l ++ "/") ++ f)
      by (simpl; now rewrite append_assoc).
    now apply ends_with_slash_app. }
  rewrite Ht. reflexivity.
Qed.

Lemma fs_components_proper (p : string) :
  forallb proper (fs_components env p) = true.
Proof.
  unfold fs_components.
  apply normalizeSegs_false_proper; [apply split_slash_no_slash|reflexivity].
Qed.

(** Joining a name to an absolute path, whatever its form, gives the
    normal form of the path followed by the name. *)
Lemma join_absolute (a f : string) :
  path.isAbsolute a = true -> proper f = true ->
  path.join a f = abs_path (fs_components env a ++ [f]).
Proof.
  intros Ha Hf. pose proof (proper_parts f Hf) as (Hne & _ & _ & Hns).
  unfold fs_components. rewrite Ha.
  destruct a as [|c a]; [discriminate|].
  unfold path.join. change (String c a =? "") with false.
  destruct (String.eqb_spec f ""); [contradiction|]. cbv iota.
  unfold path.normalize.
  change ((String c a ++ "/" ++ f) =? "") with false. cbv iota.
  rewrite isAbsolute_app by discriminate. rewrite Ha. cbv zeta iota.
  assert (Hq : path.normalizeString (String c a ++ "/" ++ f) (negb true)
               = String.concat "/"
                   (path.normalizeSegs false [] (split_slash (String c a))
                    ++ [f])).
  { unfold path.normalizeString. f_equal.
    change (String c a ++ "/" ++ f) with (String c a ++ String slash f).
    rewrite split_slash_app, (split_slash_plain f Hns).
    now apply normalizeSegs_snoc. }
  rewrite Hq.
  destruct (String.eqb_spec
              (String.concat "/"
                 (path.normalizeSegs false [] (split_slash (String c a))
                  ++ [f])) "") as [E|_];
    [now apply concat_snoc_nonempty in E|].
  assert (Ht : ends_with_slash (String c a ++ "/" ++ f) = false).
  { replace (String c a ++ "/" ++ f) with ((String c a ++ "/") ++ f)
      by (now rewrite append_assoc).
    now apply ends_with_slash_app. }
  rewrite Ht. reflexivity.
Qed.

End Paths.

(** ** The tree *)

(** Induction on the tree, with the hypothesis on every entry of a
    directory. *)
Lemma node_induction (P : node -> Prop) :
  P File ->
  (forall es, Forall (fun e => P (snd e)) es -> P (Dir es)) ->
  forall n, P n.
Proof.
  intros HF HD. fix IH 1. intros [|es]; [exact HF|].
  apply HD. induction es as [|e es IHes]; constructor; [apply IH|exact IHes].
Qed.

Lemma distinct_NoDup (l : list string) : distinct l = true -> NoDup l.
Proof.
  induction l as [|x l IH]; simpl; [constructor|].
  intros H. apply andb_prop in H as [Hx Hl]. constructor; [|auto].
  intros Hin. apply negb_true_iff in Hx.
  assert (existsb (String.eqb x) l = true) as E
      by (apply existsb_exists; exists x; split; [assumption|apply String.eqb_refl]).
  congruence.
Qed.

Lemma assoc_notin (f : string) (es : list (string * node)) :
  ~ In f (map fst es) -> assoc f es = None.
Proof.
  induction es as [|[k n] es IH]; simpl; [reflexivity|].
  intros H. destruct (String.eqb_spec k f); [tauto|]. apply IH. tauto.
Qed.

Lemma assoc_middle (f : string) (n : node) (kept rest : list (string * node)) :
  ~ In f (map fst kept) -> assoc f (kept ++ (f, n) :: rest) = Some n.
Proof.
  induction kept as [|[k m] kept IH]; simpl.
  - now rewrite String.eqb_refl.
  - intros H. destruct (String.eqb_spec k f); [tauto|]. apply IH. tauto.
Qed.

Lemma remove_entry_notin (f : string) (es : list (string * node)) :
  ~ In f (map fst es) -> remove_entry f es = es.
Proof.
  unfold remove_entry.
  induction es as [|[k n] es IH]; simpl; [reflexivity|].
  intros H. destruct (String.eqb_spec k f); [tauto|].
  simpl. f_equal. apply IH. tauto.
Qed.

Lemma remove_entry_middle (f : string) (n : node)
      (kept rest : list (string * node)) :
  ~ In f (map fst kept) -> ~ In f (map fst rest) ->
  remove_entry f (kept ++ (f, n) :: rest) = (kept ++ rest)%list.
Proof.
  intros Hk Hr. unfold remove_entry. rewrite filter_app. simpl.
  rewrite String.eqb_refl. simpl.
  fold (remove_entry f kept). fold (remove_entry f rest).
  now rewrite !remove_entry_notin.
Qed.

Lemma assoc_map_key (c : string) (g : node -> node) (es : list (string * node)) :
  assoc c (map (fun e => if fst e =? c then (fst e, g (snd e)) else e) es)
  = option_map g (assoc c es).
Proof.
  induction es as [|[k n] es IH]; simpl; [reflexivity|].
  destruct (String.eqb_spec k c) as [->|Hne]; simpl.
  - now rewrite String.eqb_refl.
  - destruct (String.eqb_spec k c); [contradiction|]. exact IH.
Qed.

Lemma lookup_snoc (l : list string) (f : string) (t : node) :
  lookup (l ++ [f]) t
  = match lookup l t with
    | Some (Dir es) => assoc f es
    | _ => None
    end.
Proof.
  revert t. induction l as [|c l IH]; intros t; simpl.
  - destruct t as [|es]; [reflexivity|]. now destruct (assoc f es).
  - destruct t as [|es]; [reflexivity|].
    destruct (assoc c es); [apply IH|reflexivity].
Qed.

Lemma remove_path_cons_snoc (c f : string) (l : list string)
      (es : list (string * node)) :
  remove_path (c :: (l ++ [f])) (Dir es)
  = Dir (map (fun e => if fst e =? c
                       then (fst e, remove_path (l ++ [f]) (snd e))
                       else e) es).
Proof. destruct l; reflexivity. Qed.

(** Removing an entry of the directory at [l] changes that directory's
    listing only by this entry. *)
Lemma lookup_remove_child (l : list string) (f : string) (t : node)
      (es : list (string * node)) :
  lookup l t = Some (Dir es) ->
  lookup l (remove_path (l ++ [f]) t) = Some (Dir (remove_entry f es)).
Proof.
  revert t. induction l as [|c l IH]; intros t H.
  - simpl in H. injection H as ->. reflexivity.
  - destruct t as [|es0]; [discriminate|]. simpl in H.
    change ((c :: l) ++ [f])%list with (c :: (l ++ [f]))%list.
    rewrite remove_path_cons_snoc. simpl. rewrite assoc_map_key.
    destruct (assoc c es0) as [m|]; [|discriminate]. simpl. now apply IH.
Qed.

(** Removing [l] after one of its entries is removing [l]. *)
Lemma remove_path_absorb (l : list string) (f : string) (t : node) :
  l <> [] ->
  remove_path l (remove_path (l ++ [f]) t) = remove_path l t.
Proof.
  revert t. induction l as [|c l IH]; intros t Hne; [contradiction|].
  destruct t as [|es]; [now destruct l|].
  change ((c :: l) ++ [f])%list with (c :: (l ++ [f]))%list.
  rewrite remove_path_cons_snoc.
  destruct l as [|c' l].
  - simpl. f_equal. unfold remove_entry.
    induction es as [|[k n] es IHes]; simpl; [reflexivity|].
    destruct (String.eqb_spec k c); simpl.
    + destruct (String.eqb_spec k c); [|contradiction]. exact IHes.
    + destruct (String.eqb_spec k c); [contradiction|]. simpl. now f_equal.
  - change (remove_path (c :: c' :: l) (Dir ?x))
      with (Dir (map (fun e => if fst e =? c
                               then (fst e, remove_path (c' :: l) (snd e))
                               else e) x)).
    f_equal. rewrite map_map. apply map_ext. intros [k n]. simpl.
    destruct (String.eqb_spec k c); simpl.
    + destruct (String.eqb_spec k c); [|contradiction].
      f_equal. apply IH. discriminate.
    + destruct (String.eqb_spec k c); [contradiction|reflexivity].
Qed.

Lemma height_child (es : list (string * node)) (f : string) (n : node)
      (fuel : nat) :
  height (Dir es) <= S fuel -> In (f, n) es -> height n <= fuel.
Proof.
  simpl. intros H Hin. apply le_S_n in H.
  apply list_max_le in H. rewrite Forall_forall in H.
  apply (H (height n)). apply in_map_iff. now exists (f, n).
Qed.

Lemma wf_dir (es : list (string * node)) :
  wf (Dir es) = true ->
  forallb proper (map fst es) = true
  /\ NoDup (map fst es)
  /\ forall f n, In (f, n) es -> wf n = true.
Proof.
  simpl. intros H. apply andb_prop in H as [H H3].
  apply andb_prop in H as [H1 H2]. repeat split.
  - rewrite forallb_forall in *. intros x Hx.
    apply in_map_iff in Hx as (e & <- & He). now apply H1.
  - now apply distinct_NoDup.
  - intros f n Hin. rewrite forallb_forall in H3. exact (H3 _ Hin).
Qed.

Lemma wf_tail (e : string * node) (rest : list (string * node)) :
  wf (Dir (e :: rest)) = true -> wf (Dir rest) = true.
Proof.
  cbn [wf forallb map distinct]. rewrite !andb_true_iff. tauto.
Qed.

(** ** Running the monad *)

Lemma bind_ok {A B} (m : M A) (k : A -> M B) (w w' : World) (a : A) :
  m w = (Ok a, w') -> bind m k w = k a w'.
Proof. intros H. unfold bind. now rewrite H. Qed.

Lemma bind_throw {A B} (m : M A) (k : A -> M B) (w w' : World) (e : JsError) :
  m w = (Throw e, w') -> bind m k w = (Throw e, w').
Proof. intros H. unfold bind. now rewrite H. Qed.

Lemma try_catch_ok {A} (m : M A) (h : JsError -> M A) (w w' : World) (a : A) :
  m w = (Ok a, w') -> try_catch m h w = (Ok a, w').
Proof. intros H. unfold try_catch. now rewrite H. Qed.

Lemma try_catch_throw {A} (m : M A) (h : JsError -> M A) (w w' : World)
      (e : JsError) :
  m w = (Throw e, w') -> try_catch m h w = h e w'.
Proof. intros H. unfold try_catch. now rewrite H. Qed.

(** ** System calls on existing entries *)

Section Syscalls.

Variable env : Env.

Lemma calm_here (l : list string) (c : Syscall) :
  calm env l -> fault env c (abs_path l) = None.
Proof. intros H. specialize (H c []). now rewrite app_nil_r in H. Qed.

Lemma calm_child (l : list string) (f : string) :
  calm env l -> calm env (l ++ [f]).
Proof. intros H c ds. rewrite <- app_assoc. apply H. Qed.

Lemma readdir_dir (l : list string) (es : list (string * node)) (w : World) :
  forallb proper l = true ->
  fault env Readdir (abs_path l) = None ->
  lookup l (fs w) = Some (Dir es) ->
  readdir env (abs_path l) w = (Ok (map fst es), w).
Proof.
  intros Hl Hf Hlk. unfold readdir.
  now rewrite Hf, fs_components_abs_path, Hlk.
Qed.

Lemma lstat_entry (l : list string) (n : node) (w : World) :
  forallb proper l = true ->
  fault env Lstat (abs_path l) = None ->
  lookup l (fs w) = Some n ->
  lstat env (abs_path l) w = (Ok (is_dir n), w).
Proof.
  intros Hl Hf Hlk. unfold lstat.
  now rewrite Hf, fs_components_abs_path, Hlk.
Qed.

Lemma unlink_file (l : list string) (w : World) :
  forallb proper l = true ->
  fault env Unlink (abs_path l) = None ->
  lookup l (fs w) = Some File ->
  unlink env (abs_path l) w
  = (Ok tt, {| fs := remove_path l (fs w);
               trace := trace w ++ [EUnlink (abs_path l)] |}).
Proof.
  intros Hl Hf Hlk. unfold unlink.
  now rewrite Hf, fs_components_abs_path, Hlk.
Qed.

Lemma rmdir_empty (l : list string) (w : World) :
  forallb proper l = true -> l <> [] ->
  fault env Rmdir (abs_path l) = None ->
  lookup l (fs w) = Some (Dir []) ->
  rmdir env (abs_path l) w
  = (Ok tt, {| fs := remove_path l (fs w);
               trace := trace w ++ [ERmdir (abs_path l)] |}).
Proof.
  intros Hl Hne Hf Hlk. unfold rmdir.
  rewrite Hf, fs_components_abs_path, Hlk by assumption.
  now destruct l.
Qed.

End Syscalls.

(** ** [cleanupDbFolder] when nothing fails *)

Section CleanupExact.

Variable env : Env.

(** The loop of [cleanupDbFolder] over the listing of the directory at
    [l], whose entries are [rest]. *)
Lemma cleanupDbFolder_loop_exact (fuel : nat) (l : list string) :
  removes_tree env fuel ->
  forallb proper l = true -> l <> [] -> calm env l ->
  forall (rest : list (string * node)) (w : World),
    lookup l (fs w) = Some (Dir rest) ->
    wf (Dir rest) = true ->
    (forall f n, In (f, n) rest -> height n <= fuel) ->
    exists t',
      for_of (map fst rest)
        (fun file =>
           curPath <- sanitizePath env (path.join (abs_path l) file) ;;
           curStat <- lstat env curPath ;;
           if curStat then cleanupDbFolder env fuel curPath
           else unlink env curPath) w
      = (Ok tt,
         {| fs := t';
            trace := trace w
                     ++ flat_map (fun e => postorder (l ++ [fst e]) (snd e))
                                 rest |})
      /\ lookup l t' = Some (Dir [])
      /\ remove_path l t' = remove_path l (fs w).
Proof.
  intros IHfuel Hl Hne Hcalm rest.
  induction rest as [|[f n] rest IH]; intros w Hlk Hwf Hh.
  - exists (fs w). simpl. rewrite app_nil_r. destruct w; auto.
  - pose proof (wf_dir _ Hwf) as (Hnames & Hnd & Hsub).
    simpl in Hnames. apply andb_prop in Hnames as [Hf Hnames].
    simpl in Hnd. inversion Hnd as [|? ? Hnotin Hnd']; subst.
    assert (Hlf : forallb proper (l ++ [f]) = true)
      by (rewrite forallb_app; simpl; now rewrite Hl, Hf).
    assert (Hchild : lookup (l ++ [f]) (fs w) = Some n)
      by (rewrite lookup_snoc, Hlk; simpl; now rewrite String.eqb_refl).
    (* one iteration *)
    assert (Hbody :
      (curPath <- sanitizePath env (path.join (abs_path l) f) ;;
       curStat <- lstat env curPath ;;
       if curStat then cleanupDbFolder env fuel curPath
       else unlink env curPath) w
      = (Ok tt, {| fs := remove_path (l ++ [f]) (fs w);
                   trace := trace w ++ postorder (l ++ [f]) n |})).
    { rewrite join_abs_path by assumption.
      erewrite bind_ok by (now apply sanitizePath_abs_path).
      erewrite bind_ok
        by (apply lstat_entry;
            [assumption|now apply calm_here, calm_child|exact Hchild]).
      destruct n as [|es'].
      - simpl. apply unlink_file;
          [assumption|now apply calm_here, calm_child|assumption].
      - simpl is_dir. cbv iota.
        apply IHfuel; try assumption.
        + now destruct l.
        + now apply calm_child.
        + apply (Hsub f). now left.
        + apply (Hh f). now left. }
    simpl map. simpl for_of. erewrite bind_ok by exact Hbody.
    set (w1 := {| fs := remove_path (l ++ [f]) (fs w);
                  trace := trace w ++ postorder (l ++ [f]) n |}).
    assert (Hlk1 : lookup l (fs w1) = Some (Dir rest)).
    { simpl. rewrite (lookup_remove_child l f _ _ Hlk).
      change ((f, n) :: rest) with ([] ++ (f, n) :: rest)%list.
      now rewrite remove_entry_middle. }
    assert (Hwf1 : wf (Dir rest) = true).
    { exact (wf_tail _ _ Hwf). }
    destruct (IH w1 Hlk1 Hwf1) as (t' & Hrun & Hempty & Hrem).
    { intros g m Hin. apply (Hh g). now right. }
    exists t'. split; [|split].
    + rewrite Hrun. simpl. now rewrite <- app_assoc.
    + exact Hempty.
    + rewrite Hrem. simpl. now apply remove_path_absorb.
Qed.

Lemma cleanupDbFolder_exact (fuel : nat) : removes_tree env fuel.
Proof.
  induction fuel as [|fuel IH];
    intros l es w Hl Hne Hcalm Hlk Hwf Hh; [simpl in Hh; lia|].
  destruct (cleanupDbFolder_loop_exact fuel l IH Hl Hne Hcalm es w Hlk Hwf)
    as (t' & Hrun & Hempty & Hrem).
  { intros f n Hin. eapply height_child; eassumption. }
  simpl cleanupDbFolder. apply try_catch_ok.
  erewrite bind_ok
    by (apply readdir_dir; [assumption|now apply calm_here|exact Hlk]).
  erewrite bind_ok by exact Hrun.
  rewrite rmdir_empty; try assumption; [|now apply calm_here].
  simpl. now rewrite Hrem, <- app_assoc.
Qed.

End CleanupExact.

(** ** [cleanupOldDb] when nothing fails *)

Lemma deletions_app (t t' : list Event) :
  deletions (t ++ t') = (deletions t ++ deletions t')%list.
Proof. apply filter_app. Qed.

Lemma deletions_postorder (n : node) :
  forall l, deletions (postorder l n) = postorder l n.
Proof.
  induction n as [|es IH] using node_induction; intros l; [reflexivity|].
  simpl. rewrite deletions_app. simpl. f_equal.
  induction IH as [|[f m] es Hm _ IHes]; [reflexivity|].
  simpl. rewrite deletions_app, Hm. now f_equal.
Qed.

Lemma NoDup_middle (f : string) (n : node) (kept rest : list (string * node)) :
  NoDup (map fst (kept ++ (f, n) :: rest)) ->
  ~ In f (map fst kept) /\ ~ In f (map fst rest)
  /\ NoDup (map fst (kept ++ rest)).
Proof.
  rewrite !map_app. simpl. intros H.
  pose proof (NoDup_remove_1 _ _ _ H) as H1.
  pose proof (NoDup_remove_2 _ _ _ H) as H2.
  rewrite in_app_iff in H2. tauto.
Qed.

Section CleanupOldDbExact.

Variable env : Env.

Lemma cleanupOldDb_loop_exact (fuel : nat) (l : list string) (total : nat) :
  forallb proper l = true -> calm env l ->
  forall (rest kept : list (string * node)) (k : nat) (w : World),
    lookup l (fs w) = Some (Dir (kept ++ rest)) ->
    NoDup (map fst (kept ++ rest)) ->
    forallb proper (map fst rest) = true ->
    (forall f n, In (f, n) rest -> wf n = true /\ height n <= fuel) ->
    exists w',
      cleanupOldDb_loop env fuel (abs_path l) total (map fst rest) k w
      = (Ok tt, w')
      /\ lookup l (fs w')
         = Some (Dir (kept ++ filter (fun e => negb (stale e)) rest))
      /\ fs w' = fold_left (fun t e => remove_path (l ++ [fst e]) t)
                           (filter stale rest) (fs w)
      /\ deletions (trace w')
         = (deletions (trace w)
            ++ flat_map (fun e => if stale e
                                  then postorder (l ++ [fst e]) (snd e)
                                  else []) rest)%list.
Proof.
  intros Hl Hcalm rest.
  induction rest as [|[f n] rest IH]; intros kept k w Hlk Hnd Hnames Hsub.
  - exists w. simpl. rewrite !app_nil_r. rewrite app_nil_r in Hlk. auto.
  - simpl in Hnames. apply andb_prop in Hnames as [Hf Hnames].
    destruct (NoDup_middle _ _ _ _ Hnd) as (Hk & Hr & Hnd').
    assert (Hlf : forallb proper (l ++ [f]) = true)
      by (rewrite forallb_app; simpl; now rewrite Hl, Hf).
    assert (Hchild : lookup (l ++ [f]) (fs w) = Some n)
      by (rewrite lookup_snoc, Hlk; now apply assoc_middle).
    simpl map. simpl cleanupOldDb_loop.
    rewrite join_abs_path by assumption.
    erewrite bind_ok
      by (apply lstat_entry;
          [assumption|now apply calm_here, calm_child|exact Hchild]).
    change (is_dir n && prefix "sample_" f) with (stale (f, n)).
    cbn [filter flat_map]. cbn [fst snd].
    destruct (stale (f, n)) eqn:Est; cbn [negb fold_left fst].
    + (* a stale database: removed *)
      destruct n as [|es']; [discriminate|].
      destruct (Hsub f (Dir es')) as [Hwf Hh]; [now left|].
      erewrite bind_ok
        by (apply cleanupDbFolder_exact; try eassumption;
            [now destruct l|now apply calm_child]).
      unfold report at 1. erewrite bind_ok by reflexivity.
      match goal with
      | |- context [cleanupOldDb_loop _ _ _ _ _ _ ?w1] =>
          destruct (IH kept (S k) w1) as (w' & Hrun & Hlk' & Hfs & Htr)
      end.
      * simpl. rewrite (lookup_remove_child l f _ _ Hlk).
        now rewrite remove_entry_middle.
      * assumption.
      * assumption.
      * intros g m Hin. apply (Hsub g). now right.
      * exists w'. split; [exact Hrun|]. split; [|split].
        -- exact Hlk'.
        -- exact Hfs.
        -- rewrite Htr. cbn [trace].
           rewrite !deletions_app, deletions_postorder.
           cbn [deletions filter]. now rewrite app_nil_r, <- app_assoc.
    + (* anything else: skipped *)
      erewrite bind_ok by reflexivity.
      unfold report at 1. erewrite bind_ok by reflexivity.
      match goal with
      | |- context [cleanupOldDb_loop _ _ _ _ _ _ ?w1] =>
          destruct (IH (kept ++ [(f, n)])%list (S k) w1)
            as (w' & Hrun & Hlk' & Hfs & Htr)
      end.
      * simpl. now rewrite <- app_assoc.
      * now rewrite <- app_assoc.
      * assumption.
      * intros g m Hin. apply (Hsub g). now right.
      * exists w'. split; [exact Hrun|]. split; [|split].
        -- rewrite Hlk'. now rewrite <- app_assoc.
        -- exact Hfs.
        -- rewrite Htr. cbn [trace]. rewrite deletions_app.
           cbn [deletions filter]. now rewrite app_nil_r.
Qed.

End CleanupOldDbExact.

Lemma postorder_under (n : node) :
  forall (l : list string) (ev : Event),
    In ev (postorder l n) ->
    exists ds,
      ev = EUnlink (abs_path (l ++ ds)) \/ ev = ERmdir (abs_path (l ++ ds)).
Proof.
  induction n as [|es IH] using node_induction; intros l ev; simpl.
  - intros [<-|[]]. exists []. rewrite app_nil_r. now left.
  - rewrite in_app_iff. intros [H|[<-|[]]].
    + induction IH as [|[f m] es Hm _ IHes]; [contradiction|].
      simpl in H. rewrite in_app_iff in H. destruct H as [H|H]; [|auto].
      apply Hm in H as (ds & H). exists (f :: ds).
      now rewrite <- app_assoc in H.
    + exists []. rewrite app_nil_r. now right.
Qed.

Lemma assoc_filter (P : string * node -> bool) (es : list (string * node))
      (f : string) (n : node) :
  NoDup (map fst es) -> In (f, n) es ->
  assoc f (filter P es) = if P (f, n) then Some n else None.
Proof.
  induction es as [|[k m] es IH]; [contradiction|].
  simpl. intros Hnd [Heq|Hin].
  - injection Heq as -> ->. inversion Hnd as [|? ? Hnotin _]; subst.
    destruct (P (f, n)); simpl.
    + now rewrite String.eqb_refl.
    + apply assoc_notin. intros Hin. apply Hnotin.
      apply in_map_iff in Hin as (e & He & Hin).
      apply filter_In in Hin as [Hin _].
      apply in_map_iff. now exists e.
  - inversion Hnd as [|? ? Hnotin Hnd']; subst.
    assert (k <> f) as Hne
        by (intros ->; apply Hnotin, in_map_iff; now exists (f, n)).
    destruct (P (k, m)); simpl.
    + destruct (String.eqb_spec k f); [contradiction|]. now apply IH.
    + now apply IH.
Qed.

(** [cleanupOldDb] when no system call fails. *)
Lemma cleanupOldDb_exact
        (env : Env) (fuel : nat) (sourceRoot : string) (w : World)
        (es : list (string * node)) :
  (forall c p, fault env c p = None) ->
  sanitizePath env sourceRoot w = (Ok sourceRoot, w) ->
  lookup (fs_components env sourceRoot) (fs w) = Some (Dir es) ->
  wf (Dir es) = true ->
  height (Dir es) <= fuel ->
  let root := fs_components env sourceRoot in
  exists w',
    cleanupOldDb env fuel sourceRoot w = (Ok tt, w')
    /\ lookup root (fs w') = Some (Dir (filter (fun e => negb (stale e)) es))
    /\ (forall f n, In (f, n) es ->
                    lookup (root ++ [f]) (fs w')
                    = if stale (f, n) then None else Some n)
    /\ fs w' = fold_left (fun t e => remove_path (root ++ [fst e]) t)
                         (filter stale es) (fs w)
    /\ deletions (trace w')
       = (deletions (trace w)
          ++ flat_map (fun e => if stale e
                                then postorder (root ++ [fst e]) (snd e)
                                else []) es)%list
    /\ Forall (deletes_under_stale root es)
              (flat_map (fun e => if stale e
                                  then postorder (root ++ [fst e]) (snd e)
                                  else []) es).
Proof.
  intros Hquiet Hsan Hlk Hwf Hh root.
  destruct (sanitizePath_inv env _ _ _ _ Hsan) as (_ & _ & l & Hl & ->).
  subst root. rewrite fs_components_abs_path in * by assumption.
  destruct (wf_dir _ Hwf) as (Hnames & Hnd & Hsub).
  assert (Hcalm : calm env l) by (intros c ds; apply Hquiet).
  destruct (cleanupOldDb_loop_exact env fuel l (List.length (map fst es))
              Hl Hcalm es [] 0
              {| fs := fs w;
                 trace := (trace w ++ [EWithProgress "Cleaning up old databases"])
                            ++ [EReport (Pct 0) None] |})
    as (w' & Hrun & Hlk' & Hfs & Htr); try assumption.
  { intros f n Hin. split; [now apply (Hsub f)|].
    apply (height_child es f n fuel); [lia|exact Hin]. }
  exists w'. split; [|split; [|split; [|split; [|split]]]].
  - unfold cleanupOldDb. apply try_catch_ok.
    erewrite bind_ok by exact Hsan.
    erewrite bind_ok by (apply readdir_dir; [assumption|apply Hquiet|exact Hlk]).
    unfold withProgress. erewrite bind_ok by reflexivity.
    unfold report at 1. erewrite bind_ok by reflexivity.
    exact Hrun.
  - exact Hlk'.
  - intros f n Hin. rewrite lookup_snoc, Hlk'. simpl.
    rewrite (assoc_filter _ es f n Hnd Hin). now destruct (stale (f, n)).
  - exact Hfs.
  - rewrite Htr. cbn [trace]. rewrite !deletions_app. cbn [deletions filter].
    now rewrite !app_nil_r.
  - apply Forall_forall. intros ev Hin.
    apply in_flat_map in Hin as ([f n] & Hin & Hev). simpl in Hev.
    destruct (stale (f, n)) eqn:Est; [|contradiction].
    apply postorder_under in Hev as (ds & Hev).
    exists f, n, ds. rewrite <- app_assoc in Hev. auto.
Qed.

(** ** Deleting keeps the tree well-formed and no higher *)

Lemma in_list_max (l : list nat) (x : nat) : In x l -> x <= list_max l.
Proof.
  intros H. pose proof (proj1 (list_max_le l (list_max l)) (Nat.le_refl _)) as F.
  rewrite Forall_forall in F. now apply F.
Qed.

Lemma assoc_In (f : string) (n : node) (es : list (string * node)) :
  assoc f es = Some n -> In (f, n) es.
Proof.
  induction es as [|[k m] es IH]; simpl; [discriminate|].
  destruct (String.eqb_spec k f) as [->|_]; [|auto].
  intros H. injection H as ->. now left.
Qed.

Lemma wf_lookup (cs : list string) :
  forall t n, wf t = true -> lookup cs t = Some n -> wf n = true.
Proof.
  induction cs as [|c cs IH]; intros t n Hwf H.
  - simpl in H. now injection H as <-.
  - destruct t as [|es]; [discriminate|]. simpl in H.
    destruct (assoc c es) as [m|] eqn:E; [|discriminate].
    apply (IH m); [|assumption].
    destruct (wf_dir _ Hwf) as (_ & _ & Hsub).
    apply (Hsub c). now apply assoc_In.
Qed.

Lemma height_lookup (cs : list string) :
  forall t n, lookup cs t = Some n -> List.length cs + height n <= height t.
Proof.
  induction cs as [|c cs IH]; intros t n H.
  - simpl in H. injection H as <-. simpl. lia.
  - destruct t as [|es]; [discriminate|]. simpl in H.
    destruct (assoc c es) as [m|] eqn:E; [|discriminate].
    apply IH in H. apply assoc_In in E.
    assert (height m <= list_max (map (fun e => height (snd e)) es))
      by (apply in_list_max, in_map_iff; now exists (c, m)).
    simpl. lia.
Qed.

Lemma existsb_filter_names (P : string * node -> bool) (x : string)
      (es : list (string * node)) :
  existsb (String.eqb x) (map fst es) = false ->
  existsb (String.eqb x) (map fst (filter P es)) = false.
Proof.
  induction es as [|e es IH]; simpl; [reflexivity|].
  intros H. apply orb_false_iff in H as [H1 H2].
  destruct (P e); simpl; [rewrite H1|]; auto.
Qed.

Lemma distinct_filter (P : string * node -> bool) (es : list (string * node)) :
  distinct (map fst es) = true -> distinct (map fst (filter P es)) = true.
Proof.
  induction es as [|e es IH]; simpl; [reflexivity|].
  intros H. apply andb_prop in H as [H1 H2].
  destruct (P e); simpl; [|auto].
  rewrite IH by assumption. apply negb_true_iff in H1.
  now rewrite existsb_filter_names.
Qed.

Lemma forallb_filter {X} (Q P : X -> bool) (l : list X) :
  forallb Q l = true -> forallb Q (filter P l) = true.
Proof.
  rewrite !forallb_forall. intros H x Hx.
  apply filter_In in Hx as [Hx _]. auto.
Qed.

Lemma wf_remove_path (cs : list string) :
  forall t, wf t = true -> wf (remove_path cs t) = true.
Proof.
  induction cs as [|c cs IH]; intros t Hwf; [assumption|].
  destruct t as [|es]; [reflexivity|].
  destruct cs as [|c' cs].
  - cbn [remove_path wf] in *. unfold remove_entry.
    apply andb_prop in Hwf as [Hwf H3]. apply andb_prop in Hwf as [H1 H2].
    rewrite (forallb_filter _ _ _ H1), (forallb_filter _ _ _ H3).
    now rewrite distinct_filter.
  - change (remove_path (c :: c' :: cs) (Dir es))
      with (Dir (map (fun e => if fst e =? c
                               then (fst e, remove_path (c' :: cs) (snd e))
                               else e) es)).
    cbn [wf] in *.
    apply andb_prop in Hwf as [Hwf H3]. apply andb_prop in Hwf as [H1 H2].
    assert (Hfst : map fst (map (fun e => if fst e =? c
                                          then (fst e, remove_path (c' :: cs) (snd e))
                                          else e) es) = map fst es).
    { rewrite map_map. apply map_ext. intros e. now destruct (fst e =? c). }
    rewrite Hfst, H2.
    rewrite forallb_forall in H1, H3.
    assert (forallb (fun e => proper (fst e))
              (map (fun e => if fst e =? c
                             then (fst e, remove_path (c' :: cs) (snd e))
                             else e) es) = true) as ->.
    { apply forallb_forall. intros e He.
      apply in_map_iff in He as (e0 & <- & He0).
      destruct (fst e0 =? c); simpl; now apply H1. }
    apply forallb_forall. intros e He.
    apply in_map_iff in He as (e0 & <- & He0).
    destruct (fst e0 =? c); simpl; [apply IH|]; now apply H3.
Qed.

Lemma height_remove_path (cs : list string) :
  forall t, height (remove_path cs t) <= height t.
Proof.
  induction cs as [|c cs IH]; intros t; [reflexivity|].
  destruct t as [|es]; [reflexivity|].
  destruct cs as [|c' cs].
  - cbn [remove_path height]. apply le_n_S. apply list_max_le.
    apply Forall_forall. intros x Hx.
    apply in_map_iff in Hx as (e & <- & He).
    apply filter_In in He as [He _].
    apply in_list_max, in_map_iff. now exists e.
  - change (remove_path (c :: c' :: cs) (Dir es))
      with (Dir (map (fun e => if fst e =? c
                               then (fst e, remove_path (c' :: cs) (snd e))
                               else e) es)).
    cbn [height]. apply le_n_S. apply list_max_le.
    apply Forall_forall. intros x Hx.
    apply in_map_iff in Hx as (e' & <- & He').
    apply in_map_iff in He' as (e & <- & He).
    assert (height (snd e) <= list_max (map (fun e => height (snd e)) es))
      by (apply in_list_max, in_map_iff; now exists e).
    destruct (fst e =? c); cbn [snd]; [|assumption].
    specialize (IH (snd e)). lia.
Qed.

Lemma launches_app (t t' : list Event) :
  launches (t ++ t') = (launches t ++ launches t')%list.
Proof. apply flat_map_app. Qed.

Lemma registrations_app (t t' : list Event) :
  registrations (t ++ t') = (registrations t ++ registrations t')%list.
Proof. apply flat_map_app. Qed.

(** ** [cleanupDbFolder] whatever fails *)

Lemma shrinks_refl (P : Event -> Prop) (w : World) :
  wf (fs w) = true -> shrinks P w w.
Proof.
  intros H. repeat split; auto.
  exists []. split; [now rewrite app_nil_r|constructor].
Qed.

Lemma shrinks_trans (P : Event -> Prop) (w1 w2 w3 : World) :
  shrinks P w1 w2 -> shrinks P w2 w3 -> shrinks P w1 w3.
Proof.
  intros (_ & H2 & H3 & H4 & evs & Ht & Hd) (G1 & G2 & G3 & G4 & evs' & Gt & Gd).
  repeat split; [assumption|lia|congruence|congruence|].
  exists (evs ++ evs')%list. split.
  - now rewrite Gt, Ht, app_assoc.
  - rewrite deletions_app. apply Forall_app. now split.
Qed.

Lemma shrinks_weaken (P Q : Event -> Prop) (w w' : World) :
  (forall ev, P ev -> Q ev) -> shrinks P w w' -> shrinks Q w w'.
Proof.
  intros HPQ (H1 & H2 & H3 & H4 & evs & Ht & Hd).
  repeat split; try assumption.
  exists evs. split; [assumption|]. eapply Forall_impl; eassumption.
Qed.

Lemma shrinks_remove (P : Event -> Prop) (cs : list string) (w : World)
      (ev : Event) :
  wf (fs w) = true ->
  launches [ev] = [] -> registrations [ev] = [] -> P ev ->
  shrinks P w {| fs := remove_path cs (fs w); trace := trace w ++ [ev] |}.
Proof.
  intros Hwf Hl Hr HP. repeat split; cbn [fs trace].
  - now apply wf_remove_path.
  - apply height_remove_path.
  - now rewrite launches_app, Hl, app_nil_r.
  - now rewrite registrations_app, Hr, app_nil_r.
  - exists [ev]. split; [reflexivity|].
    unfold deletions. cbn [filter]. destruct ev; repeat constructor; exact HP.
Qed.

Lemma shrinks_emit (P : Event -> Prop) (w : World) (ev : Event) :
  wf (fs w) = true ->
  launches [ev] = [] -> registrations [ev] = [] -> deletions [ev] = [] ->
  shrinks P w {| fs := fs w; trace := trace w ++ [ev] |}.
Proof.
  intros Hwf Hl Hr Hd. repeat split; cbn [fs trace]; auto.
  - now rewrite launches_app, Hl, app_nil_r.
  - now rewrite registrations_app, Hr, app_nil_r.
  - exists [ev]. split; [reflexivity|]. rewrite Hd. constructor.
Qed.

Lemma deletes_under_here (l : list string) :
  deletes_under l (EUnlink (abs_path l)) /\ deletes_under l (ERmdir (abs_path l)).
Proof. split; exists []; rewrite app_nil_r; auto. Qed.

Lemma deletes_under_child (l : list string) (f : string) (ev : Event) :
  deletes_under (l ++ [f]) ev -> deletes_under l ev.
Proof.
  intros (ds & H). exists (f :: ds). now rewrite <- app_assoc in H.
Qed.

Lemma deletes_sample_child (l : list string) (f : string) (ev : Event) :
  prefix "sample_" f = true -> deletes_under (l ++ [f]) ev -> deletes_sample l ev.
Proof.
  intros Hf (ds & H). exists f, ds. now rewrite <- app_assoc in H.
Qed.

Section SyscallCases.

Variable env : Env.

Lemma readdir_cases (p : string) (w : World) :
  (exists e, readdir env p w = (Throw e, w))
  \/ (exists es, lookup (fs_components env p) (fs w) = Some (Dir es)
                 /\ readdir env p w = (Ok (map fst es), w)).
Proof.
  unfold readdir. destruct (fault env Readdir p); [left; eauto|].
  destruct (lookup (fs_components env p) (fs w)) as [[|es]|];
    [left; eauto|right; eauto|left; eauto].
Qed.

Lemma lstat_cases (p : string) (w : World) :
  (exists e, lstat env p w = (Throw e, w))
  \/ (exists n, lookup (fs_components env p) (fs w) = Some n
                /\ lstat env p w = (Ok (is_dir n), w)).
Proof.
  unfold lstat. destruct (fault env Lstat p); [left; eauto|].
  destruct (lookup (fs_components env p) (fs w)) as [n|];
    [right; eauto|left; eauto].
Qed.

Lemma unlink_cases (p : string) (w : World) :
  (exists e, unlink env p w = (Throw e, w))
  \/ unlink env p w
     = (Ok tt, {| fs := remove_path (fs_components env p) (fs w);
                  trace := trace w ++ [EUnlink p] |}).
Proof.
  unfold unlink. destruct (fault env Unlink p); [left; eauto|].
  destruct (lookup (fs_components env p) (fs w)) as [[|es]|];
    [right; eauto|left; eauto|left; eauto].
Qed.

Lemma rmdir_cases (p : string) (w : World) :
  (exists e, rmdir env p w = (Throw e, w))
  \/ rmdir env p w
     = (Ok tt, {| fs := remove_path (fs_components env p) (fs w);
                  trace := trace w ++ [ERmdir p] |}).
Proof.
  unfold rmdir. destruct (fault env Rmdir p); [left; eauto|].
  destruct (lookup (fs_components env p) (fs w)) as [[|[|? ?]]|];
    [left; eauto| |left; eauto|left; eauto].
  destruct (fs_components env p); [left; eauto|right; eauto].
Qed.

End SyscallCases.

Section CleanupReturns.

Variable env : Env.

Lemma cleanupDbFolder_loop_settles (fuel : nat) (l : list string) :
  returns env fuel ->
  forallb proper l = true ->
  forall (names : list string) (w : World),
    forallb proper names = true ->
    wf (fs w) = true ->
    height (fs w) <= List.length l + S fuel ->
    exists r w',
      for_of names
        (fun file =>
           curPath <- sanitizePath env (path.join (abs_path l) file) ;;
           curStat <- lstat env curPath ;;
           if curStat then cleanupDbFolder env fuel curPath
           else unlink env curPath) w
      = (r, w')
      /\ settles r /\ shrinks (deletes_under l) w w'.
Proof.
  intros IHfuel Hl names.
  induction names as [|f names IH]; intros w Hnames Hwf Hh.
  - exists (Ok tt), w.
    split; [reflexivity|]. split; [exact I|now apply shrinks_refl].
  - simpl in Hnames. apply andb_prop in Hnames as [Hf Hnames].
    assert (Hlf : forallb proper (l ++ [f]) = true)
      by (rewrite forallb_app; simpl; now rewrite Hl, Hf).
    (* one iteration comes back, and the tree only shrinks *)
    assert (Hbody : exists r1 w1,
      (curPath <- sanitizePath env (path.join (abs_path l) f) ;;
       curStat <- lstat env curPath ;;
       if curStat then cleanupDbFolder env fuel curPath
       else unlink env curPath) w = (r1, w1)
      /\ settles r1 /\ shrinks (deletes_under l) w w1).
    { rewrite join_abs_path by assumption.
      erewrite bind_ok by (now apply sanitizePath_abs_path).
      destruct (lstat_cases env (abs_path (l ++ [f])) w)
        as [(e & Hst)|(n & Hlk & Hst)].
      - erewrite bind_throw by exact Hst.
        exists (Throw e), w.
        split; [reflexivity|]. split; [exact I|now apply shrinks_refl].
      - erewrite bind_ok by exact Hst.
        rewrite fs_components_abs_path in Hlk by assumption.
        destruct n as [|es]; cbn [is_dir].
        + destruct (unlink_cases env (abs_path (l ++ [f])) w) as [(e & Hu)|Hu];
            rewrite Hu.
          * exists (Throw e), w.
            split; [reflexivity|]. split; [exact I|now apply shrinks_refl].
          * eexists (Ok tt), _. split; [reflexivity|]. split; [exact I|].
            apply shrinks_remove; [assumption|reflexivity|reflexivity|].
            apply (deletes_under_child l f). apply deletes_under_here.
        + pose proof (height_lookup _ _ _ Hlk) as Hd.
          rewrite length_app in Hd. simpl in Hd.
          destruct (IHfuel (l ++ [f])%list w) as (w1 & Hrun & Hs & _);
            try assumption.
          * rewrite length_app. simpl. lia.
          * lia.
          * exists (Ok tt), w1.
            split; [exact Hrun|]. split; [exact I|].
            eapply shrinks_weaken; [|exact Hs].
            intros ev. apply (deletes_under_child l f). }
    destruct Hbody as (r1 & w1 & Hrun1 & Hset1 & Hs1).
    cbn [for_of]. destruct r1 as [[]|e| |]; try contradiction.
    + erewrite bind_ok by exact Hrun1.
      pose proof Hs1 as (Hwf1 & Hh1 & _).
      destruct (IH w1) as (r & w' & Hrun & Hset & Hs); try assumption; [lia|].
      exists r, w'. split; [exact Hrun|]. split; [exact Hset|].
      eapply shrinks_trans; eassumption.
    + erewrite bind_throw by exact Hrun1.
      exists (Throw e), w1.
      split; [reflexivity|]. split; [exact I|exact Hs1].
Qed.

Lemma cleanupDbFolder_returns (fuel : nat) : returns env fuel.
Proof.
  induction fuel as [|fuel IH]; intros l w Hl Hwf Hh Hpos; [lia|].
  (* the body of the try block comes back *)
  assert (Hbody : exists r w1,
    (files <- readdir env (abs_path l) ;;
     for_of files
       (fun file =>
          curPath <- sanitizePath env (path.join (abs_path l) file) ;;
          curStat <- lstat env curPath ;;
          if curStat then cleanupDbFolder env fuel curPath
          else unlink env curPath) ;;
     rmdir env (abs_path l)) w = (r, w1)
    /\ settles r /\ shrinks (deletes_under l) w w1
    /\ (r = Ok tt -> exists t, trace w1 = (t ++ [ERmdir (abs_path l)])%list)).
  { destruct (readdir_cases env (abs_path l) w) as [(e & Hrd)|(es & Hlk & Hrd)].
    - erewrite bind_throw by exact Hrd.
      exists (Throw e), w.
      split; [reflexivity|]. split; [exact I|].
      split; [now apply shrinks_refl|discriminate].
    - erewrite bind_ok by exact Hrd.
      rewrite fs_components_abs_path in Hlk by assumption.
      pose proof (wf_lookup _ _ _ Hwf Hlk) as Hwfd.
      destruct (wf_dir _ Hwfd) as (Hnames & _ & _).
      destruct (cleanupDbFolder_loop_settles fuel l IH Hl (map fst es) w)
        as (r & w1 & Hrun & Hset & Hs); try assumption.
      destruct r as [[]|e| |]; try contradiction.
      + erewrite bind_ok by exact Hrun.
        destruct (rmdir_cases env (abs_path l) w1) as [(e & Hrm)|Hrm];
          rewrite Hrm.
        * exists (Throw e), w1.
          split; [reflexivity|]. split; [exact I|].
          split; [exact Hs|discriminate].
        * eexists (Ok tt), _. split; [reflexivity|]. split; [exact I|]. split.
          -- eapply shrinks_trans; [exact Hs|].
             apply shrinks_remove;
               [apply Hs|reflexivity|reflexivity|apply deletes_under_here].
          -- intros _. now exists (trace w1).
      + erewrite bind_throw by exact Hrun.
        exists (Throw e), w1.
        split; [reflexivity|]. split; [exact I|].
        split; [exact Hs|discriminate]. }
  destruct Hbody as (r & w1 & Hrun & Hset & Hs & Hlast).
  cbn [cleanupDbFolder]. destruct r as [[]|e| |]; try contradiction.
  - exists w1. split; [now apply try_catch_ok|]. split; [exact Hs|].
    destruct (Hlast eq_refl) as (t & Ht). exists t. now left.
  - erewrite try_catch_throw by exact Hrun.
    eexists. split; [reflexivity|]. split.
    + eapply shrinks_trans; [exact Hs|].
      apply shrinks_emit; [apply Hs|reflexivity|reflexivity|reflexivity].
    + exists (trace w1). right. now exists e.
Qed.

End CleanupReturns.

(** ** The name of the new database *)

Lemma no_slash_uint (d : Decimal.uint) :
  no_slash (NilEmpty.string_of_uint d) = true.
Proof. induction d; simpl; auto. Qed.

Lemma no_slash_string_of_Z (z : Z) : no_slash (string_of_Z z) = true.
Proof.
  unfold string_of_Z, NilZero.string_of_int, NilZero.string_of_uint.
  destruct (Z.to_int z) as [d|d]; destruct d; simpl; auto using no_slash_uint.
Qed.

Lemma proper_sample (z : Z) : proper ("sample_" ++ string_of_Z z) = true.
Proof.
  unfold proper. simpl. now rewrite no_slash_string_of_Z.
Qed.

(** ** [cleanupOldDb] whatever fails *)

Section CleanupOldDbReturns.

Variable env : Env.

Lemma cleanupOldDb_loop_settles (fuel : nat) (l : list string) (total : nat) :
  forallb proper l = true ->
  forall (names : list string) (k : nat) (w : World),
    forallb proper names = true ->
    wf (fs w) = true ->
    height (fs w) <= fuel ->
    exists r w',
      cleanupOldDb_loop env fuel (abs_path l) total names k w = (r, w')
      /\ settles r /\ shrinks (deletes_sample l) w w'.
Proof.
  intros Hl names.
  induction names as [|f names IH]; intros k w Hnames Hwf Hh.
  - exists (Ok tt), w.
    split; [reflexivity|]. split; [exact I|now apply shrinks_refl].
  - simpl in Hnames. apply andb_prop in Hnames as [Hf Hnames].
    assert (Hlf : forallb proper (l ++ [f]) = true)
      by (rewrite forallb_app; simpl; now rewrite Hl, Hf).
    cbn [cleanupOldDb_loop]. rewrite join_abs_path by assumption.
    destruct (lstat_cases env (abs_path (l ++ [f])) w)
      as [(e & Hst)|(n & Hlk & Hst)].
    + erewrite bind_throw by exact Hst.
      exists (Throw e), w.
      split; [reflexivity|]. split; [exact I|now apply shrinks_refl].
    + erewrite bind_ok by exact Hst.
      rewrite fs_components_abs_path in Hlk by assumption.
      assert (Hstep : exists w1,
        (if is_dir n && prefix "sample_" f
         then cleanupDbFolder env fuel (abs_path (l ++ [f]))
         else ret tt) w = (Ok tt, w1) /\ shrinks (deletes_sample l) w w1).
      { destruct (is_dir n && prefix "sample_" f) eqn:E.
        - destruct n as [|es]; [discriminate|]. cbn [is_dir andb] in E.
          pose proof (height_lookup _ _ _ Hlk) as Hd.
          rewrite length_app in Hd. simpl in Hd.
          destruct (cleanupDbFolder_returns env fuel (l ++ [f])%list w)
            as (w1 & Hrun & Hs & _); try assumption; try lia.
          exists w1. split; [exact Hrun|].
          eapply shrinks_weaken; [|exact Hs].
          intros ev. now apply deletes_sample_child.
        - exists w. split; [reflexivity|now apply shrinks_refl]. }
      destruct Hstep as (w1 & Hrun1 & Hs1).
      erewrite bind_ok by exact Hrun1.
      unfold report at 1. erewrite bind_ok by reflexivity.
      match goal with
      | |- context [cleanupOldDb_loop _ _ _ _ _ _ ?w2] =>
          destruct (IH (S k) w2) as (r & w' & Hrun & Hset & Hs)
      end; try assumption.
      * apply Hs1.
      * cbn [fs]. destruct Hs1 as (_ & Hh1 & _). lia.
      * exists r, w'. split; [exact Hrun|]. split; [exact Hset|].
        eapply shrinks_trans; [exact Hs1|].
        eapply shrinks_trans; [|exact Hs].
        apply shrinks_emit; [apply Hs1|reflexivity|reflexivity|reflexivity].
Qed.

(** [cleanupOldDb] never throws: it comes back normally on every path
    and in every state of the disk, whatever system call fails; and what
    it deletes lies at or below a child of the folder whose name starts
    with [sample_]. *)
Lemma cleanupOldDb_returns (fuel : nat) (folderPath : string) (w : World) :
  wf (fs w) = true ->
  height (fs w) <= fuel ->
  exists w',
    cleanupOldDb env fuel folderPath w = (Ok tt, w')
    /\ shrinks (deletes_sample (fs_components env folderPath)) w w'.
Proof.
  intros Hwf Hh.
  assert (Hbody : exists r w1,
    (sanitizedFolderPath <- sanitizePath env folderPath ;;
     files <- readdir env sanitizedFolderPath ;;
     let totalFiles := List.length files in
     withProgress "Cleaning up old databases"
       (report (Pct 0) None ;;
        cleanupOldDb_loop env fuel sanitizedFolderPath totalFiles files 0)) w
    = (r, w1)
    /\ settles r
    /\ shrinks (deletes_sample (fs_components env folderPath)) w w1).
  { destruct (sanitizePath env folderPath w) as [[q|e| |] w0] eqn:Hsan.
    - destruct (sanitizePath_inv env _ _ _ _ Hsan) as (-> & -> & l & Hl & ->).
      erewrite bind_ok by exact Hsan.
      rewrite fs_components_abs_path by assumption.
      destruct (readdir_cases env (abs_path l) w)
        as [(e & Hrd)|(es & Hlk & Hrd)].
      + erewrite bind_throw by exact Hrd.
        exists (Throw e), w.
        split; [reflexivity|]. split; [exact I|now apply shrinks_refl].
      + erewrite bind_ok by exact Hrd.
        rewrite fs_components_abs_path in Hlk by assumption.
        destruct (wf_dir _ (wf_lookup _ _ _ Hwf Hlk)) as (Hnames & _ & _).
        cbv zeta. unfold withProgress. erewrite bind_ok by reflexivity.
        unfold report at 1. erewrite bind_ok by reflexivity.
        match goal with
        | |- context [cleanupOldDb_loop _ _ _ ?t _ _ ?w2] =>
            destruct (cleanupOldDb_loop_settles fuel l t Hl (map fst es) 0 w2)
              as (r & w' & Hrun & Hset & Hs)
        end; try assumption.
        exists r, w'. split; [exact Hrun|]. split; [exact Hset|].
        eapply shrinks_trans; [|exact Hs].
        eapply shrinks_trans;
          [apply (shrinks_emit _ w (EWithProgress "Cleaning up old databases"))|
           apply shrinks_emit]; auto.
    - erewrite bind_throw by exact Hsan.
      unfold sanitizePath in Hsan.
      destruct (path.isAbsolute folderPath && _); [discriminate|].
      injection Hsan as <- <-.
      exists (Throw InvalidPath), w.
      split; [reflexivity|]. split; [exact I|now apply shrinks_refl].
    - unfold sanitizePath in Hsan.
      destruct (path.isAbsolute folderPath && _); discriminate.
    - unfold sanitizePath in Hsan.
      destruct (path.isAbsolute folderPath && _); discriminate. }
  destruct Hbody as (r & w1 & Hrun & Hset & Hs).
  unfold cleanupOldDb. destruct r as [[]|e| |]; try contradiction.
  - exists w1. split; [now apply try_catch_ok|exact Hs].
  - erewrite try_catch_throw by exact Hrun.
    eexists. split; [reflexivity|].
    eapply shrinks_trans; [exact Hs|].
    apply shrinks_emit; [apply Hs|reflexivity|reflexivity|reflexivity].
Qed.

End CleanupOldDbReturns.

(** ** Listeners *)

Lemma dispatch_app {S} (L : ChildEvent -> S -> M S) (a b : list ChildEvent) :
  forall (st st' : S) (w w' : World),
    dispatch L a st w = (Ok st', w') ->
    dispatch L (a ++ b) st w = dispatch L b st' w'.
Proof.
  induction a as [|ev a IH]; intros st st' w w' H.
  - simpl in H. unfold ret in H. now injection H as -> ->.
  - simpl in *. destruct (L ev st w) as [[st1|e| |] w1]; try discriminate.
    + now apply IH.
    + unfold bind, emit in *. now apply IH.
Qed.

Lemma silent_refl (w : World) : silent w w.
Proof. repeat split. Qed.

Lemma silent_trans (w1 w2 w3 : World) :
  silent w1 w2 -> silent w2 w3 -> silent w1 w3.
Proof. intros (H1 & H2 & H3) (G1 & G2 & G3). repeat split; congruence. Qed.

Lemma silent_emit (w : World) (ev : Event) :
  launches [ev] = [] -> registrations [ev] = [] ->
  silent w {| fs := fs w; trace := trace w ++ [ev] |}.
Proof.
  intros Hl Hr. repeat split; cbn [fs trace].
  - now rewrite launches_app, Hl, app_nil_r.
  - now rewrite registrations_app, Hr, app_nil_r.
Qed.

Lemma extension_data (out : list (Stream * string)) :
  forall (st : Extension.ExecState) (w : World),
  exists st',
    dispatch Extension.executeCommand_listener
      (map (fun d => OnData (fst d) (snd d)) out) st w
    = (Ok st', w)
    /\ Extension.promise st' = Extension.promise st
    /\ Extension.exited st' = Extension.exited st.
Proof.
  induction out as [|[[|] chunk] out IH]; intros st w.
  - exists st. repeat split.
  - cbn [map dispatch fst snd Extension.executeCommand_listener]. cbv zeta.
    destruct (maxBuffer <? Extension.stdoutLen st + Z.of_nat (String.length chunk))%Z;
      unfold ret;
      match goal with
      | |- context [dispatch _ _ ?st1 w] =>
          destruct (IH st1 w) as (st' & H & Hp & He)
      end;
      exists st'; (split; [exact H|split; assumption]).
  - cbn [map dispatch fst snd Extension.executeCommand_listener]. cbv zeta.
    unfold ret.
    match goal with
    | |- context [dispatch _ _ ?st1 w] =>
        destruct (IH st1 w) as (st' & H & Hp & He)
    end.
    exists st'. split; [exact H|split; assumption].
Qed.

Lemma part000_data (out : list (Stream * string)) :
  forall (p : Promise unit) (w : World),
  exists w',
    dispatch Part000.codeqlCmd_listener
      (map (fun d => OnData (fst d) (snd d)) out) p w = (Ok p, w')
    /\ silent w w'.
Proof.
  induction out as [|[[|] chunk] out IH]; intros p w.
  - exists w. split; [reflexivity|apply silent_refl].
  - simpl. unfold console_log, report, bind, emit, ret. cbn [fs trace].
    match goal with
    | |- context [dispatch _ _ p ?w1] => destruct (IH p w1) as (w' & H & Hs)
    end.
    exists w'. split; [exact H|].
    eapply silent_trans; [|exact Hs].
    eapply silent_trans;
      [apply (silent_emit w (EConsole chunk None)); reflexivity|].
    apply (silent_emit
             {| fs := fs w; trace := trace w ++ [EConsole chunk None] |}
             (EReport _ _)); reflexivity.
  - simpl. unfold console_log, report, bind, emit, ret. cbn [fs trace].
    match goal with
    | |- context [dispatch _ _ p ?w1] => destruct (IH p w1) as (w' & H & Hs)
    end.
    exists w'. split; [exact H|].
    eapply silent_trans; [|exact Hs].
    eapply silent_trans;
      [apply (silent_emit w (EConsole chunk None)); reflexivity|].
    apply (silent_emit
             {| fs := fs w; trace := trace w ++ [EConsole chunk None] |}
             (EReport _ _)); reflexivity.
Qed.

(** ** Launching the tool *)

Lemma emit_run (ev : Event) (w : World) :
  emit ev w = (Ok tt, {| fs := fs w; trace := trace w ++ [ev] |}).
Proof. reflexivity. Qed.

Lemma callback_settled (error : option JsError) (out : string)
      (s : Settled Extension.Value) :
  Extension.callback error out (Some s) = Some s.
Proof. unfold Extension.callback. now destruct error. Qed.

(** The ['exit'] listener resolves the promise; the callback of [execFile],
    which runs on ['close'], comes too late to reject it. *)
Lemma extension_exit_then_close (code : option Z) (signal : option string)
      (st : Extension.ExecState) (w : World) :
  Extension.promise st = None ->
  Extension.exited st = false ->
  exists st',
    dispatch Extension.executeCommand_listener
      [OnExit code signal; OnClose code signal] st w
    = (Ok st', {| fs := fs w; trace := trace w ++ [EReport (Pct 100) None] |})
    /\ Extension.promise st' = Some (Resolved (Extension.VCode code)).
Proof.
  intros Hp He.
  cbn [dispatch Extension.executeCommand_listener].
  unfold report, bind, emit, ret. cbn [Extension.exited]. rewrite He.
  eexists. split; [reflexivity|].
  cbn [Extension.promise]. rewrite Hp. apply callback_settled.
Qed.

(** [executeCommand] of [src/extension.js], result and effects: the promise
    is settled by the first of the listeners to run, and by none when the
    child never ends. *)
Lemma extension_executeCommand_exact (env : Env) (file : string)
      (args : list string) (w : World) :
  Extension.executeCommand env (file :: args) w
  = (match ending (execFile_run (child env (ExecFile file args))) with
     | Exited c => Ok (Extension.VCode (Some c))
     | Killed _ => Ok (Extension.VCode None)
     | SpawnFailed e => Throw (SpawnError e file)
     | NeverEnds => Pending
     end,
     {| fs := fs w;
        trace := trace w
                 ++ [EWithProgress "Creating CodeQL database";
                     EReport (Pct 0) None;
                     ELaunch (ExecFile file args)]
                 ++ match ending (execFile_run (child env (ExecFile file args))) with
                    | Exited _ | Killed _ => [EReport (Pct 100) None]
                    | SpawnFailed _ | NeverEnds => []
                    end |}).
Proof.
  unfold Extension.executeCommand, withProgress, report. cbn [hd tl].
  erewrite bind_ok by apply emit_run.
  erewrite bind_ok by apply emit_run.
  erewrite bind_ok by apply emit_run.
  cbn [fs trace].
  destruct (execFile_run (child env (ExecFile file args))) as [out e k].
  unfold child_events. cbn [ending output].
  destruct e as [c|sg|e|].
  - match goal with
    | |- bind (dispatch _ _ ?st0) _ ?w2 = _ =>
        destruct (extension_data out st0 w2) as (st1 & Hd & Hp1 & He1);
        destruct (extension_exit_then_close (Some c) None st1 w2 Hp1 He1)
          as (st2 & Hx & Hp2)
    end.
    erewrite bind_ok by (erewrite dispatch_app by exact Hd; exact Hx).
    unfold await. rewrite Hp2. cbn [fs trace]. now rewrite <- !app_assoc.
  - match goal with
    | |- bind (dispatch _ _ ?st0) _ ?w2 = _ =>
        destruct (extension_data out st0 w2) as (st1 & Hd & Hp1 & He1);
        destruct (extension_exit_then_close None (Some sg) st1 w2 Hp1 He1)
          as (st2 & Hx & Hp2)
    end.
    erewrite bind_ok by (erewrite dispatch_app by exact Hd; exact Hx).
    unfold await. rewrite Hp2. cbn [fs trace]. now rewrite <- !app_assoc.
  - erewrite bind_ok by reflexivity.
    unfold await. cbn. now rewrite <- !app_assoc.
  - match goal with
    | |- bind (dispatch _ _ ?st0) _ ?w2 = _ =>
        destruct (extension_data out st0 w2) as (st1 & Hd & Hp1 & He1)
    end.
    erewrite bind_ok by exact Hd.
    unfold await. rewrite Hp1. cbn [Extension.promise fs trace].
    now rewrite <- !app_assoc.
Qed.

(** What [executeCommand] of [src/extension.js] leaves to its caller. *)
Lemma extension_executeCommand_run (env : Env) (args : list string) (w : World) :
  exists r w',
    Extension.executeCommand env ("codeql" :: args) w = (r, w')
    /\ fs w' = fs w
    /\ launches (trace w') = (launches (trace w) ++ [ExecFile "codeql" args])%list
    /\ registrations (trace w') = registrations (trace w)
    /\ r = match ending (execFile_run (child env (ExecFile "codeql" args))) with
           | Exited c => Ok (Extension.VCode (Some c))
           | Killed _ => Ok (Extension.VCode None)
           | SpawnFailed e => Throw (SpawnError e "codeql")
           | NeverEnds => Pending
           end.
Proof.
  eexists _, _. split; [apply extension_executeCommand_exact|].
  cbn [fs trace]. rewrite !launches_app, !registrations_app.
  split; [reflexivity|].
  destruct (ending (execFile_run (child env (ExecFile "codeql" args))));
    simpl; rewrite !app_nil_r; auto.
Qed.

(** How a child ends under [execFile]. *)
Lemma execFile_run_ending (r : ChildRun) :
  ending (execFile_run r)
  = match ending r with
    | SpawnFailed e => SpawnFailed e
    | e => if overflows r then on_kill r else e
    end.
Proof.
  unfold execFile_run. destruct (ending r) eqn:E; cbn [ending]; auto.
Qed.

(** A child that stays within the buffer ends under [execFile] as it does
    when left alone. *)
Lemma execFile_run_within (r : ChildRun) :
  overflows r = false -> ending (execFile_run r) = ending r.
Proof.
  intros H. rewrite execFile_run_ending, H. now destruct (ending r).
Qed.

(** [codeqlCmd] of [src/unnamed/part_000]: it catches what it awaits, and
    stays pending when the ['exit'] listener throws. *)
Lemma part000_codeqlCmd_run (env : Env) (cmd : string) (w : World) :
  exists w',
    Part000.codeqlCmd env cmd w
    = (part000_outcome (ending (child env (SpawnShell cmd))), w')
    /\ fs w' = fs w
    /\ launches (trace w') = (launches (trace w) ++ [SpawnShell cmd])%list
    /\ registrations (trace w') = registrations (trace w).
Proof.
  unfold Part000.codeqlCmd, withProgress, report.
  set (w2 := {| fs := fs w;
                trace := ((trace w ++ [EWithProgress "Creating CodeQL database"])
                            ++ [EReport (Pct 0)
                                  (Some "Starting CodeQL database creation")])
                           ++ [ELaunch (SpawnShell cmd)] |}).
  assert (Hobs : fs w2 = fs w
                 /\ launches (trace w2)
                    = (launches (trace w) ++ [SpawnShell cmd])%list
                 /\ registrations (trace w2) = registrations (trace w)).
  { subst w2. cbn [fs trace].
    rewrite !launches_app, !registrations_app. simpl.
    now rewrite !app_nil_r. }
  destruct Hobs as (Hfs & Hl & Hr).
  destruct (child env (SpawnShell cmd)) as [out e k].
  unfold child_events. cbn [ending output].
  destruct e as [c|sg|e|].
  4:{ destruct (part000_data out None w2) as (w3 & Hd & Hs3 & Hl3 & Hr3).
      eexists. split.
      + unfold try_catch.
        erewrite bind_ok by apply emit_run.
        erewrite bind_ok by apply emit_run.
        erewrite bind_ok by apply emit_run.
        erewrite bind_ok by exact Hd.
        reflexivity.
      + cbn [fs trace]. repeat split; congruence. }
  - destruct (part000_data out None w2) as (w3 & Hd & Hs3 & Hl3 & Hr3).
    destruct (Z.eq_dec c 0) as [->|Hc].
    + eexists. split.
      * apply try_catch_ok.
        erewrite bind_ok by apply emit_run.
        erewrite bind_ok by apply emit_run.
        erewrite bind_ok by apply emit_run.
        erewrite bind_ok
          by (erewrite dispatch_app by exact Hd; reflexivity).
        reflexivity.
      * cbn [fs trace]. rewrite !launches_app, !registrations_app. simpl.
        rewrite !app_nil_r. repeat split; congruence.
    + eexists. split.
      * unfold try_catch.
        erewrite bind_ok by apply emit_run.
        erewrite bind_ok by apply emit_run.
        erewrite bind_ok by apply emit_run.
        erewrite bind_ok
          by (erewrite dispatch_app by exact Hd;
              cbn; destruct c; [contradiction|reflexivity|reflexivity]).
        cbn. destruct c; [contradiction|reflexivity|reflexivity].
      * cbn [fs trace]. rewrite !launches_app, !registrations_app. simpl.
        rewrite !app_nil_r. repeat split; congruence.
  - destruct (part000_data out None w2) as (w3 & Hd & Hs3 & Hl3 & Hr3).
    eexists. split.
    + unfold try_catch.
      erewrite bind_ok by apply emit_run.
      erewrite bind_ok by apply emit_run.
      erewrite bind_ok by apply emit_run.
      erewrite bind_ok
        by (erewrite dispatch_app by exact Hd; reflexivity).
      reflexivity.
    + cbn [fs trace]. rewrite !launches_app, !registrations_app. simpl.
      rewrite !app_nil_r. repeat split; congruence.
  - eexists. split.
    + erewrite try_catch_throw.
      * reflexivity.
      * erewrite bind_ok by apply emit_run.
        erewrite bind_ok by apply emit_run.
        erewrite bind_ok by apply emit_run.
        erewrite bind_ok by reflexivity.
        reflexivity.
    + cbn [fs trace]. rewrite !launches_app, !registrations_app. simpl.
      rewrite !app_nil_r. repeat split; congruence.
Qed.

(** ** [updateDb] on a source root that passes [sanitizePath] *)

(** The command line of [src/unnamed/part_000] is the program and the
    arguments of [src/extension.js], separated by single spaces. *)
Lemma part000_command_text (language sourceRoot : string)
      (command : option string) (database : string) :
  (if truthy command
   then "codeql database create " ++ database
          ++ " --language=" ++ language
          ++ " --source-root " ++ sourceRoot
          ++ " --command " ++ string_value command ++ " --overwrite"
   else "codeql database create " ++ database
          ++ " --language=" ++ language
          ++ " --source-root " ++ sourceRoot
          ++ " --build-mode=none --overwrite")
  = String.concat " "
      ("codeql" :: codeql_args language sourceRoot command database).
Proof. unfold codeql_args. destruct (truthy command); reflexivity. Qed.

Section UpdateDb.

Variable env : Env.

Lemma database_path (sourceRoot : string) (w1 : World) :
  path.isAbsolute sourceRoot = true ->
  sanitizePath env
    (path.join sourceRoot ("sample_" ++ string_of_Z (now env))) w1
  = (Ok (path.join sourceRoot ("sample_" ++ string_of_Z (now env))), w1).
Proof.
  intros Habs.
  rewrite (join_absolute env) by (auto using proper_sample).
  apply sanitizePath_abs_path.
  rewrite forallb_app. cbn [forallb].
  now rewrite fs_components_proper, proper_sample.
Qed.

Lemma extension_updateDb_run (fuel : nat) (language sourceRoot : string)
      (command : option string) (w : World) :
  path.isAbsolute sourceRoot = true ->
  wf (fs w) = true ->
  height (fs w) <= fuel ->
  let database := path.join sourceRoot ("sample_" ++ string_of_Z (now env)) in
  let l := ExecFile "codeql"
             (codeql_args language sourceRoot command database) in
  exists w1 w',
    cleanupOldDb env fuel sourceRoot w = (Ok tt, w1)
    /\ shrinks (deletes_sample (fs_components env sourceRoot)) w w1
    /\ Extension.updateDb env fuel language sourceRoot command w
       = (extension_outcome (ending (execFile_run (child env l))), w')
    /\ fs w' = fs w1
    /\ launches (trace w') = (launches (trace w) ++ [l])%list
    /\ registrations (trace w')
       = (registrations (trace w)
          ++ if extension_registers (ending (execFile_run (child env l)))
             then [database] else [])%list.
Proof.
  intros Habs Hwf Hh database l.
  destruct (cleanupOldDb_returns env fuel sourceRoot w Hwf Hh)
    as (w1 & Hc & Hs).
  pose proof Hs as (_ & _ & Hl1 & Hr1 & _).
  destruct (extension_executeCommand_run env
              (codeql_args language sourceRoot command database) w1)
    as (r & w2 & Hrun & Hfs2 & Hl2 & Hr2 & Hr).
  fold l in Hl2, Hr.
  assert (Hcmd :
    (if truthy command
     then ["codeql"; "database"; "create"; database;
           "--language=" ++ language; "--source-root"; sourceRoot;
           "--command"; string_value command; "--overwrite"]
     else ["codeql"; "database"; "create"; database;
           "--language=" ++ language; "--source-root"; sourceRoot;
           "--build-mode=none"; "--overwrite"])
    = "codeql" :: codeql_args language sourceRoot command database)
    by (unfold codeql_args; now destruct (truthy command)).
  exists w1.
  unfold Extension.updateDb.
  erewrite bind_ok by exact Hc.
  erewrite bind_ok by (apply database_path; exact Habs).
  fold database. cbv zeta. rewrite Hcmd.
  destruct (ending (execFile_run (child env l))) as [c|sg|e|]; subst r;
    cbn [extension_registers extension_outcome].
  - eexists. split; [exact Hc|]. split; [exact Hs|]. split.
    + apply try_catch_ok. erewrite bind_ok by exact Hrun. apply emit_run.
    + cbn [fs trace]. rewrite launches_app, registrations_app. simpl.
      rewrite app_nil_r. repeat split; congruence.
  - eexists. split; [exact Hc|]. split; [exact Hs|]. split.
    + apply try_catch_ok. erewrite bind_ok by exact Hrun. apply emit_run.
    + cbn [fs trace]. rewrite launches_app, registrations_app. simpl.
      rewrite app_nil_r. repeat split; congruence.
  - eexists. split; [exact Hc|]. split; [exact Hs|]. split.
    + erewrite try_catch_throw by (erewrite bind_throw by exact Hrun; reflexivity).
      apply emit_run.
    + cbn [fs trace]. rewrite launches_app, registrations_app. simpl.
      rewrite !app_nil_r. repeat split; congruence.
  - eexists. split; [exact Hc|]. split; [exact Hs|]. split.
    + unfold try_catch, bind. rewrite Hrun. reflexivity.
    + rewrite app_nil_r. repeat split; congruence.
Qed.

Lemma part000_updateDb_run (fuel : nat) (language sourceRoot : string)
      (command : option string) (w : World) :
  path.isAbsolute sourceRoot = true ->
  wf (fs w) = true ->
  height (fs w) <= fuel ->
  let database := path.join sourceRoot ("sample_" ++ string_of_Z (now env)) in
  let l := SpawnShell
             (String.concat " "
                ("codeql" :: codeql_args language sourceRoot command database)) in
  exists w1 w',
    cleanupOldDb env fuel sourceRoot w = (Ok tt, w1)
    /\ shrinks (deletes_sample (fs_components env sourceRoot)) w w1
    /\ Part000.updateDb env fuel language sourceRoot command w
       = (part000_outcome (ending (child env l)), w')
    /\ fs w' = fs w1
    /\ launches (trace w') = (launches (trace w) ++ [l])%list
    /\ registrations (trace w')
       = (registrations (trace w)
          ++ if part000_registers (ending (child env l))
             then [database] else [])%list.
Proof.
  intros Habs Hwf Hh database l.
  destruct (cleanupOldDb_returns env fuel sourceRoot w Hwf Hh)
    as (w1 & Hc & Hs).
  pose proof Hs as (_ & _ & Hl1 & Hr1 & _).
  destruct (part000_codeqlCmd_run env
              (String.concat " "
                 ("codeql" :: codeql_args language sourceRoot command database))
              w1)
    as (w2 & Hrun & Hfs2 & Hl2 & Hr2).
  fold l in Hl2, Hrun.
  exists w1.
  unfold Part000.updateDb.
  erewrite bind_ok by exact Hc.
  erewrite bind_ok by (apply database_path; exact Habs).
  fold database. cbv zeta. rewrite part000_command_text.
  unfold try_catch, bind. rewrite Hrun.
  destruct (ending (child env l)) as [c|sg|e|];
    [destruct c as [|c|c]| | |]; cbn [part000_outcome part000_registers].
  6:{ eexists. split; [exact Hc|]. split; [exact Hs|].
      split; [reflexivity|].
      rewrite app_nil_r. repeat split; congruence. }
  - eexists. split; [exact Hc|]. split; [exact Hs|].
    split; [reflexivity|]. cbn [fs trace].
    rewrite !launches_app, !registrations_app. simpl.
    rewrite !app_nil_r. repeat split; congruence.
  - eexists. split; [exact Hc|]. split; [exact Hs|].
    split; [reflexivity|].
    rewrite app_nil_r. repeat split; congruence.
  - eexists. split; [exact Hc|]. split; [exact Hs|].
    split; [reflexivity|].
    rewrite app_nil_r. repeat split; congruence.
  - eexists. split; [exact Hc|]. split; [exact Hs|].
    split; [reflexivity|].
    rewrite app_nil_r. repeat split; congruence.
  - eexists. split; [exact Hc|]. split; [exact Hs|].
    split; [reflexivity|]. cbn [fs trace].
    rewrite !launches_app, !registrations_app. simpl.
    rewrite !app_nil_r. repeat split; congruence.
Qed.

End UpdateDb.

(** ** The fields of the command *)

(** An absolute source root, and the database path under it, start with
    the separator: no option is mistaken for them. *)
Lemma fields_start_with_slash (env : Env) (sourceRoot : string) :
  path.isAbsolute sourceRoot = true ->
  (exists s, sourceRoot = String "/" s)
  /\ (exists s, path.join sourceRoot ("sample_" ++ string_of_Z (now env))
                = String "/" s).
Proof.
  intros Habs. split.
  - destruct sourceRoot as [|c s]; [discriminate|].
    simpl in Habs. apply Ascii.eqb_eq in Habs. subst c. now eexists.
  - rewrite (join_absolute env) by (auto using proper_sample). now eexists.
Qed.

(** * The claims *)

(** C1. On a source root that passes [sanitizePath] and is a directory of
    a well-formed tree, [cleanupOldDb] returns normally, and whatever it
    deletes lies at or below a child of the source root whose name starts
    with [sample_], even when system calls fail.  When none fails it removes
    exactly the children that are directories named [sample_...]: the
    listing of the source root afterwards is the former one without them,
    every other child keeps its whole subtree, the tree is the former tree
    with just these entries removed, and the deletions performed are, for
    each such child in listing order, its post-order (files unlinked,
    directories removed after their contents), whatever its depth. *)
Theorem cleanupOldDb_removes_exactly_stale
        (env : Env) (fuel : nat) (sourceRoot : string) (w : World)
        (es : list (string * node)) :
  sanitizePath env sourceRoot w = (Ok sourceRoot, w) ->
  lookup (fs_components env sourceRoot) (fs w) = Some (Dir es) ->
  wf (fs w) = true ->
  height (fs w) <= fuel ->
  let root := fs_components env sourceRoot in
  exists w',
    cleanupOldDb env fuel sourceRoot w = (Ok tt, w')
    /\ shrinks (deletes_sample root) w w'
    /\ ((forall c p, fault env c p = None) ->
        lookup root (fs w') = Some (Dir (filter (fun e => negb (stale e)) es))
        /\ (forall f n, In (f, n) es ->
                        lookup (root ++ [f]) (fs w')
                        = if stale (f, n) then None else Some n)
        /\ fs w' = fold_left (fun t e => remove_path (root ++ [fst e]) t)
                             (filter stale es) (fs w)
        /\ deletions (trace w')
           = (deletions (trace w)
              ++ flat_map (fun e => if stale e
                                    then postorder (root ++ [fst e]) (snd e)
                                    else []) es)%list
        /\ Forall (deletes_under_stale root es)
                  (flat_map (fun e => if stale e
                                      then postorder (root ++ [fst e]) (snd e)
                                      else []) es)).
Proof.
  intros Hsan Hlk Hwf Hh root.
  destruct (cleanupOldDb_returns env fuel sourceRoot w Hwf Hh) as (w' & Hrun & Hs).
  exists w'. split; [exact Hrun|]. split; [exact Hs|].
  intros Hquiet.
  pose proof (height_lookup _ _ _ Hlk) as Hd.
  destruct (cleanupOldDb_exact env fuel sourceRoot w es Hquiet Hsan Hlk)
    as (w2 & Hrun2 & Hfacts).
  - exact (wf_lookup _ _ _ Hwf Hlk).
  - lia.
  - rewrite Hrun in Hrun2. injection Hrun2 as <-. exact Hfacts.
Qed.

Lemma cleanupOldDb_removes_exactly_stale_witness :
  exists w',
    cleanupOldDb (env0 0 None None) 4 "/proj" world0 = (Ok tt, w')
    /\ lookup ["proj"] (fs w')
       = Some (Dir [("other", Dir [("keep.txt", File)]);
                    ("sample_notes.txt", File);
                    ("my_sample_1", Dir [])])
    /\ deletions (trace w')
       = [EUnlink "/proj/sample_1000/db.bin";
          EUnlink "/proj/sample_1000/log/a.txt";
          ERmdir "/proj/sample_1000/log";
          ERmdir "/proj/sample_1000"].
Proof.
  destruct (cleanupOldDb_removes_exactly_stale (env0 0 None None) 4 "/proj"
              world0
              [("sample_1000", Dir [("db.bin", File);
                                    ("log", Dir [("a.txt", File)])]);
               ("other", Dir [("keep.txt", File)]);
               ("sample_notes.txt", File);
               ("my_sample_1", Dir [])])
    as (w' & Hrun & _ & Hexact).
  - reflexivity.
  - reflexivity.
  - reflexivity.
  - apply Nat.leb_le. reflexivity.
  - destruct Hexact as (Hlk & _ & _ & Htr & _); [intros c p; reflexivity|].
    exists w'. split; [exact Hrun|]. split; [exact Hlk|exact Htr].
Defined.

(** C2. [sanitizePath] returns its argument unchanged exactly when the
    argument is absolute and equal to its own resolution against the working
    directory; on every argument that is relative or differs from its
    resolution it fails with the [Invalid path] error; whatever it returns is
    the argument itself, which is then absolute, and it has no effect. *)
Theorem sanitizePath_returns_iff_absolute_and_resolved
        (env : Env) (p : string) (w : World) :
  (sanitizePath env p w = (Ok p, w)
   <-> path.isAbsolute p = true /\ path.resolve (cwd env) p = p)
  /\ (path.isAbsolute p = false \/ path.resolve (cwd env) p <> p ->
      sanitizePath env p w = (Throw InvalidPath, w))
  /\ (forall q w',
         sanitizePath env p w = (Ok q, w') ->
         q = p /\ w' = w /\ path.isAbsolute q = true)
  /\ (sanitizePath env p w = (Ok p, w)
      \/ sanitizePath env p w = (Throw InvalidPath, w)).
Proof.
  assert (Hdef : sanitizePath env p w
                 = if path.isAbsolute p && (p =? path.resolve (cwd env) p)
                   then (Ok (path.resolve (cwd env) p), w)
                   else (Throw InvalidPath, w)).
  { unfold sanitizePath.
    now destruct (path.isAbsolute p && (p =? path.resolve (cwd env) p)). }
  rewrite Hdef. clear Hdef.
  destruct (path.isAbsolute p) eqn:Ha; cbn [andb].
  - destruct (String.eqb_spec p (path.resolve (cwd env) p)) as [E|E].
    + rewrite <- E. split; [|split; [|split]].
      * split; auto.
      * intros [H|H]; [discriminate|contradiction].
      * intros q w' H. injection H as <- <-. auto.
      * now left.
    + split; [|split; [|split]].
      * split; [discriminate|]. intros [_ H]. now symmetry in H.
      * reflexivity.
      * discriminate.
      * now right.
  - split; [|split; [|split]].
    + split; [discriminate|]. intros [H _]. discriminate.
    + reflexivity.
    + discriminate.
    + now right.
Qed.

Lemma sanitizePath_scenarios :
  sanitizePath (env0 0 None None) "relative/path" world0
  = (Throw InvalidPath, world0)
  /\ sanitizePath (env0 0 None None) "/abs/path" world0
     = (Ok "/abs/path", world0).
Proof.
  split.
  - apply (sanitizePath_returns_iff_absolute_and_resolved
             (env0 0 None None) "relative/path" world0).
    left. reflexivity.
  - apply (sanitizePath_returns_iff_absolute_and_resolved
             (env0 0 None None) "/abs/path" world0).
    split; reflexivity.
Defined.

(** C4. For every language and every absolute source root (on a relative
    one [updateDb] throws before it builds a command, see C6):
    without a build command [updateDb] starts [codeql] with
    [--build-mode=none] and without [--command]; with the build command
    [make] it starts it with [--command] followed by [make] and without
    [--build-mode=none]; both argument lists hold the database path,
    [--language=<language>], [--source-root] followed by the source root,
    and [--overwrite].  [src/extension.js] passes the list to [execFile];
    [src/unnamed/part_000] passes the same fields, joined by spaces, as one
    command line. *)
Theorem updateDb_command_modes
        (env : Env) (fuel : nat) (language sourceRoot : string) (w : World) :
  path.isAbsolute sourceRoot = true ->
  wf (fs w) = true ->
  height (fs w) <= fuel ->
  let database := path.join sourceRoot ("sample_" ++ string_of_Z (now env)) in
  let nobuild := ["database"; "create"; database; "--language=" ++ language;
                  "--source-root"; sourceRoot; "--build-mode=none";
                  "--overwrite"] in
  let manual := ["database"; "create"; database; "--language=" ++ language;
                 "--source-root"; sourceRoot; "--command"; "make";
                 "--overwrite"] in
  (launches (trace (snd (Extension.updateDb env fuel language sourceRoot None w)))
   = launches (trace w) ++ [ExecFile "codeql" nobuild])%list
  /\ (launches (trace (snd (Extension.updateDb env fuel language sourceRoot
                              (Some "make") w)))
      = launches (trace w) ++ [ExecFile "codeql" manual])%list
  /\ (launches (trace (snd (Part000.updateDb env fuel language sourceRoot None w)))
      = launches (trace w)
        ++ [SpawnShell (String.concat " " ("codeql" :: nobuild))])%list
  /\ (launches (trace (snd (Part000.updateDb env fuel language sourceRoot
                              (Some "make") w)))
      = launches (trace w)
        ++ [SpawnShell (String.concat " " ("codeql" :: manual))])%list
  /\ In "--build-mode=none" nobuild /\ ~ In "--command" nobuild
  /\ (exists pre post, manual = pre ++ "--command" :: "make" :: post)%list
  /\ ~ In "--build-mode=none" manual
  /\ (forall args, args = nobuild \/ args = manual ->
        In database args /\ In ("--language=" ++ language) args
        /\ (exists pre post, args = pre ++ "--source-root" :: sourceRoot :: post)%list
        /\ In "--overwrite" args).
Proof.
  intros Habs Hwf Hh database nobuild manual.
  destruct (extension_updateDb_run env fuel language sourceRoot None w
              Habs Hwf Hh) as (? & w0 & _ & _ & He0 & _ & Hl0 & _).
  destruct (extension_updateDb_run env fuel language sourceRoot (Some "make") w
              Habs Hwf Hh) as (? & wm & _ & _ & Hem & _ & Hlm & _).
  destruct (part000_updateDb_run env fuel language sourceRoot None w
              Habs Hwf Hh) as (? & p0 & _ & _ & Hp0 & _ & Hq0 & _).
  destruct (part000_updateDb_run env fuel language sourceRoot (Some "make") w
              Habs Hwf Hh) as (? & pm & _ & _ & Hpm & _ & Hqm & _).
  rewrite He0, Hem, Hp0, Hpm. cbn [snd].
  split; [exact Hl0|]. split; [exact Hlm|].
  split; [exact Hq0|]. split; [exact Hqm|].
  destruct (fields_start_with_slash env sourceRoot Habs)
    as ((s' & Hroot) & (s & Hdb)).
  fold database in Hdb.
  split; [subst nobuild; simpl; tauto|].
  split.
  { subst nobuild. rewrite Hdb, Hroot. simpl.
    intros [H|[H|[H|[H|[H|[H|[H|[H|[]]]]]]]]]; discriminate. }
  split; [exists ["database"; "create"; database; "--language=" ++ language;
                  "--source-root"; sourceRoot], ["--overwrite"]; reflexivity|].
  split.
  { subst manual. rewrite Hdb, Hroot. simpl.
    intros [H|[H|[H|[H|[H|[H|[H|[H|[H|[]]]]]]]]]]; discriminate. }
  intros args [->| ->]; subst nobuild manual.
  - split; [simpl; tauto|]. split; [simpl; tauto|]. split; [|simpl; tauto].
    exists ["database"; "create"; database; "--language=" ++ language],
      ["--build-mode=none"; "--overwrite"]. reflexivity.
  - split; [simpl; tauto|]. split; [simpl; tauto|]. split; [|simpl; tauto].
    exists ["database"; "create"; database; "--language=" ++ language],
      ["--command"; "make"; "--overwrite"]. reflexivity.
Qed.

Lemma updateDb_command_modes_witness :
  launches (trace (snd (Extension.updateDb (env0 0 None None) 4 "java" "/proj"
                          None world0)))
  = [ExecFile "codeql"
       ["database"; "create"; "/proj/sample_1700000000000"; "--language=java";
        "--source-root"; "/proj"; "--build-mode=none"; "--overwrite"]]
  /\ launches (trace (snd (Extension.updateDb (env0 0 None None) 4 "java" "/proj"
                             (Some "make") world0)))
     = [ExecFile "codeql"
          ["database"; "create"; "/proj/sample_1700000000000"; "--language=java";
           "--source-root"; "/proj"; "--command"; "make"; "--overwrite"]].
Proof.
  destruct (updateDb_command_modes (env0 0 None None) 4 "java" "/proj" world0)
    as (H0 & Hm & _).
  - reflexivity.
  - reflexivity.
  - apply Nat.leb_le. reflexivity.
  - split; [exact H0|exact Hm].
Defined.

(** C3. The tool exits with code 1.  In [src/extension.js] the ['exit']
    listener has already resolved the promise of [executeCommand] when the
    callback of [execFile] tries to reject it: [updateDb] goes on to
    [loadDatabase] and completes normally.  In [src/unnamed/part_000] the
    ['exit'] listener throws on the undeclared [stderr] before it can call
    [reject]: the promise is never settled, nothing is registered and
    [updateDb] never completes.  With exit code 0 both register the new
    database once. *)
Theorem updateDb_after_nonzero_exit :
  (exists w',
      Extension.updateDb (env0 1 None None) 4 "java" "/proj" None world0
      = (Ok tt, w')
      /\ registrations (trace w') = ["/proj/sample_1700000000000"]
      /\ Forall (fun ev => forall text e, ev <> EConsole text (Some e)) (trace w'))
  /\ (exists w',
         Part000.updateDb (env0 1 None None) 4 "java" "/proj" None world0
         = (Pending, w')
         /\ registrations (trace w') = []
         /\ In (EUncaught (ReferenceError "stderr")) (trace w'))
  /\ (exists w',
         Extension.updateDb (env0 0 None None) 4 "java" "/proj" None world0
         = (Ok tt, w')
         /\ registrations (trace w') = ["/proj/sample_1700000000000"])
  /\ (exists w',
         Part000.updateDb (env0 0 None None) 4 "java" "/proj" None world0
         = (Ok tt, w')
         /\ registrations (trace w') = ["/proj/sample_1700000000000"]).
Proof.
  split; [|split; [|split]].
  - eexists. split; [vm_compute; reflexivity|]. split; [reflexivity|].
    repeat constructor; discriminate.
  - eexists. split; [vm_compute; reflexivity|]. split; [reflexivity|].
    simpl. tauto.
  - eexists. split; [vm_compute; reflexivity|reflexivity].
  - eexists. split; [vm_compute; reflexivity|reflexivity].
Qed.

(** C5. The build command [make all] under [/proj].  [src/extension.js]
    starts [codeql] through [execFile] with an argument list in which the
    build command is one element.  [src/unnamed/part_000] passes one command
    line to a shell, which splits the build command in two words: the tool
    receives [make] as the value of [--command] and [all] as a further
    argument. *)
Theorem build_command_reaches_tool_split_in_part000 :
  (exists w',
      Extension.updateDb (env0 0 None None) 4 "java" "/proj" (Some "make all")
        world0 = (Ok tt, w')
      /\ map argv (launches (trace w'))
         = [["codeql"; "database"; "create"; "/proj/sample_1700000000000";
             "--language=java"; "--source-root"; "/proj";
             "--command"; "make all"; "--overwrite"]])
  /\ (exists w',
         Part000.updateDb (env0 0 None None) 4 "java" "/proj" (Some "make all")
           world0 = (Ok tt, w')
         /\ launches (trace w')
            = [SpawnShell
                 "codeql database create /proj/sample_1700000000000 --language=java --source-root /proj --command make all --overwrite"]
         /\ map argv (launches (trace w'))
            = [["codeql"; "database"; "create"; "/proj/sample_1700000000000";
                "--language=java"; "--source-root"; "/proj";
                "--command"; "make"; "all"; "--overwrite"]]).
Proof.
  split.
  - eexists. split; [vm_compute; reflexivity|reflexivity].
  - eexists. split; [vm_compute; reflexivity|]. split; reflexivity.
Qed.

(** C8. The command with a build command, on [/proj].  When the language
    list is dismissed [buildCodeqlDb] returns without any effect.  When the
    language is picked and the input box is dismissed, [command] is
    [undefined] and [buildCodeqlDb] calls [updateDb] all the same: the stale
    databases are deleted and [codeql] is started in [--build-mode=none], in
    both variants. *)
Theorem dismissed_input_box_still_builds :
  Extension.buildCodeqlDb (env0 0 None None) 4 (Some "/proj") true world0
  = (Ok tt, world0)
  /\ Part000.buildCodeqlDb (env0 0 None None) 4 (Some "/proj") true world0
     = (Ok tt, world0)
  /\ (exists w',
         Extension.buildCodeqlDb (env0 0 (Some 0) None) 4 (Some "/proj") true
           world0 = (Ok tt, w')
         /\ launches (trace w')
            = [ExecFile "codeql"
                 ["database"; "create"; "/proj/sample_1700000000000";
                  "--language=java"; "--source-root"; "/proj";
                  "--build-mode=none"; "--overwrite"]]
         /\ In (ERmdir "/proj/sample_1000") (trace w')
         /\ registrations (trace w') = ["/proj/sample_1700000000000"])
  /\ (exists w',
         Part000.buildCodeqlDb (env0 0 (Some 0) None) 4 (Some "/proj") true
           world0 = (Ok tt, w')
         /\ launches (trace w')
            = [SpawnShell
                 "codeql database create /proj/sample_1700000000000 --language=java --source-root /proj --build-mode=none --overwrite"]
         /\ In (ERmdir "/proj/sample_1000") (trace w')
         /\ registrations (trace w') = ["/proj/sample_1700000000000"]).
Proof.
  split; [reflexivity|]. split; [reflexivity|]. split.
  - eexists. split; [vm_compute; reflexivity|].
    split; [reflexivity|]. split; [simpl; tauto|reflexivity].
  - eexists. split; [vm_compute; reflexivity|].
    split; [reflexivity|]. split; [simpl; tauto|reflexivity].
Qed.

(** ** Relative source roots *)

Lemma isAbsolute_concat_plain (segs : list string) :
  forallb plain segs = true ->
  path.isAbsolute (String.concat "/" segs) = false.
Proof.
  destruct segs as [|seg rest]; [reflexivity|].
  cbn [forallb]. intros H. apply andb_prop in H as [H _].
  unfold plain in H. apply andb_prop in H as [Hne Hns].
  destruct seg as [|c seg]; [discriminate|].
  simpl in Hns. apply andb_prop in Hns as [Hc _].
  apply negb_true_iff in Hc.
  destruct rest; simpl; exact Hc.
Qed.

Lemma isAbsolute_normalize_relative (p : string) :
  path.isAbsolute p = false -> path.isAbsolute (path.normalize p) = false.
Proof.
  intros H. unfold path.normalize. rewrite H.
  destruct (p =? ""); [reflexivity|]. cbv zeta. cbn [negb].
  assert (Hq : path.isAbsolute (path.normalizeString p true) = false).
  { unfold path.normalizeString. apply isAbsolute_concat_plain.
    apply normalizeSegs_plain; [apply split_slash_no_slash|reflexivity]. }
  destruct (String.eqb_spec (path.normalizeString p true) "") as [E|E].
  - now destruct (ends_with_slash p).
  - destruct (ends_with_slash p); [|exact Hq].
    now rewrite isAbsolute_app.
Qed.

Lemma isAbsolute_join_relative (a b : string) :
  path.isAbsolute a = false -> path.isAbsolute b = false ->
  path.isAbsolute (path.join a b) = false.
Proof.
  intros Ha Hb. unfold path.join.
  destruct (String.eqb_spec a "") as [->|Hne].
  - destruct (b =? ""); [reflexivity|].
    now apply isAbsolute_normalize_relative.
  - destruct (b =? ""); apply isAbsolute_normalize_relative; [assumption|].
    now rewrite isAbsolute_app.
Qed.

(** C6, as stated, fails: [/proj/] does not pass [sanitizePath], yet the
    error is caught inside [cleanupOldDb], the database path
    [/proj/sample_...] passes, [codeql] is started and the database is
    registered. *)
Lemma unnormalised_source_root_still_builds :
  sanitizePath (env0 0 None None) "/proj/" world0 = (Throw InvalidPath, world0)
  /\ exists w',
      Extension.updateDb (env0 0 None None) 4 "java" "/proj/" None world0
      = (Ok tt, w')
      /\ launches (trace w')
         = [ExecFile "codeql"
              ["database"; "create"; "/proj/sample_1700000000000";
               "--language=java"; "--source-root"; "/proj/";
               "--build-mode=none"; "--overwrite"]]
      /\ registrations (trace w') = ["/proj/sample_1700000000000"].
Proof.
  split; [reflexivity|].
  eexists. split; [vm_compute; reflexivity|]. split; reflexivity.
Qed.

(** C6, amended.  When [sanitizePath] rejects the source root,
    [cleanupOldDb] catches the error, logs it and returns normally without
    any deletion.  If moreover the source root is relative, the database
    path does not pass [sanitizePath] either and this error leaves
    [updateDb], in both variants: nothing is deleted, no command is started
    and no database is registered. *)
Theorem rejected_source_root
        (env : Env) (fuel : nat) (language sourceRoot : string)
        (command : option string) (w : World) :
  sanitizePath env sourceRoot w = (Throw InvalidPath, w) ->
  let w1 := {| fs := fs w;
               trace := trace w
                        ++ [EConsole "Error cleaning up database folder:"
                              (Some InvalidPath)] |} in
  cleanupOldDb env fuel sourceRoot w = (Ok tt, w1)
  /\ deletions (trace w1) = deletions (trace w)
  /\ launches (trace w1) = launches (trace w)
  /\ registrations (trace w1) = registrations (trace w)
  /\ (path.isAbsolute sourceRoot = false ->
      Extension.updateDb env fuel language sourceRoot command w
      = (Throw InvalidPath, w1)
      /\ Part000.updateDb env fuel language sourceRoot command w
         = (Throw InvalidPath, w1)).
Proof.
  intros Hsan w1.
  assert (Hc : cleanupOldDb env fuel sourceRoot w = (Ok tt, w1)).
  { unfold cleanupOldDb.
    erewrite try_catch_throw by (erewrite bind_throw by exact Hsan; reflexivity).
    reflexivity. }
  split; [exact Hc|].
  split; [subst w1; cbn [trace]; rewrite deletions_app; apply app_nil_r|].
  split; [subst w1; cbn [trace]; rewrite launches_app; apply app_nil_r|].
  split; [subst w1; cbn [trace]; rewrite registrations_app; apply app_nil_r|].
  intros Hrel.
  assert (Hdb : sanitizePath env
                  (path.join sourceRoot ("sample_" ++ string_of_Z (now env))) w1
                = (Throw InvalidPath, w1)).
  { unfold sanitizePath.
    rewrite isAbsolute_join_relative by (auto; reflexivity). reflexivity. }
  split.
  - unfold Extension.updateDb. erewrite bind_ok by exact Hc.
    now erewrite bind_throw by exact Hdb.
  - unfold Part000.updateDb. erewrite bind_ok by exact Hc.
    now erewrite bind_throw by exact Hdb.
Qed.

Lemma rejected_source_root_witness :
  Extension.updateDb (env0 0 None None) 4 "java" "proj" None world0
  = (Throw InvalidPath,
     {| fs := proj_fs;
        trace := [EConsole "Error cleaning up database folder:"
                    (Some InvalidPath)] |})
  /\ Part000.updateDb (env0 0 None None) 4 "java" "proj" None world0
     = (Throw InvalidPath,
        {| fs := proj_fs;
           trace := [EConsole "Error cleaning up database folder:"
                       (Some InvalidPath)] |}).
Proof.
  apply (rejected_source_root (env0 0 None None) 4 "java" "proj" None world0).
  - reflexivity.
  - reflexivity.
Defined.

(** ** Failures during the clean-up *)

(** C7. Whatever system call fails and whatever path is given,
    [cleanupOldDb] comes back normally.  When listing the source root fails
    it logs the error and changes nothing.  Inside the loop, whatever fails
    below a stale directory is caught by [cleanupDbFolder], which ends by
    removing the directory or by logging the error, and the loop goes on
    with the entries that follow.  What the clean-up deletes lies at or
    below a child of the source root whose name starts with [sample_].
    After the clean-up, on an absolute source root, [updateDb] starts
    [codeql], in both variants. *)
Theorem cleanup_failures_do_not_escape
        (env : Env) (fuel : nat) (language sourceRoot : string)
        (command : option string) (w : World) :
  wf (fs w) = true ->
  height (fs w) <= fuel ->
  (exists w1,
      cleanupOldDb env fuel sourceRoot w = (Ok tt, w1)
      /\ shrinks (deletes_sample (fs_components env sourceRoot)) w w1)
  /\ (forall e,
         sanitizePath env sourceRoot w = (Ok sourceRoot, w) ->
         readdir env sourceRoot w = (Throw e, w) ->
         cleanupOldDb env fuel sourceRoot w
         = (Ok tt, {| fs := fs w;
                      trace := trace w
                               ++ [EConsole "Error cleaning up database folder:"
                                     (Some e)] |}))
  /\ (forall file rest total k,
         sanitizePath env sourceRoot w = (Ok sourceRoot, w) ->
         proper file = true ->
         prefix "sample_" file = true ->
         lstat env (path.join sourceRoot file) w = (Ok true, w) ->
         exists w1,
           cleanupDbFolder env fuel (path.join sourceRoot file) w = (Ok tt, w1)
           /\ closes (path.join sourceRoot file) w1
           /\ cleanupOldDb_loop env fuel sourceRoot total (file :: rest) k w
              = cleanupOldDb_loop env fuel sourceRoot total rest (S k)
                  {| fs := fs w1;
                     trace := trace w1
                              ++ [EReport (Ratio (S k) total) None] |})
  /\ (path.isAbsolute sourceRoot = true ->
      let database :=
        path.join sourceRoot ("sample_" ++ string_of_Z (now env)) in
      let args := codeql_args language sourceRoot command database in
      (launches
         (trace (snd (Extension.updateDb env fuel language sourceRoot command w)))
       = launches (trace w) ++ [ExecFile "codeql" args])%list
      /\ (launches
            (trace (snd (Part000.updateDb env fuel language sourceRoot command w)))
          = launches (trace w)
            ++ [SpawnShell (String.concat " " ("codeql" :: args))])%list).
Proof.
  intros Hwf Hh. split; [|split; [|split]].
  - now apply cleanupOldDb_returns.
  - intros e Hsan Hrd. unfold cleanupOldDb.
    erewrite try_catch_throw
      by (erewrite bind_ok by exact Hsan;
          erewrite bind_throw by exact Hrd; reflexivity).
    reflexivity.
  - intros file rest total k Hsan Hfile Hpre Hst.
    destruct (sanitizePath_inv env _ _ _ _ Hsan) as (_ & _ & l & Hl & ->).
    rewrite join_abs_path in * by assumption.
    assert (Hlf : forallb proper (l ++ [file]) = true)
      by (rewrite forallb_app; cbn [forallb]; now rewrite Hl, Hfile).
    assert (Hdir : exists es, lookup (l ++ [file]) (fs w) = Some (Dir es)).
    { destruct (lstat_cases env (abs_path (l ++ [file])) w)
        as [(e & H)|(n & Hlk & H)]; [congruence|].
      rewrite fs_components_abs_path in Hlk by assumption.
      destruct n as [|es]; [|now exists es].
      rewrite H in Hst. discriminate. }
    destruct Hdir as (es & Hlk).
    pose proof (height_lookup _ _ _ Hlk) as Hd.
    rewrite length_app in Hd. simpl in Hd.
    destruct (cleanupDbFolder_returns env fuel (l ++ [file])%list w)
      as (w1 & Hrun & _ & Hclose); try assumption; try lia.
    exists w1. split; [exact Hrun|]. split; [exact Hclose|].
    cbn [cleanupOldDb_loop]. rewrite join_abs_path by assumption.
    erewrite bind_ok by exact Hst. rewrite Hpre. cbn [andb].
    erewrite bind_ok by exact Hrun.
    unfold report at 1. now erewrite bind_ok by apply emit_run.
  - intros Habs database args.
    destruct (extension_updateDb_run env fuel language sourceRoot command w
                Habs Hwf Hh) as (? & we & _ & _ & He & _ & Hle & _).
    destruct (part000_updateDb_run env fuel language sourceRoot command w
                Habs Hwf Hh) as (? & wp & _ & _ & Hp & _ & Hlp & _).
    rewrite He, Hp. cbn [snd]. split; [exact Hle|exact Hlp].
Qed.

Lemma cleanup_failures_do_not_escape_witness :
  (exists w1,
      cleanupOldDb env_denied 3 "/proj" world_two = (Ok tt, w1)
      /\ shrinks (deletes_sample ["proj"]) world_two w1)
  /\ cleanupOldDb env_denied 3 "/gone" world_two
     = (Ok tt, {| fs := two_stale_fs;
                  trace := [EConsole "Error cleaning up database folder:"
                              (Some (SystemError Readdir EACCES "/gone"))] |}).
Proof.
  destruct (cleanup_failures_do_not_escape env_denied 3 "java" "/proj" None
              world_two) as (Ha & _).
  - reflexivity.
  - apply Nat.leb_le. reflexivity.
  - split; [exact Ha|].
    destruct (cleanup_failures_do_not_escape env_denied 3 "java" "/gone" None
                world_two) as (_ & Hb & _).
    + reflexivity.
    + apply Nat.leb_le. reflexivity.
    + apply Hb; reflexivity.
Defined.

(** The scenario of C7 run through: the file that cannot be unlinked stops
    the removal of [sample_1], the error is logged, [sample_2] is removed
    all the same, the unrelated directory is untouched, and the build
    follows. *)
Example locked_file_does_not_stop_the_siblings :
  exists w',
    Extension.updateDb env_denied 3 "java" "/proj" None world_two = (Ok tt, w')
    /\ lookup ["proj"] (fs w')
       = Some (Dir [("sample_1", Dir [("locked.bin", File); ("free.bin", File)]);
                    ("src", Dir [("Main.java", File)])])
    /\ filter (fun ev => match ev with EConsole _ _ => true | _ => false end)
              (trace w')
       = [EConsole "Error cleaning up database subfolder:"
            (Some (SystemError Unlink EACCES "/proj/sample_1/locked.bin"))]
    /\ deletions (trace w')
       = [EUnlink "/proj/sample_2/db.bin"; ERmdir "/proj/sample_2"]
    /\ launches (trace w')
       = [ExecFile "codeql"
            ["database"; "create"; "/proj/sample_1700000000000";
             "--language=java"; "--source-root"; "/proj";
             "--build-mode=none"; "--overwrite"]].
Proof.
  eexists. split; [vm_compute; reflexivity|]. repeat split.
Qed.

(** ** The two variants side by side *)

(** C9. The two variants do not behave alike after a failed command.  On
    an absolute source root, let the tool exit with code [c], whichever way
    it is started, after writing no more than [execFile] buffers.
    [src/extension.js] completes normally and registers the new database
    whatever [c] is: its ['exit'] listener resolves before the callback of
    [execFile] can reject.  [src/unnamed/part_000] completes and registers
    only for [c = 0]; for every other code its ['exit'] listener throws on
    the undeclared [stderr] before it can reject, nothing is registered and
    [updateDb] never completes.  Both start the tool with the same fields,
    an argument list in the one and one command line for a shell in the
    other. *)
Theorem variants_differ_after_failed_tool
        (env : Env) (fuel : nat) (language sourceRoot : string)
        (command : option string) (w : World) (c : Z) :
  path.isAbsolute sourceRoot = true ->
  wf (fs w) = true ->
  height (fs w) <= fuel ->
  let database := path.join sourceRoot ("sample_" ++ string_of_Z (now env)) in
  let args := codeql_args language sourceRoot command database in
  let line := String.concat " " ("codeql" :: args) in
  ending (child env (ExecFile "codeql" args)) = Exited c ->
  overflows (child env (ExecFile "codeql" args)) = false ->
  ending (child env (SpawnShell line)) = Exited c ->
  exists we wp,
    Extension.updateDb env fuel language sourceRoot command w = (Ok tt, we)
    /\ Part000.updateDb env fuel language sourceRoot command w
       = ((if (c =? 0)%Z then Ok tt else Pending), wp)
    /\ launches (trace we) = (launches (trace w) ++ [ExecFile "codeql" args])%list
    /\ launches (trace wp) = (launches (trace w) ++ [SpawnShell line])%list
    /\ registrations (trace we) = (registrations (trace w) ++ [database])%list
    /\ registrations (trace wp)
       = (registrations (trace w) ++ if (c =? 0)%Z then [database] else [])%list.
Proof.
  intros Habs Hwf Hh database args line E1 Hin E2.
  destruct (extension_updateDb_run env fuel language sourceRoot command w
              Habs Hwf Hh) as (? & we & _ & _ & He & _ & Hle & Hre).
  destruct (part000_updateDb_run env fuel language sourceRoot command w
              Habs Hwf Hh) as (? & wp & _ & _ & Hp & _ & Hlp & Hrp).
  fold database in Hle, Hre, Hlp, Hrp, Hp, He.
  fold args in Hle, Hre, Hlp, Hrp, Hp, He.
  fold line in Hlp, Hrp, Hp.
  rewrite (execFile_run_within _ Hin), E1 in He, Hre.
  rewrite E2 in Hp, Hrp.
  exists we, wp. split; [exact He|].
  split; [rewrite Hp; now destruct c|].
  split; [exact Hle|]. split; [exact Hlp|]. split; [exact Hre|].
  rewrite Hrp. now destruct c.
Qed.

Lemma variants_differ_after_failed_tool_witness :
  exists we wp,
    Extension.updateDb (env0 1 None None) 4 "java" "/proj" None world0
    = (Ok tt, we)
    /\ Part000.updateDb (env0 1 None None) 4 "java" "/proj" None world0
       = (Pending, wp)
    /\ registrations (trace we) = ["/proj/sample_1700000000000"]
    /\ registrations (trace wp) = [].
Proof.
  destruct (variants_differ_after_failed_tool (env0 1 None None) 4 "java" "/proj"
              None world0 1)
    as (we & wp & He & Hp & _ & _ & Hre & Hrp).
  - reflexivity.
  - reflexivity.
  - apply Nat.leb_le. reflexivity.
  - reflexivity.
  - reflexivity.
  - reflexivity.
  - exists we, wp. repeat split; assumption.
Defined.

(** ** An empty build command *)

(** C10. In the command with a build command, an input box submitted empty
    does not stop [buildCodeqlDb]: it calls [updateDb] with the empty string,
    and [updateDb] on the empty string is, step for step, [updateDb] without
    a build command; on an absolute source root the tool is started with
    [--build-mode=none] and without [--command], in both variants. *)
Theorem empty_build_command_is_no_build
        (env : Env) (fuel : nat) (language sourceRoot : string) (w : World) :
  path.isAbsolute sourceRoot = true ->
  wf (fs w) = true ->
  height (fs w) <= fuel ->
  let database := path.join sourceRoot ("sample_" ++ string_of_Z (now env)) in
  let nobuild := ["database"; "create"; database; "--language=" ++ language;
                  "--source-root"; sourceRoot; "--build-mode=none";
                  "--overwrite"] in
  Extension.updateDb env fuel language sourceRoot (Some "") w
  = Extension.updateDb env fuel language sourceRoot None w
  /\ Part000.updateDb env fuel language sourceRoot (Some "") w
     = Part000.updateDb env fuel language sourceRoot None w
  /\ (launches
        (trace (snd (Extension.updateDb env fuel language sourceRoot (Some "") w)))
      = launches (trace w) ++ [ExecFile "codeql" nobuild])%list
  /\ (launches
        (trace (snd (Part000.updateDb env fuel language sourceRoot (Some "") w)))
      = launches (trace w)
        ++ [SpawnShell (String.concat " " ("codeql" :: nobuild))])%list
  /\ ~ In "--command" nobuild
  /\ (forall i label,
         inputBox env = Some "" ->
         quickPick env = Some i ->
         nth_error languageOptions i = Some (label, language) ->
         Extension.buildCodeqlDb env fuel (Some sourceRoot) true w
         = Extension.updateDb env fuel language sourceRoot None w
         /\ Part000.buildCodeqlDb env fuel (Some sourceRoot) true w
            = Part000.updateDb env fuel language sourceRoot None w).
Proof.
  intros Habs Hwf Hh database nobuild.
  destruct (extension_updateDb_run env fuel language sourceRoot None w
              Habs Hwf Hh) as (? & we & _ & _ & He & _ & Hle & _).
  destruct (part000_updateDb_run env fuel language sourceRoot None w
              Habs Hwf Hh) as (? & wp & _ & _ & Hp & _ & Hlp & _).
  split; [reflexivity|]. split; [reflexivity|].
  change (Extension.updateDb env fuel language sourceRoot (Some "") w)
    with (Extension.updateDb env fuel language sourceRoot None w).
  change (Part000.updateDb env fuel language sourceRoot (Some "") w)
    with (Part000.updateDb env fuel language sourceRoot None w).
  rewrite He, Hp. cbn [snd].
  split; [exact Hle|]. split; [exact Hlp|].
  split.
  { destruct (fields_start_with_slash env sourceRoot Habs)
      as ((s' & Hroot) & (s & Hdb)).
    fold database in Hdb. subst nobuild. rewrite Hdb, Hroot. simpl.
    intros [H|[H|[H|[H|[H|[H|[H|[H|[]]]]]]]]]; discriminate. }
  intros i label Hin Hpick Hnth.
  unfold Extension.buildCodeqlDb, Part000.buildCodeqlDb.
  destruct (String.eqb_spec sourceRoot "") as [->|_]; [discriminate|].
  unfold showQuickPick, showInputBox. rewrite Hpick, Hnth, Hin.
  split; [exact He|exact Hp].
Qed.

Lemma empty_build_command_is_no_build_witness :
  Extension.buildCodeqlDb (env0 0 (Some 0) (Some "")) 4 (Some "/proj") true world0
  = Extension.updateDb (env0 0 (Some 0) (Some "")) 4 "java" "/proj" None world0
  /\ launches
       (trace (snd (Extension.updateDb (env0 0 (Some 0) (Some "")) 4 "java"
                      "/proj" (Some "") world0)))
     = [ExecFile "codeql"
          ["database"; "create"; "/proj/sample_1700000000000";
           "--language=java"; "--source-root"; "/proj";
           "--build-mode=none"; "--overwrite"]].
Proof.
  destruct (empty_build_command_is_no_build (env0 0 (Some 0) (Some "")) 4
              "java" "/proj" world0) as (_ & _ & Hl & _ & _ & Hb).
  - reflexivity.
  - reflexivity.
  - apply Nat.leb_le. reflexivity.
  - split; [|exact Hl].
    apply (Hb 0 "Java"); reflexivity.
Defined.


(** * Further properties of the code *)

(** ** [sanitizePath] *)

Lemma sanitizePath_cases (env : Env) (p : string) (w : World) :
  sanitizePath env p w = (Ok p, w)
  \/ sanitizePath env p w = (Throw InvalidPath, w).
Proof.
  unfold sanitizePath.
  destruct (path.isAbsolute p); cbn [andb]; [|now right].
  destruct (String.eqb_spec p (path.resolve (cwd env) p)) as [E|E];
    [left; now rewrite <- E|now right].
Qed.

(** X1. [sanitizePath] accepts exactly the paths of the form
    [/seg/.../seg] whose segments are not empty, not [.], not [..] and hold
    no separator ([/] itself for no segment); in particular a trailing
    separator, a doubled separator or a dot segment makes it throw.  The
    working directory plays no part: the answer is the same in every
    environment. *)
Theorem sanitizePath_accepts_normal_forms (env : Env) (p : string) (w : World) :
  (sanitizePath env p w = (Ok p, w)
   <-> exists l, forallb proper l = true /\ p = "/" ++ String.concat "/" l)
  /\ (forall env', sanitizePath env' p w = sanitizePath env p w).
Proof.
  assert (Hiff : forall e,
             sanitizePath e p w = (Ok p, w)
             <-> exists l, forallb proper l = true /\ p = abs_path l).
  { intros e. split.
    - intros H. now destruct (sanitizePath_inv e _ _ _ _ H) as (_ & _ & Hl).
    - intros (l & Hl & ->). now apply sanitizePath_abs_path. }
  split; [apply Hiff|].
  intros env'.
  destruct (sanitizePath_cases env p w) as [H|H];
    destruct (sanitizePath_cases env' p w) as [H'|H']; try congruence.
  - apply Hiff in H. apply (Hiff env') in H. congruence.
  - apply Hiff in H'. apply (Hiff env) in H'. congruence.
Qed.

(** X2. With an absolute working directory, as [process.cwd()] gives it,
    [sanitizePath] accepts every result of [path.resolve]: resolving a path
    first always makes it pass, and resolving twice changes nothing. *)
Theorem sanitizePath_accepts_resolved (env : Env) (p : string) (w : World) :
  path.isAbsolute (cwd env) = true ->
  sanitizePath env (path.resolve (cwd env) p) w
  = (Ok (path.resolve (cwd env) p), w)
  /\ path.resolve (cwd env) (path.resolve (cwd env) p)
     = path.resolve (cwd env) p.
Proof.
  intros Hcwd.
  assert (Hform : exists l, forallb proper l = true
                            /\ path.resolve (cwd env) p = abs_path l).
  { unfold path.resolve. rewrite Hcwd.
    destruct (path.isAbsolute p); cbv zeta iota; eexists; (split; [|reflexivity]);
      (apply normalizeSegs_false_proper;
       [apply split_slash_no_slash|reflexivity]). }
  destruct Hform as (l & Hl & ->).
  split; [now apply sanitizePath_abs_path|now apply resolve_abs_path].
Qed.

Lemma sanitizePath_accepts_resolved_witness :
  sanitizePath (env0 0 None None) (path.resolve "/home/user" "a/../b/./c/") world0
  = (Ok "/home/user/b/c", world0).
Proof.
  apply (sanitizePath_accepts_resolved (env0 0 None None) "a/../b/./c/" world0).
  reflexivity.
Defined.

(** X3. The paths [sanitizePath] accepts are closed under joining a file
    name: for an accepted path and a name as a directory can hold it,
    [path.join] gives an accepted path, which the platform reads as the
    entry of that name in the directory; so the check on each entry in
    [cleanupDbFolder] never throws for what [readdir] lists under an
    accepted folder. *)
Theorem sanitizePath_accepts_joined_name
        (env : Env) (p f : string) (w w' : World) :
  sanitizePath env p w = (Ok p, w) ->
  proper f = true ->
  sanitizePath env (path.join p f) w' = (Ok (path.join p f), w')
  /\ fs_components env (path.join p f) = (fs_components env p ++ [f])%list.
Proof.
  intros Hsan Hf.
  destruct (sanitizePath_inv env _ _ _ _ Hsan) as (_ & _ & l & Hl & ->).
  assert (Hlf : forallb proper (l ++ [f]) = true)
    by (rewrite forallb_app; cbn [forallb]; now rewrite Hl, Hf).
  rewrite join_abs_path by assumption.
  split; [now apply sanitizePath_abs_path|].
  now rewrite !fs_components_abs_path.
Qed.

Lemma sanitizePath_accepts_joined_name_witness :
  sanitizePath (env0 0 None None) (path.join "/proj/sample_1000" "db.bin") world0
  = (Ok "/proj/sample_1000/db.bin", world0)
  /\ fs_components (env0 0 None None) (path.join "/proj/sample_1000" "db.bin")
     = ["proj"; "sample_1000"; "db.bin"].
Proof.
  apply (sanitizePath_accepts_joined_name (env0 0 None None)
           "/proj/sample_1000" "db.bin" world0 world0); reflexivity.
Defined.

(** ** [cleanupOldDb]: progress and repetition *)

Lemma reports_app (t t' : list Event) :
  reports (t ++ t') = (reports t ++ reports t')%list.
Proof. apply flat_map_app. Qed.

Lemma reports_postorder (n : node) : forall l, reports (postorder l n) = [].
Proof.
  induction n as [|es IH] using node_induction; intros l; [reflexivity|].
  simpl. rewrite reports_app. simpl. rewrite app_nil_r.
  induction IH as [|[f m] es Hm _ IHes]; [reflexivity|].
  simpl. now rewrite reports_app, Hm, IHes.
Qed.

Lemma reports_loop_trace (root : list string) (total : nat)
      (rest : list (string * node)) :
  forall k,
    reports (loop_trace root total k rest)
    = map (fun i => Ratio i total) (seq (S k) (List.length rest)).
Proof.
  induction rest as [|e rest IH]; intros k; [reflexivity|].
  cbn [loop_trace List.length seq map]. rewrite reports_app.
  assert (reports (if stale e then postorder (root ++ [fst e]) (snd e) else [])
          = []) as -> by (destruct (stale e); [apply reports_postorder|reflexivity]).
  cbn [app]. change (reports (?ev :: ?t)) with (reports [ev] ++ reports t)%list.
  cbn [reports flat_map app]. now rewrite IH.
Qed.

Lemma deletions_loop_trace (root : list string) (total : nat)
      (rest : list (string * node)) :
  forall k,
    deletions (loop_trace root total k rest)
    = flat_map (fun e => if stale e
                         then postorder (root ++ [fst e]) (snd e)
                         else []) rest.
Proof.
  induction rest as [|e rest IH]; intros k; [reflexivity|].
  cbn [loop_trace flat_map]. rewrite deletions_app.
  assert (deletions (if stale e then postorder (root ++ [fst e]) (snd e) else [])
          = if stale e then postorder (root ++ [fst e]) (snd e) else [])
    as -> by (destruct (stale e); [apply deletions_postorder|reflexivity]).
  f_equal. change (deletions (?ev :: ?t)) with (deletions [ev] ++ deletions t)%list.
  cbn [deletions filter app]. apply IH.
Qed.

Section CleanupOldDbTrace.

Variable env : Env.

(** The loop of [cleanupOldDb] when nothing fails, with its whole trace. *)
Lemma cleanupOldDb_loop_trace (fuel : nat) (l : list string) (total : nat) :
  forallb proper l = true -> calm env l ->
  forall (rest kept : list (string * node)) (k : nat) (w : World),
    lookup l (fs w) = Some (Dir (kept ++ rest)) ->
    NoDup (map fst (kept ++ rest)) ->
    forallb proper (map fst rest) = true ->
    (forall f n, In (f, n) rest -> wf n = true /\ height n <= fuel) ->
    cleanupOldDb_loop env fuel (abs_path l) total (map fst rest) k w
    = (Ok tt,
       {| fs := fold_left (fun t e => remove_path (l ++ [fst e]) t)
                          (filter stale rest) (fs w);
          trace := trace w ++ loop_trace l total k rest |}).
Proof.
  intros Hl Hcalm rest.
  induction rest as [|[f n] rest IH]; intros kept k w Hlk Hnd Hnames Hsub.
  - simpl. rewrite app_nil_r. now destruct w.
  - simpl in Hnames. apply andb_prop in Hnames as [Hf Hnames].
    destruct (NoDup_middle _ _ _ _ Hnd) as (Hk & Hr & Hnd').
    assert (Hlf : forallb proper (l ++ [f]) = true)
      by (rewrite forallb_app; simpl; now rewrite Hl, Hf).
    assert (Hchild : lookup (l ++ [f]) (fs w) = Some n)
      by (rewrite lookup_snoc, Hlk; now apply assoc_middle).
    simpl map. simpl cleanupOldDb_loop.
    rewrite join_abs_path by assumption.
    erewrite bind_ok
      by (apply lstat_entry;
          [assumption|now apply calm_here, calm_child|exact Hchild]).
    change (is_dir n && prefix "sample_" f) with (stale (f, n)).
    cbn [filter loop_trace]. cbn [fst snd].
    destruct (stale (f, n)) eqn:Est; cbn [fold_left fst].
    + destruct n as [|es']; [discriminate|].
      destruct (Hsub f (Dir es')) as [Hwf Hh]; [now left|].
      erewrite bind_ok
        by (apply cleanupDbFolder_exact; try eassumption;
            [now destruct l|now apply calm_child]).
      unfold report at 1. erewrite bind_ok by reflexivity.
      rewrite (IH kept (S k)).
      * cbn [fs trace]. now rewrite <- !app_assoc.
      * cbn [fs]. rewrite (lookup_remove_child l f _ _ Hlk).
        now rewrite remove_entry_middle.
      * assumption.
      * assumption.
      * intros g m Hin. apply (Hsub g). now right.
    + erewrite bind_ok by reflexivity.
      unfold report at 1. erewrite bind_ok by reflexivity.
      rewrite (IH (kept ++ [(f, n)])%list (S k)).
      * cbn [fs trace app]. now rewrite <- !app_assoc.
      * cbn [fs]. now rewrite <- app_assoc.
      * now rewrite <- app_assoc.
      * assumption.
      * intros g m Hin. apply (Hsub g). now right.
Qed.

End CleanupOldDbTrace.

(** X4. On an empty source root [cleanupOldDb] opens the progress
    notification, reports the initial increment and stops: nothing is
    deleted, nothing is logged, no further report is made, whatever the
    recursion budget. *)
Theorem cleanupOldDb_on_empty_folder
        (env : Env) (fuel : nat) (sourceRoot : string) (w : World) :
  sanitizePath env sourceRoot w = (Ok sourceRoot, w) ->
  fault env Readdir sourceRoot = None ->
  lookup (fs_components env sourceRoot) (fs w) = Some (Dir []) ->
  cleanupOldDb env fuel sourceRoot w
  = (Ok tt, {| fs := fs w;
               trace := trace w ++ [EWithProgress "Cleaning up old databases";
                                    EReport (Pct 0) None] |}).
Proof.
  intros Hsan Hf Hlk. unfold cleanupOldDb. apply try_catch_ok.
  erewrite bind_ok by exact Hsan.
  assert (Hrd : readdir env sourceRoot w = (Ok [], w))
    by (unfold readdir; now rewrite Hf, Hlk).
  erewrite bind_ok by exact Hrd.
  cbv zeta. unfold withProgress, report.
  erewrite bind_ok by apply emit_run.
  erewrite bind_ok by apply emit_run.
  cbn [cleanupOldDb_loop fs trace]. unfold ret. now rewrite <- app_assoc.
Qed.

Lemma cleanupOldDb_on_empty_folder_witness :
  cleanupOldDb (env0 0 None None) 0 "/proj/my_sample_1" world0
  = (Ok tt, {| fs := proj_fs;
               trace := [EWithProgress "Cleaning up old databases";
                         EReport (Pct 0) None] |}).
Proof.
  apply (cleanupOldDb_on_empty_folder (env0 0 None None) 0 "/proj/my_sample_1"
           world0); reflexivity.
Defined.

Lemma cleanupOldDb_trace (env : Env) (fuel : nat) (sourceRoot : string)
      (w : World) (es : list (string * node)) :
  (forall c p, fault env c p = None) ->
  sanitizePath env sourceRoot w = (Ok sourceRoot, w) ->
  lookup (fs_components env sourceRoot) (fs w) = Some (Dir es) ->
  wf (Dir es) = true ->
  height (Dir es) <= fuel ->
  let root := fs_components env sourceRoot in
  cleanupOldDb env fuel sourceRoot w
  = (Ok tt,
     {| fs := fold_left (fun t e => remove_path (root ++ [fst e]) t)
                        (filter stale es) (fs w);
        trace := trace w
                 ++ EWithProgress "Cleaning up old databases"
                 :: EReport (Pct 0) None
                 :: loop_trace root (List.length es) 0 es |}).
Proof.
  intros Hquiet Hsan Hlk Hwf Hh root.
  destruct (sanitizePath_inv env _ _ _ _ Hsan) as (_ & _ & l & Hl & ->).
  subst root. rewrite fs_components_abs_path in * by assumption.
  destruct (wf_dir _ Hwf) as (Hnames & Hnd & Hsub).
  assert (Hcalm : calm env l) by (intros c ds; apply Hquiet).
  unfold cleanupOldDb. apply try_catch_ok.
  erewrite bind_ok by exact Hsan.
  erewrite bind_ok by (apply readdir_dir; [assumption|apply Hquiet|exact Hlk]).
  cbv zeta. unfold withProgress.
  erewrite bind_ok by apply emit_run.
  unfold report at 1. erewrite bind_ok by apply emit_run.
  rewrite (cleanupOldDb_loop_trace env fuel l _ Hl Hcalm es []); try assumption.
  - cbn [fs trace]. rewrite length_map. now rewrite <- !app_assoc.
  - intros f n Hin. split; [now apply (Hsub f)|].
    apply (height_child es f n fuel); [lia|exact Hin].
Qed.

(** X5. When nothing fails, [cleanupOldDb] reports progress once at the
    start and once after each child of the source root, stale or not, in
    listing order: the report after the [k]-th child carries [k / total],
    computed from the counters and not from what was deleted, and it comes
    after the deletions of that child. *)
Theorem cleanupOldDb_reports_each_child
        (env : Env) (fuel : nat) (sourceRoot : string) (w : World)
        (es : list (string * node)) :
  (forall c p, fault env c p = None) ->
  sanitizePath env sourceRoot w = (Ok sourceRoot, w) ->
  lookup (fs_components env sourceRoot) (fs w) = Some (Dir es) ->
  wf (Dir es) = true ->
  height (Dir es) <= fuel ->
  let root := fs_components env sourceRoot in
  let total := List.length es in
  exists w',
    cleanupOldDb env fuel sourceRoot w = (Ok tt, w')
    /\ trace w'
       = (trace w
          ++ EWithProgress "Cleaning up old databases"
          :: EReport (Pct 0) None
          :: loop_trace root total 0 es)%list
    /\ reports (trace w')
       = (reports (trace w)
          ++ Pct 0 :: map (fun k => Ratio k total) (seq 1 total))%list.
Proof.
  intros Hquiet Hsan Hlk Hwf Hh root total.
  eexists. split;
    [exact (cleanupOldDb_trace env fuel sourceRoot w es Hquiet Hsan Hlk Hwf Hh)|].
  cbn [trace]. split; [reflexivity|].
  rewrite reports_app. f_equal.
  change (reports (?a :: ?b :: ?t)) with (reports [a; b] ++ reports t)%list.
  cbn [reports flat_map app]. now rewrite reports_loop_trace.
Qed.

Lemma cleanupOldDb_reports_each_child_witness :
  exists w',
    cleanupOldDb (env0 0 None None) 3 "/proj" world0 = (Ok tt, w')
    /\ reports (trace w') = [Pct 0; Ratio 1 4; Ratio 2 4; Ratio 3 4; Ratio 4 4].
Proof.
  destruct (cleanupOldDb_reports_each_child (env0 0 None None) 3 "/proj" world0
              [("sample_1000", Dir [("db.bin", File);
                                    ("log", Dir [("a.txt", File)])]);
               ("other", Dir [("keep.txt", File)]);
               ("sample_notes.txt", File);
               ("my_sample_1", Dir [])])
    as (w' & Hrun & _ & Hrep).
  - intros c p. reflexivity.
  - reflexivity.
  - reflexivity.
  - reflexivity.
  - apply Nat.leb_le. reflexivity.
  - exists w'. split; [exact Hrun|exact Hrep].
Defined.

Lemma no_stale_left (es : list (string * node)) :
  filter stale (filter (fun e => negb (stale e)) es) = [].
Proof.
  induction es as [|e es IH]; [reflexivity|].
  cbn [filter]. destruct (stale e) eqn:E; cbn [negb]; [exact IH|].
  cbn [filter]. now rewrite E.
Qed.

Lemma loop_trace_no_stale (root : list string) (total : nat)
      (es : list (string * node)) :
  forall k,
    deletions (loop_trace root total k (filter (fun e => negb (stale e)) es)) = [].
Proof.
  induction es as [|e es IH]; intros k; [reflexivity|].
  cbn [filter]. destruct (stale e) eqn:E; cbn [negb]; [apply IH|].
  cbn [loop_trace]. rewrite E. cbn [app].
  change (deletions (?ev :: ?t)) with (deletions [ev] ++ deletions t)%list.
  cbn [deletions filter app]. apply IH.
Qed.

(** X6. When nothing fails, a clean-up leaves nothing for the next one: a
    second [cleanupOldDb] on the same source root, right after the first,
    deletes nothing and leaves the tree as it is. *)
Theorem cleanupOldDb_twice
        (env : Env) (fuel : nat) (sourceRoot : string) (w : World)
        (es : list (string * node)) :
  (forall c p, fault env c p = None) ->
  sanitizePath env sourceRoot w = (Ok sourceRoot, w) ->
  lookup (fs_components env sourceRoot) (fs w) = Some (Dir es) ->
  wf (fs w) = true ->
  height (fs w) <= fuel ->
  exists w1 w2,
    cleanupOldDb env fuel sourceRoot w = (Ok tt, w1)
    /\ cleanupOldDb env fuel sourceRoot w1 = (Ok tt, w2)
    /\ fs w2 = fs w1
    /\ deletions (trace w2) = deletions (trace w1).
Proof.
  intros Hquiet Hsan Hlk Hwf Hh.
  pose proof (height_lookup _ _ _ Hlk) as Hd.
  destruct (cleanupOldDb_returns env fuel sourceRoot w Hwf Hh)
    as (w1 & Hrun1 & Hwf1 & Hh1 & _).
  destruct (cleanupOldDb_exact env fuel sourceRoot w es Hquiet Hsan Hlk
              (wf_lookup _ _ _ Hwf Hlk)) as (w1' & Hrun1' & Hlk1 & _); [lia|].
  rewrite Hrun1 in Hrun1'. injection Hrun1' as <-.
  assert (Hsan1 : sanitizePath env sourceRoot w1 = (Ok sourceRoot, w1)).
  { destruct (sanitizePath_inv env _ _ _ _ Hsan) as (_ & _ & l & Hl & ->).
    now apply sanitizePath_abs_path. }
  pose proof (height_lookup _ _ _ Hlk1) as Hd1.
  exists w1. eexists. split; [exact Hrun1|]. split.
  - apply (cleanupOldDb_trace env fuel sourceRoot w1 _ Hquiet Hsan1 Hlk1).
    + exact (wf_lookup _ _ _ Hwf1 Hlk1).
    + lia.
  - cbn [fs trace]. split.
    + now rewrite no_stale_left.
    + rewrite deletions_app.
      change (deletions (?a :: ?b :: ?t)) with (deletions [a; b] ++ deletions t)%list.
      cbn [deletions filter app]. rewrite loop_trace_no_stale. apply app_nil_r.
Qed.

Lemma cleanupOldDb_twice_witness :
  exists w1 w2,
    cleanupOldDb (env0 0 None None) 4 "/proj" world0 = (Ok tt, w1)
    /\ cleanupOldDb (env0 0 None None) 4 "/proj" w1 = (Ok tt, w2)
    /\ fs w2 = fs w1
    /\ deletions (trace w2) = deletions (trace w1).
Proof.
  apply (cleanupOldDb_twice (env0 0 None None) 4 "/proj" world0
           [("sample_1000", Dir [("db.bin", File);
                                 ("log", Dir [("a.txt", File)])]);
            ("other", Dir [("keep.txt", File)]);
            ("sample_notes.txt", File);
            ("my_sample_1", Dir [])]).
  - intros c p. reflexivity.
  - reflexivity.
  - reflexivity.
  - reflexivity.
  - apply Nat.leb_le. reflexivity.
Defined.

(** ** The name of the database *)

Lemma string_of_Z_inj (z1 z2 : Z) : string_of_Z z1 = string_of_Z z2 -> z1 = z2.
Proof.
  unfold string_of_Z. intros H. apply to_int_inj.
  assert (Hnn : forall z, Z.to_int z <> Decimal.Pos Decimal.Nil
                          /\ Z.to_int z <> Decimal.Neg Decimal.Nil).
  { intros [|p|p]; simpl; split; try discriminate;
      intros E; injection E as E; now apply Unsigned.to_uint_nonnil in E. }
  apply (f_equal NilZero.int_of_string) in H.
  rewrite !NilZero.isi in H by apply Hnn. now injection H.
Qed.

Lemma abs_path_snoc_inj (l : list string) (f g : string) :
  forallb proper l = true -> proper f = true -> proper g = true ->
  abs_path (l ++ [f]) = abs_path (l ++ [g]) -> f = g.
Proof.
  intros Hl Hf Hg H. unfold abs_path in H. injection H as H.
  apply (f_equal split_slash) in H.
  rewrite !split_slash_concat in H;
    try (now destruct l);
    try (apply forallb_proper_no_slash; rewrite forallb_app; cbn [forallb];
         now rewrite Hl, ?Hf, ?Hg).
  apply app_inv_head in H. now injection H.
Qed.

Lemma In_assoc (es : list (string * node)) (f : string) (n : node) :
  NoDup (map fst es) -> In (f, n) es -> assoc f es = Some n.
Proof.
  induction es as [|[k m] es IH]; [contradiction|].
  simpl. intros Hnd [Heq|Hin].
  - injection Heq as -> ->. now rewrite String.eqb_refl.
  - inversion Hnd as [|? ? Hnotin Hnd']; subst.
    destruct (String.eqb_spec k f) as [->|_]; [|now apply IH].
    exfalso. apply Hnotin, in_map_iff. now exists (f, n).
Qed.

Lemma stale_sample (name : string) (d : list (string * node)) :
  stale ("sample_" ++ name, Dir d) = true.
Proof.
  unfold stale. cbn [fst snd is_dir andb].
  change ("sample_" ++ name) with
    (String "s" (String "a" (String "m" (String "p" (String "l" (String "e"
       (String "_" name))))))).
  cbn [prefix].
  repeat match goal with
         | |- context [ascii_dec ?a ?a] =>
             destruct (ascii_dec a a); [|congruence]
         end.
  now destruct name.
Qed.

(** X7. Builds at different times get different database paths under the
    same absolute source root, and builds at the same time the same path:
    the path is a function of the source root and of the clock alone. *)
Theorem database_paths_differ_with_time
        (env : Env) (sourceRoot : string) (z1 z2 : Z) :
  path.isAbsolute sourceRoot = true ->
  (path.join sourceRoot ("sample_" ++ string_of_Z z1)
   = path.join sourceRoot ("sample_" ++ string_of_Z z2)
   <-> z1 = z2).
Proof.
  intros Habs. split; [|now intros ->].
  rewrite !(join_absolute env) by (auto using proper_sample).
  intros H. apply abs_path_snoc_inj in H;
    auto using proper_sample, fs_components_proper.
  apply string_of_Z_inj. now injection H.
Qed.

Lemma database_paths_differ_with_time_witness :
  path.join "/proj" ("sample_" ++ string_of_Z 1700000000000)
  <> path.join "/proj" ("sample_" ++ string_of_Z 1700000000001).
Proof.
  intros H.
  apply (database_paths_differ_with_time (env0 0 None None) "/proj"
           1700000000000 1700000000001) in H; [discriminate|reflexivity].
Defined.

(** X8. What one build names, the next one clears: when nothing fails, a
    directory [sample_<z>] directly under the source root, for any clock
    value [z] of an earlier [updateDb], is a stale database for
    [cleanupOldDb], and after the clean-up nothing is left at the path that
    [updateDb] had computed for it. *)
Theorem earlier_database_is_cleared
        (env : Env) (fuel : nat) (sourceRoot : string) (w : World)
        (es d : list (string * node)) (z : Z) :
  (forall c p, fault env c p = None) ->
  sanitizePath env sourceRoot w = (Ok sourceRoot, w) ->
  lookup (fs_components env sourceRoot) (fs w) = Some (Dir es) ->
  wf (fs w) = true ->
  height (fs w) <= fuel ->
  In ("sample_" ++ string_of_Z z, Dir d) es ->
  let database := path.join sourceRoot ("sample_" ++ string_of_Z z) in
  lookup (fs_components env database) (fs w) = Some (Dir d)
  /\ exists w',
      cleanupOldDb env fuel sourceRoot w = (Ok tt, w')
      /\ lookup (fs_components env database) (fs w') = None.
Proof.
  intros Hquiet Hsan Hlk Hwf Hh Hin database.
  pose proof (height_lookup _ _ _ Hlk) as Hd.
  pose proof (wf_lookup _ _ _ Hwf Hlk) as Hwfd.
  destruct (wf_dir _ Hwfd) as (_ & Hnd & _).
  destruct (cleanupOldDb_exact env fuel sourceRoot w es Hquiet Hsan Hlk Hwfd)
    as (w' & Hrun & Hlk' & Hent & _); [lia|].
  assert (Hcomp : fs_components env database
                  = (fs_components env sourceRoot
                     ++ [("sample_" ++ string_of_Z z)%string])%list).
  { subst database.
    destruct (sanitizePath_inv env _ _ _ _ Hsan) as (_ & _ & l & Hl & ->).
    rewrite join_abs_path by (auto using proper_sample).
    rewrite !fs_components_abs_path; auto.
    rewrite forallb_app. cbn [forallb]. now rewrite Hl, proper_sample. }
  rewrite Hcomp. split.
  - rewrite lookup_snoc, Hlk. now apply In_assoc.
  - exists w'. split; [exact Hrun|].
    rewrite (Hent _ _ Hin). now rewrite stale_sample.
Qed.

Lemma earlier_database_is_cleared_witness :
  lookup ["proj"; "sample_1000"] (fs world0)
  = Some (Dir [("db.bin", File); ("log", Dir [("a.txt", File)])])
  /\ exists w',
      cleanupOldDb (env0 0 None None) 4 "/proj" world0 = (Ok tt, w')
      /\ lookup ["proj"; "sample_1000"] (fs w') = None.
Proof.
  apply (earlier_database_is_cleared (env0 0 None None) 4 "/proj" world0
           [("sample_1000", Dir [("db.bin", File);
                                 ("log", Dir [("a.txt", File)])]);
            ("other", Dir [("keep.txt", File)]);
            ("sample_notes.txt", File);
            ("my_sample_1", Dir [])]
           [("db.bin", File); ("log", Dir [("a.txt", File)])] 1000).
  - intros c p. reflexivity.
  - reflexivity.
  - reflexivity.
  - reflexivity.
  - apply Nat.leb_le. reflexivity.
  - left. reflexivity.
Defined.

(** ** [updateDb]: how it ends *)

Section UpdateDbEnds.

Variable env : Env.

(** On a relative source root both variants stop at the database path. *)
Lemma updateDb_relative (fuel : nat) (language sourceRoot : string)
      (command : option string) (w : World) :
  path.isAbsolute sourceRoot = false ->
  wf (fs w) = true ->
  height (fs w) <= fuel ->
  exists w1,
    Extension.updateDb env fuel language sourceRoot command w
    = (Throw InvalidPath, w1)
    /\ Part000.updateDb env fuel language sourceRoot command w
       = (Throw InvalidPath, w1)
    /\ fs w1 = fs w
    /\ launches (trace w1) = launches (trace w)
    /\ registrations (trace w1) = registrations (trace w).
Proof.
  intros Hrel Hwf Hh.
  assert (Hsan : sanitizePath env sourceRoot w = (Throw InvalidPath, w))
    by (unfold sanitizePath; now rewrite Hrel).
  assert (Hc : cleanupOldDb env fuel sourceRoot w
               = (Ok tt, {| fs := fs w;
                            trace := trace w
                                     ++ [EConsole "Error cleaning up database folder:"
                                           (Some InvalidPath)] |})).
  { unfold cleanupOldDb.
    erewrite try_catch_throw by (erewrite bind_throw by exact Hsan; reflexivity).
    reflexivity. }
  eexists. split; [|split; [|split; [|split]]].
  - unfold Extension.updateDb. erewrite bind_ok by exact Hc.
    erewrite bind_throw; [reflexivity|].
    unfold sanitizePath.
    rewrite isAbsolute_join_relative by (auto; reflexivity). reflexivity.
  - unfold Part000.updateDb. erewrite bind_ok by exact Hc.
    erewrite bind_throw; [reflexivity|].
    unfold sanitizePath.
    rewrite isAbsolute_join_relative by (auto; reflexivity). reflexivity.
  - reflexivity.
  - cbn [trace]. rewrite launches_app. apply app_nil_r.
  - cbn [trace]. rewrite registrations_app. apply app_nil_r.
Qed.

End UpdateDbEnds.

(** X9. How [updateDb] ends.  It throws exactly when the source root is
    relative, and then with [Invalid path].  On an absolute source root,
    [updateDb] of [src/extension.js] completes normally when the tool,
    under [execFile], exits, is ended by a signal or could not be spawned,
    and never completes when the tool never ends: the code sets no time
    limit.  [updateDb] of [src/unnamed/part_000] completes normally when
    the shell it spawns exits with code 0, and when that shell itself could
    not be spawned; after every other exit code of the shell (127 is the
    code of a shell that does not find [codeql]), after a signal, and when
    the shell never ends, it never completes.  Under [execFile] a tool
    that writes no more than is buffered ends as it does when left
    alone. *)
Theorem updateDb_throws_iff_relative
        (env : Env) (fuel : nat) (language sourceRoot : string)
        (command : option string) (w : World) :
  wf (fs w) = true ->
  height (fs w) <= fuel ->
  let database := path.join sourceRoot ("sample_" ++ string_of_Z (now env)) in
  let args := codeql_args language sourceRoot command database in
  let line := String.concat " " ("codeql" :: args) in
  let tool := child env (ExecFile "codeql" args) in
  let shell := child env (SpawnShell line) in
  fst (Extension.updateDb env fuel language sourceRoot command w)
  = (if path.isAbsolute sourceRoot
     then match ending (execFile_run tool) with
          | Exited _ | Killed _ | SpawnFailed _ => Ok tt
          | NeverEnds => Pending
          end
     else Throw InvalidPath)
  /\ fst (Part000.updateDb env fuel language sourceRoot command w)
     = (if path.isAbsolute sourceRoot
        then match ending shell with
             | Exited 0%Z => Ok tt
             | Exited _ | Killed _ | NeverEnds => Pending
             | SpawnFailed _ => Ok tt
             end
        else Throw InvalidPath)
  /\ (overflows tool = false -> ending (execFile_run tool) = ending tool).
Proof.
  intros Hwf Hh database args line tool shell.
  split; [|split; [|apply execFile_run_within]];
    destruct (path.isAbsolute sourceRoot) eqn:Habs.
  - destruct (extension_updateDb_run env fuel language sourceRoot command w
                Habs Hwf Hh) as (? & we & _ & _ & He & _).
    rewrite He. reflexivity.
  - destruct (updateDb_relative env fuel language sourceRoot command w
                Habs Hwf Hh) as (w1 & He & _).
    now rewrite He.
  - destruct (part000_updateDb_run env fuel language sourceRoot command w
                Habs Hwf Hh) as (? & wp & _ & _ & Hp & _).
    rewrite Hp. cbn [fst]. fold database. fold args. fold line. fold shell.
    destruct (ending shell) as [[|c|c]| | |]; reflexivity.
  - destruct (updateDb_relative env fuel language sourceRoot command w
                Habs Hwf Hh) as (w1 & _ & Hp & _).
    now rewrite Hp.
Qed.

Lemma updateDb_throws_iff_relative_witness :
  fst (Extension.updateDb env_no_tool 4 "java" "/proj" None world0) = Ok tt
  /\ fst (Part000.updateDb env_no_tool 4 "java" "/proj" None world0) = Pending
  /\ fst (Extension.updateDb env_stuck 4 "java" "/proj" None world0) = Pending
  /\ fst (Part000.updateDb env_stuck 4 "java" "/proj" None world0) = Pending.
Proof.
  split; [|split; [|split]].
  - apply (updateDb_throws_iff_relative env_no_tool 4 "java" "/proj" None world0);
      [reflexivity|apply Nat.leb_le; reflexivity].
  - apply (updateDb_throws_iff_relative env_no_tool 4 "java" "/proj" None world0);
      [reflexivity|apply Nat.leb_le; reflexivity].
  - apply (updateDb_throws_iff_relative env_stuck 4 "java" "/proj" None world0);
      [reflexivity|apply Nat.leb_le; reflexivity].
  - apply (updateDb_throws_iff_relative env_stuck 4 "java" "/proj" None world0);
      [reflexivity|apply Nat.leb_le; reflexivity].
Defined.

(** X10. Which endings lead to [codeQL.setCurrentDatabase], on an absolute
    source root.  [src/extension.js] registers the new database after every
    exit of the tool under [execFile], whatever the code or the signal; it
    does not when the tool could not be spawned, nor while the tool does
    not end.  [src/unnamed/part_000] registers it when the shell it spawns
    exits with code 0, and also when that shell itself could not be
    spawned, the error being taken by the [catch] of [codeqlCmd]; it does
    not after another exit code of the shell, so not when the shell does
    not find [codeql] and exits with code 127, nor after a signal, nor
    while the shell does not end.  Neither registers more than once.  Under
    [execFile] a tool that writes no more than is buffered ends as it does
    when left alone. *)
Theorem registration_by_ending
        (env : Env) (fuel : nat) (language sourceRoot : string)
        (command : option string) (w : World) :
  path.isAbsolute sourceRoot = true ->
  wf (fs w) = true ->
  height (fs w) <= fuel ->
  let database := path.join sourceRoot ("sample_" ++ string_of_Z (now env)) in
  let args := codeql_args language sourceRoot command database in
  let line := String.concat " " ("codeql" :: args) in
  let tool := child env (ExecFile "codeql" args) in
  let shell := child env (SpawnShell line) in
  registrations
    (trace (snd (Extension.updateDb env fuel language sourceRoot command w)))
  = (registrations (trace w)
     ++ match ending (execFile_run tool) with
        | Exited _ | Killed _ => [database]
        | SpawnFailed _ | NeverEnds => []
        end)%list
  /\ registrations
       (trace (snd (Part000.updateDb env fuel language sourceRoot command w)))
     = (registrations (trace w)
        ++ match ending shell with
           | Exited 0%Z => [database]
           | Exited _ | Killed _ | NeverEnds => []
           | SpawnFailed _ => [database]
           end)%list
  /\ (overflows tool = false -> ending (execFile_run tool) = ending tool).
Proof.
  intros Habs Hwf Hh database args line tool shell.
  destruct (extension_updateDb_run env fuel language sourceRoot command w
              Habs Hwf Hh) as (? & we & _ & _ & He & _ & _ & Hre).
  destruct (part000_updateDb_run env fuel language sourceRoot command w
              Habs Hwf Hh) as (? & wp & _ & _ & Hp & _ & _ & Hrp).
  rewrite He, Hp. cbn [snd]. split; [|split; [|apply execFile_run_within]].
  - rewrite Hre. fold database. fold args. fold tool.
    destruct (ending (execFile_run tool)); reflexivity.
  - rewrite Hrp. fold database. fold args. fold line. fold shell.
    destruct (ending shell) as [[|c|c]| | |]; reflexivity.
Qed.

Lemma registration_by_ending_witness :
  registrations
    (trace (snd (Extension.updateDb env_no_tool 4 "java" "/proj" None world0)))
  = []
  /\ registrations
       (trace (snd (Part000.updateDb env_no_tool 4 "java" "/proj" None world0)))
     = [].
Proof.
  destruct (registration_by_ending env_no_tool 4 "java" "/proj" None world0)
    as (He & Hp & _).
  - reflexivity.
  - reflexivity.
  - apply Nat.leb_le. reflexivity.
  - split; [exact He|exact Hp].
Defined.

(** ** The two ways of running the tool *)

(** X11. [executeCommand] of [src/extension.js] starts the program once.
    It resolves with the exit code when the program exits and with [null]
    when a signal ends it; it rejects when the program could not be
    spawned; it stays pending when the program never ends.  The end that
    counts is the one under [execFile]: that of the program left alone
    when it writes no more than is buffered, and otherwise what the program
    does once [execFile] has closed its streams and sent it [SIGTERM].  It
    never resolves with the standard output that the callback of
    [execFile] passes to [resolve], and nothing the program writes is
    logged or reported: increment 100 is reported after an exit and not
    otherwise. *)
Theorem executeCommand_result_by_ending
        (env : Env) (file : string) (args : list string) (w : World) :
  let tool := child env (ExecFile file args) in
  let e := match ending tool with
           | SpawnFailed x => SpawnFailed x
           | x => if overflows tool then on_kill tool else x
           end in
  Extension.executeCommand env (file :: args) w
  = (match e with
     | Exited c => Ok (Extension.VCode (Some c))
     | Killed _ => Ok (Extension.VCode None)
     | SpawnFailed x => Throw (SpawnError x file)
     | NeverEnds => Pending
     end,
     {| fs := fs w;
        trace := trace w
                 ++ [EWithProgress "Creating CodeQL database";
                     EReport (Pct 0) None;
                     ELaunch (ExecFile file args)]
                 ++ match e with
                    | Exited _ | Killed _ => [EReport (Pct 100) None]
                    | SpawnFailed _ | NeverEnds => []
                    end |})
  /\ (forall out,
         fst (Extension.executeCommand env (file :: args) w)
         <> Ok (Extension.VStdout out)).
Proof.
  intros tool e. subst e.
  rewrite <- (execFile_run_ending tool). subst tool.
  rewrite extension_executeCommand_exact. split; [reflexivity|].
  intros out. cbn [fst].
  destruct (ending (execFile_run (child env (ExecFile file args))));
    discriminate.
Qed.

Lemma executeCommand_result_by_ending_witness :
  Extension.executeCommand env_stuck ["codeql"; "version"] world0
  = (Pending,
     {| fs := proj_fs;
        trace := [EWithProgress "Creating CodeQL database";
                  EReport (Pct 0) None;
                  ELaunch (ExecFile "codeql" ["version"])] |}).
Proof.
  exact (proj1 (executeCommand_result_by_ending env_stuck "codeql" ["version"]
                  world0)).
Defined.

Lemma part000_data_trace (out : list (Stream * string)) :
  forall (p : Promise unit) (w : World),
    dispatch Part000.codeqlCmd_listener
      (map (fun d => OnData (fst d) (snd d)) out) p w
    = (Ok p, {| fs := fs w; trace := trace w ++ flat_map chunk_events out |}).
Proof.
  induction out as [|[[|] chunk] out IH]; intros p w.
  - simpl. rewrite app_nil_r. now destruct w.
  - cbn [map dispatch fst snd Part000.codeqlCmd_listener].
    unfold console_log, report, bind, emit, ret. cbn [fs trace].
    rewrite IH. cbn [fs trace flat_map chunk_events fst snd app].
    now rewrite <- !app_assoc.
  - cbn [map dispatch fst snd Part000.codeqlCmd_listener].
    unfold console_log, report, bind, emit, ret. cbn [fs trace].
    rewrite IH. cbn [fs trace flat_map chunk_events fst snd app].
    now rewrite <- !app_assoc.
Qed.

(** X12. [codeqlCmd] of [src/unnamed/part_000], when the tool exits with
    code 0: every chunk the tool printed is logged and reported, in the order
    printed, with increment 1 for standard output and 2 for standard error;
    then the exit is logged, the completion is reported, and [codeqlCmd]
    returns normally. *)
Theorem codeqlCmd_streams_output (env : Env) (cmd : string) (w : World) :
  ending (child env (SpawnShell cmd)) = Exited 0 ->
  Part000.codeqlCmd env cmd w
  = (Ok tt,
     {| fs := fs w;
        trace := trace w
                 ++ [EWithProgress "Creating CodeQL database";
                     EReport (Pct 0) (Some "Starting CodeQL database creation");
                     ELaunch (SpawnShell cmd)]
                 ++ flat_map chunk_events (output (child env (SpawnShell cmd)))
                 ++ [EConsole "exit 0 null" None;
                     EReport (Pct 100)
                       (Some "CodeQL database creation completed.")] |}).
Proof.
  intros Hend. unfold Part000.codeqlCmd, withProgress, report.
  apply try_catch_ok.
  erewrite bind_ok by apply emit_run.
  erewrite bind_ok by apply emit_run.
  erewrite bind_ok by apply emit_run.
  unfold child_events. rewrite Hend.
  erewrite bind_ok
    by (erewrite dispatch_app by apply part000_data_trace; reflexivity).
  unfold await. cbn [resolve fs trace]. now rewrite <- !app_assoc.
Qed.

Lemma codeqlCmd_streams_output_witness :
  Part000.codeqlCmd env_chatty "codeql version" world0
  = (Ok tt,
     {| fs := proj_fs;
        trace := [EWithProgress "Creating CodeQL database";
                  EReport (Pct 0) (Some "Starting CodeQL database creation");
                  ELaunch (SpawnShell "codeql version");
                  EConsole "Initializing database" None;
                  EReport (Pct 1) (Some "Initializing database");
                  EConsole "warning: no build command" None;
                  EReport (Pct 2) (Some "warning: no build command");
                  EConsole "exit 0 null" None;
                  EReport (Pct 100)
                    (Some "CodeQL database creation completed.")] |}).
Proof.
  apply (codeqlCmd_streams_output env_chatty "codeql version" world0).
  reflexivity.
Defined.

(** X13. [codeqlCmd] of [src/unnamed/part_000] never rejects: its own
    [catch] takes what it awaits, so the [catch] of [updateDb] around it is
    never reached.  It returns normally when the shell it spawns exits with
    code 0, and when that shell itself could not be spawned.  After every
    other exit code of the shell, which is what a missing [codeql] gives
    (the shell exits with code 127), after a signal, and when the shell
    never ends, it never returns. *)
Theorem codeqlCmd_never_rejects (env : Env) (cmd : string) (w : World) :
  fst (Part000.codeqlCmd env cmd w)
  = match ending (child env (SpawnShell cmd)) with
    | Exited 0%Z => Ok tt
    | Exited _ | Killed _ | NeverEnds => Pending
    | SpawnFailed _ => Ok tt
    end
  /\ forall e, fst (Part000.codeqlCmd env cmd w) <> Throw e.
Proof.
  destruct (part000_codeqlCmd_run env cmd w) as (w' & Hrun & _).
  rewrite Hrun. cbn [fst]. split.
  - destruct (ending (child env (SpawnShell cmd))) as [[|c|c]| | |]; reflexivity.
  - intros e. destruct (ending (child env (SpawnShell cmd))) as [[|c|c]| | |];
      discriminate.
Qed.

Lemma codeqlCmd_never_rejects_witness :
  fst (Part000.codeqlCmd env_no_tool "codeql version" world0) = Pending.
Proof.
  exact (proj1 (codeqlCmd_never_rejects env_no_tool "codeql version" world0)).
Defined.

(** ** The entry points *)

Lemma languageOptions_values (i : nat) (label value : string) :
  nth_error languageOptions i = Some (label, value) ->
  value = "java" \/ value = "javascript".
Proof.
  destruct i as [|[|i]]; simpl; intros H.
  - injection H as _ <-. now left.
  - injection H as _ <-. now right.
  - now destruct i.
Qed.

(** X14. Whatever the argument and whatever the user answers,
    [buildCodeqlDb] starts at most one process.  When it starts one, the
    command was invoked on an absolute folder path, the program is [codeql]
    with [database create], the language is [java] or [javascript], the
    source root is the folder, and the build command is what the input box
    gave in the command with a build command and absent in the other. *)
Theorem buildCodeqlDb_starts_codeql_at_most_once
        (env : Env) (fuel : nat) (uri : option string) (includeCommand : bool)
        (w : World) :
  wf (fs w) = true ->
  height (fs w) <= fuel ->
  let started_e :=
    launches (trace (snd (Extension.buildCodeqlDb env fuel uri includeCommand w))) in
  let started_p :=
    launches (trace (snd (Part000.buildCodeqlDb env fuel uri includeCommand w))) in
  (started_e = launches (trace w) /\ started_p = launches (trace w))
  \/ exists fsPath language,
      uri = Some fsPath
      /\ path.isAbsolute fsPath = true
      /\ (language = "java" \/ language = "javascript")
      /\ let command := if includeCommand then inputBox env else None in
         let args :=
           codeql_args language fsPath command
             (path.join fsPath ("sample_" ++ string_of_Z (now env))) in
         started_e = (launches (trace w) ++ [ExecFile "codeql" args])%list
         /\ started_p
            = (launches (trace w)
               ++ [SpawnShell (String.concat " " ("codeql" :: args))])%list.
Proof.
  intros Hwf Hh started_e started_p. subst started_e started_p.
  unfold Extension.buildCodeqlDb, Part000.buildCodeqlDb.
  assert (Hshow : forall msg,
             launches (trace (snd (emit (EShowError msg) w))) = launches (trace w))
    by (intros msg; cbn; rewrite launches_app; apply app_nil_r).
  destruct uri as [fsPath|]; [|left; now rewrite !Hshow].
  destruct (fsPath =? ""); [left; now rewrite !Hshow|].
  unfold showQuickPick.
  destruct (match quickPick env with
            | Some i => nth_error languageOptions i
            | None => None
            end) as [[label language]|] eqn:Hpick;
    [|left; split; reflexivity].
  assert (Hlang : language = "java" \/ language = "javascript").
  { destruct (quickPick env) as [i|]; [|discriminate].
    exact (languageOptions_values i label language Hpick). }
  set (command := if includeCommand then inputBox env else None).
  assert (He : forall k : M unit,
             (language0 <- ret (Some (label, language)) ;;
              match language0 with
              | Some (_, value) =>
                  command0 <- (if includeCommand then showInputBox env
                               else ret None) ;;
                  Extension.updateDb env fuel value fsPath command0
              | None => k
              end) w
             = Extension.updateDb env fuel language fsPath command w)
    by (intros k; subst command; now destruct includeCommand).
  assert (Hp : forall k : M unit,
             (language0 <- ret (Some (label, language)) ;;
              match language0 with
              | Some (_, value) =>
                  command0 <- (if includeCommand then showInputBox env
                               else ret None) ;;
                  Part000.updateDb env fuel value fsPath command0
              | None => k
              end) w
             = Part000.updateDb env fuel language fsPath command w)
    by (intros k; subst command; now destruct includeCommand).
  rewrite He, Hp.
  destruct (path.isAbsolute fsPath) eqn:Habs.
  - right. exists fsPath, language.
    split; [reflexivity|]. split; [exact Habs|]. split; [exact Hlang|].
    destruct (extension_updateDb_run env fuel language fsPath command w
                Habs Hwf Hh) as (? & we & _ & _ & Hre & _ & Hle & _).
    destruct (part000_updateDb_run env fuel language fsPath command w
                Habs Hwf Hh) as (? & wp & _ & _ & Hrp & _ & Hlp & _).
    cbv zeta. fold command. rewrite Hre, Hrp. cbn [snd]. now split.
  - left.
    destruct (updateDb_relative env fuel language fsPath command w
                Habs Hwf Hh) as (w1 & Hre & Hrp & _ & Hl & _).
    rewrite Hre, Hrp. cbn [snd]. now split.
Qed.

Lemma buildCodeqlDb_starts_codeql_at_most_once_witness :
  launches (trace (snd (Extension.buildCodeqlDb env_no_tool 4 (Some "/proj")
                          true world0)))
  = [ExecFile "codeql"
       ["database"; "create"; "/proj/sample_1700000000000";
        "--language=javascript"; "--source-root"; "/proj";
        "--command"; "make"; "--overwrite"]].
Proof.
  destruct (buildCodeqlDb_starts_codeql_at_most_once env_no_tool 4 (Some "/proj")
              true world0) as [[He _]|(fsPath & language & _ & _ & _ & _)].
  - reflexivity.
  - apply Nat.leb_le. reflexivity.
  - vm_compute in He. discriminate He.
  - reflexivity.
Defined.

(** X15. [activate] registers two commands.  [extension.buildCodeqlDb] runs
    [buildCodeqlDb] without a build command and never reads the input box:
    its effect is the same whatever the input box would answer.
    [extension.buildCodeqlDbInManual] runs it with the build command of the
    input box, and when that answer is missing or empty it does what
    [extension.buildCodeqlDb] does.  No other name is registered. *)
Theorem activate_registers_two_commands (env : Env) (fuel : nat) :
  registered (activate (Extension.buildCodeqlDb env fuel)) "extension.buildCodeqlDb"
  = Some (fun uri => Extension.buildCodeqlDb env fuel uri false)
  /\ registered (activate (Extension.buildCodeqlDb env fuel))
       "extension.buildCodeqlDbInManual"
     = Some (fun uri => Extension.buildCodeqlDb env fuel uri true)
  /\ (forall name,
         name <> "extension.buildCodeqlDb" ->
         name <> "extension.buildCodeqlDbInManual" ->
         registered (activate (Extension.buildCodeqlDb env fuel)) name = None)
  /\ (forall input uri w,
         Extension.buildCodeqlDb (with_inputBox env input) fuel uri false w
         = Extension.buildCodeqlDb env fuel uri false w
         /\ Part000.buildCodeqlDb (with_inputBox env input) fuel uri false w
            = Part000.buildCodeqlDb env fuel uri false w)
  /\ (forall uri w,
         truthy (inputBox env) = false ->
         Extension.buildCodeqlDb env fuel uri true w
         = Extension.buildCodeqlDb env fuel uri false w
         /\ Part000.buildCodeqlDb env fuel uri true w
            = Part000.buildCodeqlDb env fuel uri false w).
Proof.
  split; [reflexivity|]. split; [reflexivity|]. split; [|split].
  - intros name H1 H2. unfold activate. cbn [registered].
    destruct (String.eqb_spec "extension.buildCodeqlDbInManual" name);
      [now subst|].
    destruct (String.eqb_spec "extension.buildCodeqlDb" name); [now subst|].
    reflexivity.
  - intros input uri w. split; reflexivity.
  - intros uri w Hfalsy.
    unfold Extension.buildCodeqlDb, Part000.buildCodeqlDb.
    destruct uri as [fsPath|]; [|split; reflexivity].
    destruct (fsPath =? ""); [split; reflexivity|].
    unfold showQuickPick, showInputBox, bind, ret.
    destruct (match quickPick env with
              | Some i => nth_error languageOptions i
              | None => None
              end) as [[label language]|]; [|split; reflexivity].
    unfold Extension.updateDb, Part000.updateDb. rewrite Hfalsy.
    split; reflexivity.
Qed.

(** ** [cleanupDbFolder] on its own *)

Lemma assoc_remove_entry (c : string) (es : list (string * node)) :
  assoc c (remove_entry c es) = None.
Proof.
  apply assoc_notin. intros Hin.
  apply in_map_iff in Hin as ([k n] & Hk & Hin). simpl in Hk. subst k.
  apply filter_In in Hin as [_ Hne]. simpl in Hne.
  now rewrite String.eqb_refl in Hne.
Qed.

Lemma lookup_remove_path_self (l : list string) :
  l <> [] -> forall t, lookup l (remove_path l t) = None.
Proof.
  induction l as [|c l IH]; intros Hne t; [contradiction|].
  destruct t as [|es]; [reflexivity|].
  destruct l as [|c' l].
  - cbn [remove_path lookup]. now rewrite assoc_remove_entry.
  - change (remove_path (c :: c' :: l) (Dir es))
      with (Dir (map (fun e => if fst e =? c
                               then (fst e, remove_path (c' :: l) (snd e))
                               else e) es)).
    cbn [lookup]. rewrite assoc_map_key.
    destruct (assoc c es) as [m|]; [|reflexivity].
    cbn [option_map]. apply IH. discriminate.
Qed.

(** X16. [cleanupDbFolder] does not look at names: when nothing fails below
    it, it removes any directory it is given, with all it holds, files
    unlinked and every directory removed after its contents, and returns
    normally; afterwards nothing is left at the path, and the tree is the
    former tree without that one entry. *)
Theorem cleanupDbFolder_removes_whole_tree
        (env : Env) (fuel : nat) (folderPath : string) (w : World)
        (es : list (string * node)) :
  sanitizePath env folderPath w = (Ok folderPath, w) ->
  folderPath <> "/" ->
  (forall c ds, fault env c (abs_path (fs_components env folderPath ++ ds)) = None) ->
  lookup (fs_components env folderPath) (fs w) = Some (Dir es) ->
  wf (Dir es) = true ->
  height (Dir es) <= fuel ->
  let l := fs_components env folderPath in
  cleanupDbFolder env fuel folderPath w
  = (Ok tt, {| fs := remove_path l (fs w);
               trace := trace w ++ postorder l (Dir es) |})
  /\ lookup l (remove_path l (fs w)) = None.
Proof.
  intros Hsan Hroot Hcalm Hlk Hwf Hh l. subst l.
  destruct (sanitizePath_inv env _ _ _ _ Hsan) as (_ & _ & l & Hl & ->).
  rewrite fs_components_abs_path in * by assumption.
  assert (Hne : l <> []) by (intros ->; now apply Hroot).
  split; [|now apply lookup_remove_path_self].
  now apply cleanupDbFolder_exact.
Qed.

Lemma cleanupDbFolder_removes_whole_tree_witness :
  cleanupDbFolder (env0 0 None None) 2 "/proj/other" world0
  = (Ok tt,
     {| fs := Dir [("proj",
                    Dir [("sample_1000", Dir [("db.bin", File);
                                              ("log", Dir [("a.txt", File)])]);
                         ("sample_notes.txt", File);
                         ("my_sample_1", Dir [])]);
                   ("etc", Dir [("passwd", File)])];
        trace := [EUnlink "/proj/other/keep.txt"; ERmdir "/proj/other"] |}).
Proof.
  apply (cleanupDbFolder_removes_whole_tree (env0 0 None None) 2 "/proj/other"
           world0 [("keep.txt", File)]).
  - reflexivity.
  - discriminate.
  - intros c ds. reflexivity.
  - reflexivity.
  - reflexivity.
  - apply Nat.leb_le. reflexivity.
Defined.



(** ** Where a failure stops the clean-up *)

Section FirstFailure.

Variable env : Env.

(** The loop of [cleanupDbFolder] over the first entries [done] of the
    directory at [l], below which nothing fails: they are removed, the
    entries [tail] that follow are still there, and the loop goes on. *)
Lemma cleanupDbFolder_loop_prefix (fuel : nat) (l : list string)
      (names' : list string) :
  forallb proper l = true -> l <> [] ->
  forall (done tail : list (string * node)) (w : World),
    lookup l (fs w) = Some (Dir (done ++ tail)) ->
    NoDup (map fst (done ++ tail)) ->
    forallb proper (map fst done) = true ->
    (forall g n, In (g, n) done ->
                 wf n = true /\ height n <= fuel /\ calm env (l ++ [g])) ->
    for_of (map fst done ++ names')
      (fun file =>
         curPath <- sanitizePath env (path.join (abs_path l) file) ;;
         curStat <- lstat env curPath ;;
         if curStat then cleanupDbFolder env fuel curPath
         else unlink env curPath) w
    = for_of names'
        (fun file =>
           curPath <- sanitizePath env (path.join (abs_path l) file) ;;
           curStat <- lstat env curPath ;;
           if curStat then cleanupDbFolder env fuel curPath
           else unlink env curPath)
        {| fs := fold_left (fun t e => remove_path (l ++ [fst e]) t) done (fs w);
           trace := trace w
                    ++ flat_map (fun e => postorder (l ++ [fst e]) (snd e)) done |}
    /\ lookup l (fold_left (fun t e => remove_path (l ++ [fst e]) t) done (fs w))
       = Some (Dir tail).
Proof.
  intros Hl Hne done.
  induction done as [|[g n] done IH]; intros tail w Hlk Hnd Hnames Hsub.
  - cbn [map app fold_left flat_map]. rewrite app_nil_r.
    split; [now destruct w|exact Hlk].
  - cbn [map fst forallb] in Hnames. apply andb_prop in Hnames as [Hg Hnames].
    destruct (NoDup_middle g n [] (done ++ tail) Hnd) as (_ & Hr & Hnd').
    destruct (Hsub g n) as (Hwf & Hh & Hcalm); [now left|].
    assert (Hlg : forallb proper (l ++ [g]) = true)
      by (rewrite forallb_app; cbn [forallb]; now rewrite Hl, Hg).
    assert (Hchild : lookup (l ++ [g]) (fs w) = Some n)
      by (rewrite lookup_snoc, Hlk; cbn [app assoc]; now rewrite String.eqb_refl).
    assert (Hbody :
      (curPath <- sanitizePath env (path.join (abs_path l) g) ;;
       curStat <- lstat env curPath ;;
       if curStat then cleanupDbFolder env fuel curPath
       else unlink env curPath) w
      = (Ok tt, {| fs := remove_path (l ++ [g]) (fs w);
                   trace := trace w ++ postorder (l ++ [g]) n |})).
    { rewrite join_abs_path by assumption.
      erewrite bind_ok by (now apply sanitizePath_abs_path).
      erewrite bind_ok
        by (apply lstat_entry; [assumption|now apply calm_here|exact Hchild]).
      destruct n as [|es']; cbn [is_dir].
      - apply unlink_file; [assumption|now apply calm_here|assumption].
      - apply cleanupDbFolder_exact; try assumption. now destruct l. }
    cbn [map fst app for_of]. erewrite bind_ok by exact Hbody.
    destruct (IH tail {| fs := remove_path (l ++ [g]) (fs w);
                         trace := trace w ++ postorder (l ++ [g]) n |})
      as (Hrun & Hlk'); try assumption.
    + cbn [fs]. rewrite (lookup_remove_child l g _ _ Hlk).
      change (((g, n) :: done) ++ tail)%list
        with ([] ++ (g, n) :: (done ++ tail))%list.
      now rewrite remove_entry_middle.
    + intros h m Hin. apply (Hsub h). now right.
    + cbn [fs trace] in Hrun, Hlk'. cbn [fold_left flat_map fst snd].
      split; [|exact Hlk']. rewrite Hrun. now rewrite <- app_assoc.
Qed.

End FirstFailure.

(** X18. [cleanupDbFolder] stops at the first entry it cannot unlink.  When
    the entries listed before a file are removed without failure and the
    file cannot be unlinked, these entries are gone with all they held, the
    error is logged once, the file and every entry listed after it are still
    there, the folder is not removed, and [cleanupDbFolder] returns
    normally. *)
Theorem cleanupDbFolder_stops_at_first_failure
        (env : Env) (fuel : nat) (folderPath f : string) (w : World)
        (done rest : list (string * node)) (e : Errno) :
  sanitizePath env folderPath w = (Ok folderPath, w) ->
  folderPath <> "/" ->
  let l := fs_components env folderPath in
  lookup l (fs w) = Some (Dir (done ++ (f, File) :: rest)) ->
  wf (Dir (done ++ (f, File) :: rest)) = true ->
  height (Dir (done ++ (f, File) :: rest)) <= S fuel ->
  fault env Readdir folderPath = None ->
  (forall g n, In (g, n) done -> calm env (l ++ [g])) ->
  fault env Lstat (path.join folderPath f) = None ->
  fault env Unlink (path.join folderPath f) = Some e ->
  let t' := fold_left (fun t x => remove_path (l ++ [fst x]) t) done (fs w) in
  cleanupDbFolder env (S fuel) folderPath w
  = (Ok tt,
     {| fs := t';
        trace := trace w
                 ++ flat_map (fun x => postorder (l ++ [fst x]) (snd x)) done
                 ++ [EConsole "Error cleaning up database subfolder:"
                       (Some (SystemError Unlink e (path.join folderPath f)))] |})
  /\ lookup l t' = Some (Dir ((f, File) :: rest)).
Proof.
  intros Hsan Hroot l Hlk Hwf Hh Hrd Hcalm Hls Hun t'. subst l t'.
  destruct (sanitizePath_inv env _ _ _ _ Hsan) as (_ & _ & l & Hl & ->).
  rewrite fs_components_abs_path in * by assumption.
  assert (Hne : l <> []) by (intros ->; now apply Hroot).
  destruct (wf_dir _ Hwf) as (Hnames & Hnd & Hsub).
  rewrite map_app, forallb_app in Hnames.
  apply andb_prop in Hnames as [Hdone Hrest].
  cbn [map fst forallb] in Hrest. apply andb_prop in Hrest as [Hf _].
  rewrite join_abs_path in Hls, Hun |- * by assumption.
  assert (Hlf : forallb proper (l ++ [f]) = true)
    by (rewrite forallb_app; cbn [forallb]; now rewrite Hl, Hf).
  destruct (cleanupDbFolder_loop_prefix env fuel l (f :: map fst rest) Hl Hne
              done ((f, File) :: rest) w Hlk Hnd Hdone) as (Hrun & Hlk').
  { intros g n Hin. split; [|split].
    - apply (Hsub g). apply in_or_app. now left.
    - apply (height_child (done ++ (f, File) :: rest) g n fuel);
        [assumption|apply in_or_app; now left].
    - now apply (Hcalm g n). }
  split; [|exact Hlk'].
  cbn [cleanupDbFolder].
  erewrite try_catch_throw; cycle 1.
  { erewrite bind_ok by (apply readdir_dir; [assumption|exact Hrd|exact Hlk]).
    rewrite map_app. cbn [map fst]. erewrite bind_throw; [reflexivity|].
    rewrite Hrun. cbn [for_of]. erewrite bind_throw; [reflexivity|].
    rewrite join_abs_path by assumption.
    erewrite bind_ok by (now apply sanitizePath_abs_path).
    erewrite bind_ok.
    2:{ apply (lstat_entry env (l ++ [f]) File); [assumption|exact Hls|].
        cbn [fs]. rewrite lookup_snoc, Hlk'. cbn [assoc].
        now rewrite String.eqb_refl. }
    cbn [is_dir]. unfold unlink. rewrite Hun. reflexivity. }
  unfold console_error. rewrite emit_run. cbn [fs trace].
  now rewrite <- app_assoc.
Qed.

Lemma cleanupDbFolder_stops_at_first_failure_witness :
  cleanupDbFolder env_denied 1 "/proj/sample_1" world_two
  = (Ok tt,
     {| fs := two_stale_fs;
        trace := [EConsole "Error cleaning up database subfolder:"
                    (Some (SystemError Unlink EACCES "/proj/sample_1/locked.bin"))] |})
  /\ lookup ["proj"; "sample_1"] two_stale_fs
     = Some (Dir [("locked.bin", File); ("free.bin", File)]).
Proof.
  apply (cleanupDbFolder_stops_at_first_failure env_denied 0 "/proj/sample_1"
           "locked.bin" world_two [] [("free.bin", File)] EACCES).
  - reflexivity.
  - discriminate.
  - reflexivity.
  - reflexivity.
  - apply Nat.leb_le. reflexivity.
  - reflexivity.
  - intros g n [].
  - reflexivity.
  - reflexivity.
Defined.

Section FirstFailureAtTheRoot.

Variable env : Env.

(** The loop of [cleanupOldDb] over the first entries [done] of the source
    root, at and below which nothing fails: the stale ones are removed, one
    report is made for each, and the loop goes on with the counter advanced
    by their number; the other entries of the root are as they were. *)
Lemma cleanupOldDb_loop_prefix (fuel : nat) (l : list string) (total : nat)
      (names' : list string) :
  forallb proper l = true ->
  forall (done kept tail : list (string * node)) (k : nat) (w : World),
    lookup l (fs w) = Some (Dir (kept ++ done ++ tail)) ->
    NoDup (map fst (kept ++ done ++ tail)) ->
    forallb proper (map fst done) = true ->
    (forall g n, In (g, n) done ->
                 wf n = true /\ height n <= fuel /\ calm env (l ++ [g])) ->
    let t' := fold_left (fun t e => remove_path (l ++ [fst e]) t)
                        (filter stale done) (fs w) in
    cleanupOldDb_loop env fuel (abs_path l) total (map fst done ++ names') k w
    = cleanupOldDb_loop env fuel (abs_path l) total names' (List.length done + k)
        {| fs := t'; trace := trace w ++ loop_trace l total k done |}
    /\ lookup l t'
       = Some (Dir (kept ++ filter (fun e => negb (stale e)) done ++ tail)).
Proof.
  intros Hl done.
  induction done as [|[g n] done IH]; intros kept tail k w Hlk Hnd Hnames Hsub.
  - cbn. rewrite app_nil_r. split; [now destruct w|exact Hlk].
  - cbn [map fst forallb] in Hnames. apply andb_prop in Hnames as [Hg Hnames].
    destruct (NoDup_middle g n kept (done ++ tail) Hnd) as (Hk & Hr & Hnd').
    destruct (Hsub g n) as (Hwf & Hh & Hcalm); [now left|].
    assert (Hlg : forallb proper (l ++ [g]) = true)
      by (rewrite forallb_app; cbn [forallb]; now rewrite Hl, Hg).
    assert (Hchild : lookup (l ++ [g]) (fs w) = Some n)
      by (rewrite lookup_snoc, Hlk; now apply assoc_middle).
    cbn [map fst app cleanupOldDb_loop]. cbv zeta.
    rewrite join_abs_path by assumption.
    erewrite bind_ok
      by (apply lstat_entry; [assumption|now apply calm_here|exact Hchild]).
    change (is_dir n && prefix "sample_" g) with (stale (g, n)).
    cbn [filter loop_trace List.length]. cbn [fst snd].
    replace (S (List.length done) + k) with (List.length done + S k) by lia.
    destruct (stale (g, n)) eqn:Est; cbn [fold_left fst negb].
    + destruct n as [|es']; [discriminate|].
      erewrite bind_ok
        by (apply cleanupDbFolder_exact; try eassumption; now destruct l).
      unfold report at 1. erewrite bind_ok by reflexivity.
      destruct (IH kept tail (S k)
                  {| fs := fs {| fs := remove_path (l ++ [g]) (fs w);
                                 trace := trace w ++ postorder (l ++ [g]) (Dir es') |};
                     trace := trace {| fs := remove_path (l ++ [g]) (fs w);
                                       trace := trace w ++ postorder (l ++ [g]) (Dir es') |}
                              ++ [EReport (Ratio (S k) total) None] |})
        as (Hrun & Hlk'); try assumption.
      * cbn [fs]. rewrite (lookup_remove_child l g _ _ Hlk).
        change (((g, Dir es') :: done) ++ tail)%list
          with ((g, Dir es') :: (done ++ tail))%list.
        now rewrite remove_entry_middle.
      * intros h m Hin. apply (Hsub h). now right.
      * cbn [fs trace] in Hrun, Hlk'. split; [|exact Hlk'].
        cbn [fs trace]. rewrite Hrun. now rewrite <- !app_assoc.
    + erewrite bind_ok by reflexivity.
      unfold report at 1. erewrite bind_ok by reflexivity.
      destruct (IH (kept ++ [(g, n)])%list tail (S k)
                  {| fs := fs w;
                     trace := trace w ++ [EReport (Ratio (S k) total) None] |})
        as (Hrun & Hlk'); try assumption.
      * cbn [fs]. now rewrite <- app_assoc.
      * now rewrite <- app_assoc.
      * intros h m Hin. apply (Hsub h). now right.
      * cbn [fs trace] in Hrun, Hlk'. split.
        -- cbn [app]. rewrite Hrun. now rewrite <- !app_assoc.
        -- rewrite Hlk'. now rewrite <- app_assoc.
Qed.

End FirstFailureAtTheRoot.

(** X19. A child of the source root that cannot be inspected ends the whole
    clean-up.  When [lstat] fails on a child, the stale databases listed
    before it are removed and reported, the error is logged once under the
    folder message, no report is made for the child or for any entry listed
    after it, the child and all these entries are left as they were, stale
    or not, and [cleanupOldDb] returns normally. *)
Theorem cleanupOldDb_stops_at_failing_lstat
        (env : Env) (fuel : nat) (sourceRoot f : string) (w : World)
        (done rest : list (string * node)) (n : node) (e : Errno) :
  sanitizePath env sourceRoot w = (Ok sourceRoot, w) ->
  let root := fs_components env sourceRoot in
  let es := (done ++ (f, n) :: rest)%list in
  lookup root (fs w) = Some (Dir es) ->
  wf (Dir es) = true ->
  height (Dir es) <= S fuel ->
  fault env Readdir sourceRoot = None ->
  (forall g m, In (g, m) done -> calm env (root ++ [g])) ->
  fault env Lstat (path.join sourceRoot f) = Some e ->
  let t' := fold_left (fun t x => remove_path (root ++ [fst x]) t)
                      (filter stale done) (fs w) in
  cleanupOldDb env fuel sourceRoot w
  = (Ok tt,
     {| fs := t';
        trace := trace w
                 ++ EWithProgress "Cleaning up old databases"
                 :: EReport (Pct 0) None
                 :: loop_trace root (List.length es) 0 done
                 ++ [EConsole "Error cleaning up database folder:"
                       (Some (SystemError Lstat e (path.join sourceRoot f)))] |})
  /\ lookup root t'
     = Some (Dir (filter (fun x => negb (stale x)) done ++ (f, n) :: rest)).
Proof.
  intros Hsan root es Hlk Hwf Hh Hrd Hcalm Hls t'. subst root es t'.
  destruct (sanitizePath_inv env _ _ _ _ Hsan) as (_ & _ & l & Hl & ->).
  rewrite fs_components_abs_path in * by assumption.
  destruct (wf_dir _ Hwf) as (Hnames & Hnd & Hsub).
  rewrite map_app, forallb_app in Hnames.
  apply andb_prop in Hnames as [Hdone Hrest].
  cbn [map fst forallb] in Hrest. apply andb_prop in Hrest as [Hf _].
  rewrite join_abs_path in Hls |- * by assumption.
  destruct (cleanupOldDb_loop_prefix env fuel l
              (List.length (map fst (done ++ (f, n) :: rest)))
              (f :: map fst rest) Hl done [] ((f, n) :: rest) 0 w Hlk Hnd Hdone)
    as (Hrun & Hlk').
  { intros g m Hin. split; [|split].
    - apply (Hsub g). apply in_or_app. now left.
    - apply (height_child (done ++ (f, n) :: rest) g m fuel);
        [assumption|apply in_or_app; now left].
    - now apply (Hcalm g m). }
  cbn [app] in Hlk'. split; [|exact Hlk'].
  unfold cleanupOldDb.
  erewrite try_catch_throw; cycle 1.
  { erewrite bind_ok by exact Hsan.
    erewrite bind_ok by (apply readdir_dir; [assumption|exact Hrd|exact Hlk]).
    cbv zeta. unfold withProgress.
    erewrite bind_ok by apply emit_run.
    unfold report at 1. erewrite bind_ok by apply emit_run.
    set (total := List.length (map fst (done ++ (f, n) :: rest))).
    rewrite map_app. cbn [map fst fs trace].
    match goal with
    | |- cleanupOldDb_loop _ _ _ _ _ _ ?w1 = _ =>
        pose proof (cleanupOldDb_loop_prefix env fuel l total
                      (f :: map fst rest) Hl done [] ((f, n) :: rest) 0 w1)
          as Hgo
    end.
    cbn [fs trace app] in Hgo.
    destruct Hgo as (Hgo & _); try assumption.
    { intros g m Hin. split; [|split].
      - apply (Hsub g). apply in_or_app. now left.
      - apply (height_child (done ++ (f, n) :: rest) g m fuel);
          [assumption|apply in_or_app; now left].
      - now apply (Hcalm g m). }
    rewrite Hgo. cbn [cleanupOldDb_loop]. cbv zeta.
    rewrite join_abs_path by assumption.
    erewrite bind_throw; [reflexivity|].
    unfold lstat. rewrite Hls. reflexivity. }
  unfold console_error. rewrite emit_run. cbn [fs trace].
  rewrite length_map. now rewrite <- !app_assoc.
Qed.

Lemma cleanupOldDb_stops_at_failing_lstat_witness :
  cleanupOldDb env_unreadable 1 "/proj" world_two
  = (Ok tt,
     {| fs := remove_path ["proj"; "sample_1"] two_stale_fs;
        trace := [EWithProgress "Cleaning up old databases";
                  EReport (Pct 0) None;
                  EUnlink "/proj/sample_1/locked.bin";
                  EUnlink "/proj/sample_1/free.bin";
                  ERmdir "/proj/sample_1";
                  EReport (Ratio 1 3) None;
                  EConsole "Error cleaning up database folder:"
                    (Some (SystemError Lstat EACCES "/proj/sample_2"))] |})
  /\ lookup ["proj"] (remove_path ["proj"; "sample_1"] two_stale_fs)
     = Some (Dir [("sample_2", Dir [("db.bin", File)]);
                  ("src", Dir [("Main.java", File)])]).
Proof.
  apply (cleanupOldDb_stops_at_failing_lstat env_unreadable 1 "/proj" "sample_2"
           world_two
           [("sample_1", Dir [("locked.bin", File); ("free.bin", File)])]
           [("src", Dir [("Main.java", File)])] (Dir [("db.bin", File)]) EACCES).
  - reflexivity.
  - reflexivity.
  - reflexivity.
  - apply Nat.leb_le. reflexivity.
  - reflexivity.
  - intros g m [Heq|[]]. injection Heq as <- <-. intros c ds.
    destruct c; try reflexivity.
    cbn [fault env_unreadable]. destruct ds as [|d ds]; [reflexivity|].
    match goal with
    | |- context [String.eqb ?a ?b] => destruct (String.eqb a b) eqn:E
    end; [|reflexivity].
    apply String.eqb_eq in E. destruct d as [|a d]; discriminate E.
  - reflexivity.
Defined.
